(** * serverless-python-monorepo: the staging and manifest-rewriting pipeline

    A shallow embedding of [lib/monorepo.js]: the manifest rewriter
    [removeTomlEditableDependencies], the stage-and-build pipeline
    [buildDockerPoetryMonorepo] and the packager [zipMonoRepoDeps], over an
    explicit file system, an event trace and oracles for the external
    processes. *)

From Stdlib Require Import ZArith QArith.QArith_base Ascii String Lia.
From stdpp Require Import gmap strings list.

Set Warnings "-register-all".
#[local] Open Scope string_scope.
#[local] Open Scope Z_scope.

(** ** JavaScript strings

    A [string] stands for a JavaScript string with one [ascii] per code
    unit, so that [String.length] is [s.length]. *)

Module JsString.

(** [s.slice(n)] *)
Fixpoint drop (n : nat) (s : string) : string :=
  match n, s with
  | O, _ => s
  | S n', String _ s' => drop n' s'
  | S _, EmptyString => EmptyString
  end.

(** [s.indexOf(pat)]: the position of the first occurrence, or [-1]. *)
Fixpoint indexOf (pat s : string) : Z :=
  if String.prefix pat s then 0
  else match s with
       | EmptyString => -1
       | String _ s' =>
           let i := indexOf pat s' in
           if i <? 0 then -1 else i + 1
       end.

(** [s.replace(pat, rep)] for a string pattern and a replacement without
    [$] patterns: the first occurrence only. *)
Fixpoint replace (pat rep s : string) : string :=
  if String.prefix pat s then rep +:+ drop (String.length pat) s
  else match s with
       | EmptyString => EmptyString
       | String c s' => String c (replace pat rep s')
       end.

(** [s.split(sep)] for a one-character separator. *)
Fixpoint split (sep : ascii) (s : string) : list string :=
  match s with
  | EmptyString => [EmptyString]
  | String c s' =>
      if Ascii.eqb c sep then EmptyString :: split sep s'
      else match split sep s' with
           | [] => [String c EmptyString]
           | h :: t => String c h :: t
           end
  end.

(** [arr.join(sep)] *)
Definition join (sep : string) (l : list string) : string :=
  String.concat sep l.

(** [arr.slice(0, arr.length - 1)] *)
Definition dropLast {A} (l : list A) : list A :=
  take (List.length l - 1)%nat l.

(** [s.charCodeAt(0) === c] *)
Definition startsWithChar (c : ascii) (s : string) : bool :=
  match s with
  | String c' _ => Ascii.eqb c' c
  | EmptyString => false
  end.

(** [s.charCodeAt(s.length - 1) === c] *)
Fixpoint endsWithChar (c : ascii) (s : string) : bool :=
  match s with
  | EmptyString => false
  | String c' EmptyString => Ascii.eqb c' c
  | String _ s' => endsWithChar c s'
  end.

End JsString.

(** ** Node's POSIX [path] module *)

Module Path.
Import JsString.

Definition slash : ascii := "/"%char.

(** [normalizeString], segment by segment; [res] is the result so far,
    last segment first. *)
Fixpoint normalizeSegments (allowAboveRoot : bool) (segs res : list string)
  : list string :=
  match segs with
  | [] => rev res
  | seg :: rest =>
      if String.eqb seg "" || String.eqb seg "." then
        normalizeSegments allowAboveRoot rest res
      else if String.eqb seg ".." then
        match res with
        | last :: res' =>
            if String.eqb last ".." then
              normalizeSegments allowAboveRoot rest
                (if allowAboveRoot then ".." :: res else res)
            else normalizeSegments allowAboveRoot rest res'
        | [] =>
            normalizeSegments allowAboveRoot rest
              (if allowAboveRoot then [".."] else [])
        end
      else normalizeSegments allowAboveRoot rest (seg :: res)
  end.

Definition normalizeString (p : string) (allowAboveRoot : bool) : string :=
  join "/" (normalizeSegments allowAboveRoot (split slash p) []).

(** [path.normalize] *)
Definition normalize (p : string) : string :=
  if (String.length p =? 0)%nat then "."
  else
    let isAbsolute := startsWithChar slash p in
    let trailingSeparator := endsWithChar slash p in
    let q := normalizeString p (negb isAbsolute) in
    if (String.length q =? 0)%nat then
      if isAbsolute then "/"
      else if trailingSeparator then "./" else "."
    else
      let q := if trailingSeparator then q +:+ "/" else q in
      if isAbsolute then "/" +:+ q else q.

(** [path.join(a)] *)
Definition join1 (a : string) : string :=
  if (0 <? String.length a)%nat then normalize a else ".".

(** [path.join(a, b)] *)
Definition join2 (a b : string) : string :=
  let joined :=
    match (0 <? String.length a)%nat, (0 <? String.length b)%nat with
    | true, true => Some (a +:+ "/" +:+ b)
    | true, false => Some a
    | false, true => Some b
    | false, false => None
    end in
  match joined with
  | None => "."
  | Some j => normalize j
  end.

(** [path.join(a, b, c)] *)
Definition join3 (a b c : string) : string :=
  let parts := filter (λ s, String.length s ≠ 0%nat) [a; b; c] in
  match parts with
  | [] => "."
  | _ => normalize (JsString.join "/" parts)
  end.

(** The backwards scan of [path.dirname] over the characters at the
    positions [length - 1 .. 1]; it returns the characters before the
    slash it stops at, last first. *)
Fixpoint dirnameScan (revTail : list ascii) (matchedSlash : bool)
  : option (list ascii) :=
  match revTail with
  | [] => None
  | c :: rest =>
      if Ascii.eqb c slash then
        if matchedSlash then dirnameScan rest true else Some rest
      else dirnameScan rest false
  end.

(** [path.dirname] *)
Definition dirname (p : string) : string :=
  match list_ascii_of_string p with
  | [] => "."
  | c0 :: tl =>
      let hasRoot := Ascii.eqb c0 slash in
      match dirnameScan (rev tl) true with
      | None => if hasRoot then "/" else "."
      | Some [] => if hasRoot then "//" else String c0 ""
      | Some before => string_of_list_ascii (c0 :: rev before)
      end
  end.

(** The backwards scan of [path.basename]: trailing slashes are skipped,
    then characters are collected up to the next slash. *)
Fixpoint basenameScan (revChars : list ascii) (matchedSlash : bool)
  (acc : list ascii) : list ascii :=
  match revChars with
  | [] => acc
  | c :: rest =>
      if Ascii.eqb c slash then
        if matchedSlash then basenameScan rest true acc else acc
      else basenameScan rest false (c :: acc)
  end.

(** [path.basename] *)
Definition basename (p : string) : string :=
  string_of_list_ascii (basenameScan (rev (list_ascii_of_string p)) true []).

End Path.

(** ** TOML documents as the parser returns them *)

Module Toml.

(** A JavaScript number that a TOML float parses to. *)
Inductive tfloat :=
| FNaN
| FInf (negative : bool)
| FFinite (q : Q).

(** Tables are JavaScript objects: association lists in insertion order,
    with distinct keys. *)
Inductive value :=
| VStr (s : string)
| VInt (z : Z)
| VFloat (f : tfloat)
| VBool (b : bool)
| VDate (iso : string)
| VArr (l : list value)
| VTable (l : list (string * value)).

Definition table := list (string * value).

(** [typeof v === 'object'] *)
Definition typeofObject (v : value) : bool :=
  match v with
  | VDate _ | VArr _ | VTable _ => true
  | _ => false
  end.

(** JavaScript truthiness, [None] being [undefined]. *)
Definition truthy (v : option value) : bool :=
  match v with
  | None => false
  | Some (VStr s) => negb (String.eqb s "")
  | Some (VInt z) => negb (z =? 0)
  | Some (VFloat FNaN) => false
  | Some (VFloat (FInf _)) => true
  | Some (VFloat (FFinite q)) => negb (Qnum q =? 0)
  | Some (VBool b) => b
  | Some (VDate _) | Some (VArr _) | Some (VTable _) => true
  end.

Fixpoint assoc (k : string) (t : table) : option value :=
  match t with
  | [] => None
  | (k', v) :: t' => if String.eqb k' k then Some v else assoc k t'
  end.

(** [v[k]] for the keys the code reads ([tool], [poetry], [dependencies],
    [dev-dependencies], [develop], [path]): own properties of tables only;
    strings, arrays, dates and the prototypes have none of them. *)
Definition get (v : value) (k : string) : option value :=
  match v with
  | VTable t => assoc k t
  | _ => None
  end.

(** [delete t[k]] *)
Fixpoint deleteKey (k : string) (t : table) : table :=
  match t with
  | [] => []
  | (k', v) :: t' =>
      if String.eqb k' k then deleteKey k t' else (k', v) :: deleteKey k t'
  end.

(** [t[k] = v]: in place when the key exists, appended otherwise. *)
Fixpoint setKey (k : string) (v : value) (t : table) : table :=
  match t with
  | [] => [(k, v)]
  | (k', v') :: t' =>
      if String.eqb k' k then (k', v) :: t' else (k', v') :: setKey k v t'
  end.

(** [arr.indexOf('..') > -1] on an array: strict equality with an element. *)
Definition arrayHasDotDot (l : list value) : bool :=
  existsb (λ v, match v with VStr s => String.eqb s ".." | _ => false end) l.

(** [doc.tool.poetry.dependencies], [None] where the access yields
    [undefined] or throws. *)
Definition dependenciesOf (doc : value) : option value :=
  tool ← get doc "tool"; poetry ← get tool "poetry"; get poetry "dependencies".

(** [doc.tool.poetry['dev-dependencies']] *)
Definition devDependenciesOf (doc : value) : option value :=
  tool ← get doc "tool"; poetry ← get tool "poetry"; get poetry "dev-dependencies".

(** The dependency entries: the values of a table, the elements of an
    array. *)
Definition entries (dependencies : value) : list value :=
  match dependencies with
  | VTable es => map snd es
  | VArr l => l
  | _ => []
  end.

End Toml.

Import Toml.

(** The interface of [@iarna/toml] that the rewriter uses. [TOML_parse]
    returns [None] where [TOML.parse] throws. *)
Class TOML := {
  TOML_parse : string → option value;
  TOML_stringify : value → string
}.

(** ** Exceptions and results *)

Inductive exn :=
| TypeError
| ParseError
| ENOENT
| ENOTEMPTY
| EEXIST
| ENOTDIR.

Inductive result (A : Type) :=
| Ok (a : A)
| Throw (e : exn).
Arguments Ok {A} a.
Arguments Throw {A} e.

Definition rbind {A B} (r : result A) (k : A → result B) : result B :=
  match r with
  | Ok a => k a
  | Throw e => Throw e
  end.

(** [forEach] with an early exit at the first exception. *)
Fixpoint rmap {A B} (f : A → result B) (l : list A) : result (list B) :=
  match l with
  | [] => Ok []
  | a :: l' =>
      rbind (f a) (λ b, rbind (rmap f l') (λ bs, Ok (b :: bs)))
  end.

(** ** The manifest rewriter on parsed documents *)

Module Rewriter.

(** The container-side directory of the manifest (lines 239-241). *)
Definition dockerModulePath (tomlFilePath projectRootPath : string) : string :=
  let dockerTomlPath := JsString.replace projectRootPath "/var/task" tomlFilePath in
  let dockerModulePath := JsString.split "/" dockerTomlPath in
  JsString.join "/" (JsString.dropLast dockerModulePath).

(** [projectRootPath && projectRootPath.length > 0] *)
Definition rootSupplied (projectRootPath : option string) : option string :=
  match projectRootPath with
  | Some r => if (0 <? String.length r)%nat then Some r else None
  | None => None
  end.

(** Lines 238-246 on the fields of one dependency. Evaluating
    [dependency.path.indexOf('..')] throws when the path is truthy and
    neither a string nor an array; [path.join] throws on an array. *)
Definition rewritePath (tomlFilePath : string) (projectRootPath : option string)
  (dependency : table) : result table :=
  match rootSupplied projectRootPath with
  | None => Ok dependency
  | Some root =>
      if truthy (assoc "path" dependency) then
        match assoc "path" dependency with
        | Some (VStr p) =>
            if JsString.indexOf ".." p >? -1 then
              let finalPath := Path.join2 (dockerModulePath tomlFilePath root) p in
              Ok (setKey "path" (VStr finalPath) dependency)
            else Ok dependency
        | Some (VArr l) =>
            if arrayHasDotDot l then Throw TypeError else Ok dependency
        | _ => Throw TypeError
        end
      else Ok dependency
  end.

(** The body of the [forEach] callback (lines 201-247). *)
Definition rewriteDependency (tomlFilePath : string) (projectRootPath : option string)
  (dependency : value) : result value :=
  if typeofObject dependency then
    match dependency with
    | VTable fields =>
        let fields :=
          if truthy (assoc "develop" fields) then deleteKey "develop" fields
          else fields in
        rbind (rewritePath tomlFilePath projectRootPath fields)
              (λ fields, Ok (VTable fields))
    | _ => Ok dependency
    end
  else Ok dependency.

(** [Object.keys(dependencies).forEach(...)] (lines 198-248): the entries
    of a table, the elements of an array; a string has its characters as
    entries, which are not objects; numbers, booleans and dates have no
    keys. *)
Definition rewriteDependencies (tomlFilePath : string) (projectRootPath : option string)
  (dependencies : value) : result value :=
  match dependencies with
  | VTable entries =>
      rbind (rmap (λ kv, rbind (rewriteDependency tomlFilePath projectRootPath kv.2)
                               (λ v, Ok (kv.1, v))) entries)
            (λ entries, Ok (VTable entries))
  | VArr elements =>
      rbind (rmap (rewriteDependency tomlFilePath projectRootPath) elements)
            (λ elements, Ok (VArr elements))
  | _ => Ok dependencies
  end.

(** Lines 195-250 on the parsed document: [tool.poetry.dependencies] is
    read (a [TypeError] when [tool], [tool.poetry] or the table itself is
    undefined), its entries are rewritten, and [dev-dependencies] is
    deleted from [tool.poetry]. Once the three keys have been read the
    document, [tool] and [tool.poetry] are tables: the last branch of the
    inner match is never taken. *)
Definition rewriteDocument (tomlFilePath : string) (projectRootPath : option string)
  (tomlFileContents : value) : result value :=
  match get tomlFileContents "tool" with
  | None => Throw TypeError
  | Some tool =>
      match get tool "poetry" with
      | None => Throw TypeError
      | Some poetry =>
          match get poetry "dependencies" with
          | None => Throw TypeError
          | Some dependencies =>
              rbind (rewriteDependencies tomlFilePath projectRootPath dependencies)
                (λ dependencies,
                  match tomlFileContents, tool, poetry with
                  | VTable top, VTable toolT, VTable poetryT =>
                      let poetryT := deleteKey "dev-dependencies"
                                       (setKey "dependencies" dependencies poetryT) in
                      Ok (VTable (setKey "tool" (VTable (setKey "poetry" (VTable poetryT) toolT)) top))
                  | _, _, _ => Throw TypeError
                  end)
          end
      end
  end.

End Rewriter.

(** ** The file system, the events of a run and the effect monad *)

Record fs := {
  files : gmap string string;
  dirs : gset string
}.

Inductive event :=
| EvReadFile (p : string)
| EvRmFile (p : string)
| EvRmForce (p : string)
| EvWriteFile (p data : string)
| EvMkdirp (p : string)
| EvEnsureDir (p : string)
| EvEmptyDir (p : string)
| EvRmdir (p : string)
| EvExec (cmd : string)
| EvLog (msg : string).

(** A computation runs on a file system and yields a result or an
    exception, the file system as it has left it, and the events it has
    performed, oldest first. *)
Definition M (A : Type) : Type := fs → result A * fs * list event.

Definition ret {A} (a : A) : M A := λ σ, (Ok a, σ, []).

Definition bind {A B} (m : M A) (k : A → M B) : M B :=
  λ σ,
    match m σ with
    | (Ok a, σ1, t1) =>
        match k a σ1 with
        | (r, σ2, t2) => (r, σ2, (t1 ++ t2)%list)
        end
    | (Throw e, σ1, t1) => (Throw e, σ1, t1)
    end.

Definition lift {A} (r : result A) : M A := λ σ, (r, σ, []).

Declare Scope js_scope.
Delimit Scope js_scope with js.
Notation "'let*' x ':=' m 'in' k" := (bind m (λ x, k))
  (at level 10, x name, m at level 100, k at level 200,
   format "'[v' 'let*'  x  ':='  m  'in' '/' k ']'") : js_scope.
Notation "'do' m 'in' k" := (bind m (λ _, k))
  (at level 10, m at level 100, k at level 200,
   format "'[v' 'do'  m  'in' '/' k ']'") : js_scope.
#[local] Open Scope js_scope.

(** [forEach] of an effectful callback. *)
Fixpoint forEach {A} (f : A → M unit) (l : list A) : M unit :=
  match l with
  | [] => ret tt
  | a :: l' => do f a in forEach f l'
  end.

Module Fs.

(** [p] lies below the directory [d]. *)
Definition under (d p : string) : bool := String.prefix (d +:+ "/") p.

(** [fs.readFileSync(p).toString()] *)
Definition readFileSync (p : string) : M string :=
  λ σ, match files σ !! p with
       | Some data => (Ok data, σ, [EvReadFile p])
       | None => (Throw ENOENT, σ, [EvReadFile p])
       end.

(** [fs.rmSync(p)] *)
Definition rmSync (p : string) : M unit :=
  λ σ, match files σ !! p with
       | Some _ =>
           (Ok tt, {| files := delete p (files σ); dirs := dirs σ |}, [EvRmFile p])
       | None => (Throw ENOENT, σ, [EvRmFile p])
       end.


(** [fs.writeFileSync(p, data)] *)
Definition writeFileSync (p data : string) : M unit :=
  λ σ, (Ok tt, {| files := <[p := data]> (files σ); dirs := dirs σ |},
        [EvWriteFile p data]).

(** A regular file at [p], and a regular file at a path that [d] lies
    below. *)
Definition isFile (p : string) (σ : fs) : bool := bool_decide (is_Some (files σ !! p)).

Definition belowFile (d : string) (σ : fs) : bool :=
  bool_decide (filter (λ kv, under kv.1 d = true) (files σ) ≠ ∅).

(** What keeps [d] from being made a directory: a regular file on the way
    to it ([ENOTDIR]), or a regular file at [d] itself ([EEXIST]). The
    model has files and directories and no permissions: these are the errors
    that depend on what exists. *)
Definition blocked (d : string) (σ : fs) : option exn :=
  if belowFile d σ then Some ENOTDIR
  else if isFile d σ then Some EEXIST
  else None.

(** [fsExtra.mkdirpSync(d)]: it throws when [d] or one of the directories
    above it is a regular file; of the directories it creates only [d]
    itself is tracked. *)
Definition mkdirpSync (d : string) : M unit :=
  λ σ, match blocked d σ with
       | Some e => (Throw e, σ, [EvMkdirp d])
       | None => (Ok tt, {| files := files σ; dirs := {[d]} ∪ dirs σ |}, [EvMkdirp d])
       end.

(** [fsExtra.ensureDirSync(d)], another name of [mkdirpSync]. *)
Definition ensureDirSync (d : string) : M unit :=
  λ σ, match blocked d σ with
       | Some e => (Throw e, σ, [EvEnsureDir d])
       | None => (Ok tt, {| files := files σ; dirs := {[d]} ∪ dirs σ |}, [EvEnsureDir d])
       end.

(** [fsExtra.emptyDirSync(d)]: everything below [d] is removed; when [d]
    cannot be read as a directory it is created as [mkdirpSync] does, which
    throws when [d] or a directory above it is a regular file. *)
Definition emptyDirSync (d : string) : M unit :=
  λ σ, match blocked d σ with
       | Some e => (Throw e, σ, [EvEmptyDir d])
       | None =>
           (Ok tt,
            {| files := filter (λ kv, under d kv.1 = false) (files σ);
               dirs := {[d]} ∪ filter (λ p, under d p = false) (dirs σ) |},
            [EvEmptyDir d])
       end.

(** Something lies below [d]. *)
Definition nonEmpty (d : string) (σ : fs) : bool :=
  bool_decide (filter (λ kv, under d kv.1 = true) (files σ) ≠ ∅)
  || bool_decide (filter (λ p, under d p = true) (dirs σ) ≠ ∅).

(** [fsExtra.rmdirSync(d)] *)
Definition rmdirSync (d : string) : M unit :=
  λ σ, if bool_decide (d ∈ dirs σ) then
         if nonEmpty d σ then (Throw ENOTEMPTY, σ, [EvRmdir d])
         else (Ok tt, {| files := files σ; dirs := dirs σ ∖ {[d]} |}, [EvRmdir d])
       else if isFile d σ then (Throw ENOTDIR, σ, [EvRmdir d])
       else (Throw ENOENT, σ, [EvRmdir d]).

End Fs.

(** ** [removeTomlEditableDependencies] (lines 184-254) *)

Section Rewrite.
Context `{L : TOML}.

(** An argument that is [undefined] or [null] is [None]. *)
Definition removeTomlEditableDependencies
  (tomlFilePath projectRootPath : option string) : M unit :=
  match tomlFilePath with
  | None => ret tt
  | Some tomlFilePath =>
      if (String.length tomlFilePath <? 2)%nat then ret tt
      else
        let* tomlFileStringContents := Fs.readFileSync tomlFilePath in
        let* tomlFileContents :=
          lift (match TOML_parse tomlFileStringContents with
                | Some doc => Ok doc
                | None => Throw ParseError
                end) in
        let* tomlFileContents :=
          lift (Rewriter.rewriteDocument tomlFilePath projectRootPath tomlFileContents) in
        do Fs.rmSync tomlFilePath in
        Fs.writeFileSync tomlFilePath (TOML_stringify tomlFileContents)
  end.

End Rewrite.

(** ** The plugin, its host and the external processes *)

Record options := {
  dockerBuildPoetryMonorepo : bool;
  dockerImage : string
}.

(** [this]: [this.options] and [this.serverless.config.servicePath]. *)
Record plugin := {
  this_options : options;
  servicePath : string
}.

(** What the callback of [child_process.exec] receives. *)
Record execResult := {
  err : bool;
  stdout : string;
  stderr : string
}.

(** The collaborators of the pipeline: the shell, which runs a command on
    the file system, the generated identifier [v4()], and the two helpers
    that [./shared] exports; [getRequirementsWorkingPath] is only called
    with the options [{useStaticCache: true}]. *)
Class Host := {
  exec : string → fs → execResult * fs;
  v4 : string;
  getRequirementsWorkingPath : string → string → string;
  dockerPathForWin : string → string
}.

(** How a promise is rejected: by [reject(reason)], or by an exception
    thrown inside a [then] callback. *)
Inductive rejection :=
| Reason (reason : option string)
| Exception (e : exn).

(** How a promise settles. *)
Inductive settled :=
| Fulfilled
| RejectedBy (r : rejection).

Definition nl : string := String "010"%char "".
Definition dquote : string := String "034"%char "".

Section Pipeline.
Context `{L : TOML} `{host : Host}.

Definition log (msg : string) : M unit := λ σ, (Ok tt, σ, [EvLog msg]).

(** [exec(cmd, callback)]: the process runs, then the callback is called. *)
Definition execM (cmd : string) : M execResult :=
  λ σ, let '(r, σ') := exec cmd σ in (Ok r, σ', [EvExec cmd]).

(** One link of the promise chain; [None] is a promise that resolved, so
    that the chain goes on. *)
Definition P : Type := fs → option rejection * fs * list event.

(** A [then] callback: an exception rejects the promise. *)
Definition callback {A} (m : M A) (k : A → P) : P :=
  λ σ, match m σ with
       | (Ok a, σ1, t1) =>
           match k a σ1 with
           | (r, σ2, t2) => (r, σ2, (t1 ++ t2)%list)
           end
       | (Throw e, σ1, t1) => (Some (Exception e), σ1, t1)
       end.

Definition resolve : P := λ σ, (None, σ, []).
Definition reject (reason : option string) : P := λ σ, (Some (Reason reason), σ, []).

(** [p.then(k)] *)
Definition andThen (p k : P) : P :=
  λ σ, match p σ with
       | (None, σ1, t1) =>
           match k σ1 with
           | (r, σ2, t2) => (r, σ2, (t1 ++ t2)%list)
           end
       | (Some s, σ1, t1) => (Some s, σ1, t1)
       end.

(** The end of the chain: a promise that went through every link is
    fulfilled. *)
Definition settle (p : P) : fs → settled * fs * list event :=
  λ σ, match p σ with
       | (None, σ1, t1) => (Fulfilled, σ1, t1)
       | (Some r, σ1, t1) => (RejectedBy r, σ1, t1)
       end.

Definition bindPathOf (this : plugin) : string :=
  let serverlessMonorepoPath := Path.dirname (servicePath this) in
  dockerPathForWin
    (getRequirementsWorkingPath v4 (Path.join1 (Path.dirname serverlessMonorepoPath))).

Definition serverlessRequirementsZipPathOf (this : plugin) : string :=
  Path.join3 (servicePath this) ".serverless" "requirements".

(** Lines 56-65: the copy into the bind path. *)
Definition copyStep (this : plugin) (serverlessMonorepoPath bindPath : string) : P :=
  callback
    (execM ("rsync -rav --progress " +:+ serverlessMonorepoPath +:+ "/ " +:+ bindPath
            +:+ " --exclude node_modules --exclude .venv --exclude poetry.lock --exclude .git"))
    (λ r, if err r then
            callback (log ("Error copying files from " +:+ serverlessMonorepoPath +:+ " to "
                           +:+ bindPath +:+ ": " +:+ stderr r))
                     (λ _, reject None)
          else resolve).

(** Lines 65-79: the root manifest is rewritten without a project root,
    then the manifests are located; the link resolves with the output of
    [find]. *)
Definition locateStep (tomlFilePath bindPath : string) (k : string → P) : P :=
  callback
    (do log "Updating toml file to remove develop attributes on linked libs" in
     do removeTomlEditableDependencies (Some tomlFilePath) None in
     execM ("find " +:+ bindPath +:+ " -name " +:+ dquote +:+ "pyproject.toml" +:+ dquote))
    (λ r, if err r then
            callback (log ("Error running docker script: " +:+ stderr r))
                     (λ _, reject None)
          else k (stdout r)).

(** Lines 79-106: every located manifest is rewritten with the bind path
    as project root, then the containerized install runs. *)
Definition buildStep (this : plugin) (bindPath apiDirName tomlFilePaths : string) : P :=
  let dockerCmd :=
    "docker run --rm -v " +:+ bindPath +:+ ":/var/task:z -w /var/task/" +:+ apiDirName
    +:+ " " +:+ dockerImage (this_options this) +:+ " poetry install --no-dev" in
  callback
    (do (if (0 <? String.length tomlFilePaths)%nat then
           forEach (λ path, removeTomlEditableDependencies (Some path) (Some bindPath))
                   (JsString.split "010" tomlFilePaths)
         else ret tt) in
     do log "Running docker commands..." in
     do log ("Running " +:+ dockerCmd) in
     execM dockerCmd)
    (λ r, if err r then
            callback (log ("Error running docker script: " +:+ stderr r))
                     (λ _, reject None)
          else callback (log (stdout r)) (λ _, resolve)).

(** Lines 106-121: the installed packages are collected. *)
Definition collectStep (bindPath apiDirName serverlessRequirementsZipPath : string) : P :=
  let copySourcePath :=
    bindPath +:+ "/" +:+ apiDirName +:+ "/.venv/lib/python3.9/site-packages/" in
  callback
    (do log ("Copying dependencies from " +:+ copySourcePath +:+ " to "
             +:+ serverlessRequirementsZipPath) in
     execM ("rsync -rav --progress " +:+ copySourcePath +:+ " " +:+ serverlessRequirementsZipPath
            +:+ " --exclude pip* --exclude setuptools* --exclude wheel* --exclude *.pth"
            +:+ " --exclude *.virtualenv --exclude __pycache__ --exclude _distutils_hack"
            +:+ " --exclude pkg_resources --exclude _virtualenv.py"))
    (λ r, if err r then
            callback (log ("Error copying files from " +:+ bindPath +:+ " to "
                           +:+ serverlessRequirementsZipPath +:+ ": " +:+ stderr r))
                     (λ _, reject None)
          else resolve).

(** Lines 121-127: the bind path is emptied and removed. *)
Definition cleanupStep (bindPath : string) : P :=
  callback
    (do log ("Deleting bind path dir " +:+ bindPath) in
     do Fs.emptyDirSync bindPath in
     Fs.rmdirSync bindPath)
    (λ _, resolve).

(** The remainder of the chain once the copy has resolved. *)
Definition afterCopy (this : plugin) (tomlFilePath bindPath apiDirName
                        serverlessRequirementsZipPath : string) : P :=
  locateStep tomlFilePath bindPath
    (λ tomlFilePaths,
      andThen (buildStep this bindPath apiDirName tomlFilePaths)
        (andThen (collectStep bindPath apiDirName serverlessRequirementsZipPath)
           (cleanupStep bindPath))).

(** The synchronous part (lines 33-52). *)
Definition prepare (this : plugin) (serverlessMonorepoPath bindPath
                      serverlessRequirementsZipPath : string) : M unit :=
  do Fs.mkdirpSync bindPath in
  do Fs.ensureDirSync serverlessRequirementsZipPath in
  do Fs.emptyDirSync serverlessRequirementsZipPath in
  do log ("Created temp Docker bind path " +:+ bindPath) in
  do Fs.emptyDirSync bindPath in
  do log ("Copying monorepo from " +:+ serverlessMonorepoPath +:+ " to " +:+ bindPath) in
  log "Excluding node_modules, .venv, poetry.lock, .git".

(** [buildDockerPoetryMonorepo] (lines 27-128). The call throws what the
    synchronous part throws (lines 33-52), before a promise exists;
    otherwise it returns: [Ok None] is the plain [return] of the disabled
    plugin, [Ok (Some s)] the promise it returns, as it settles. *)
Definition buildDockerPoetryMonorepo (this : plugin)
  : fs → result (option settled) * fs * list event :=
  if negb (dockerBuildPoetryMonorepo (this_options this)) then λ σ, (Ok None, σ, [])
  else
    let serverlessMonorepoPath := Path.dirname (servicePath this) in
    let bindPath := bindPathOf this in
    let serverlessRequirementsZipPath := serverlessRequirementsZipPathOf this in
    let bindPathApiDir := Path.join2 bindPath (Path.basename (servicePath this)) in
    let apiDirName := Path.basename (servicePath this) in
    let tomlFilePath := Path.join2 bindPathApiDir "pyproject.toml" in
    λ σ,
      match prepare this serverlessMonorepoPath bindPath serverlessRequirementsZipPath σ with
      | (Throw e, σ0, t0) => (Throw e, σ0, t0)
      | (Ok _, σ0, t0) =>
          let '(s, σ', t) :=
            settle
              (andThen (copyStep this serverlessMonorepoPath bindPath)
                 (locateStep tomlFilePath bindPath
                    (λ tomlFilePaths,
                      andThen (buildStep this bindPath apiDirName tomlFilePaths)
                        (andThen (collectStep bindPath apiDirName serverlessRequirementsZipPath)
                           (cleanupStep bindPath))))) σ0 in
          (Ok (Some s), σ', (t0 ++ t)%list)
      end.




End Pipeline.

(** ** The incremental packager *)

Section Incremental.
Context `{host : Host}.

(** The command of [addDepsToZipFile] (line 173). *)
Definition addCommandOf (this : plugin) : string :=
  let serverlessRequirementsZipPath := serverlessRequirementsZipPathOf this in
  let apiDirName := Path.basename (servicePath this) in
  "cd " +:+ serverlessRequirementsZipPath +:+ "; zip -ur ../" +:+ apiDirName +:+ ".zip ./*;".

(** [addDepsToZipFile] (lines 161-182). *)
Definition addDepsToZipFile (this : plugin) : fs → option settled * fs * list event :=
  if negb (dockerBuildPoetryMonorepo (this_options this)) then λ σ, (None, σ, [])
  else
    let serverlessRequirementsZipPath := serverlessRequirementsZipPathOf this in
    λ σ,
      let '(s, σ', t) :=
        settle
          (callback
             (do log "Adding dependencies to zip file" in
              execM (addCommandOf this))
             (λ r, if err r then
                     callback (log ("Error zipping requirements files from "
                                    +:+ serverlessRequirementsZipPath +:+ ": " +:+ stderr r))
                              (λ _, reject (Some (stderr r)))
                   else resolve)) σ in
      (Some s, σ', t).

End Incremental.

(** ** [getHandlerSourcePaths] (lines 260-288) *)

Module Handlers.

(** A property of the object [paths]: the array [paths.root], or [true]. *)
Inductive entry :=
| Files (l : list string)
| Flag.

(** The names that the object [{}] inherits from [Object.prototype]:
    reading [paths[k]] for one of them yields a function or an object. *)
Definition inherited : list string :=
  [ "constructor"; "__defineGetter__"; "__defineSetter__"; "hasOwnProperty";
    "__lookupGetter__"; "__lookupSetter__"; "isPrototypeOf";
    "propertyIsEnumerable"; "toString"; "valueOf"; "__proto__"; "toLocaleString" ].

(** [!paths[k]]: arrays, [true] and what is inherited are truthy. *)
Definition absent (paths : gmap string entry) (k : string) : bool :=
  match paths !! k with
  | Some _ => false
  | None => negb (bool_decide (k ∈ inherited))
  end.

(** [`${handler.split('.')[0]}.py`] *)
Definition functionHandlerFile (handler : string) : string :=
  match JsString.split "." handler with
  | first :: _ => first +:+ ".py"
  | [] => ".py"
  end.

(** The body of the [forEach] callback (lines 268-284) for a function whose
    [handler] is the given string, or is undefined. *)
Definition visit (paths : gmap string entry) (handler : option string)
  : result (gmap string entry) :=
  match handler with
  | None => Throw TypeError
  | Some handler =>
      let isInRoot := JsString.indexOf "/" handler =? -1 in
      if isInRoot then
        let paths := if absent paths "root" then <["root" := Files []]> paths else paths in
        match paths !! "root" with
        | Some (Files l) => Ok (<["root" := Files (l ++ [functionHandlerFile handler])]> paths)
        | _ => Throw TypeError
        end
      else
        let parentPath := Path.dirname handler in
        if absent paths parentPath then Ok (<[parentPath := Flag]> paths) else Ok paths
  end.

(** The [forEach] over [Object.keys(functions)], with the functions in the
    order of their keys. *)
Fixpoint visitAll (functions : list (string * option string)) (paths : gmap string entry)
  : result (gmap string entry) :=
  match functions with
  | [] => Ok paths
  | (_, handler) :: rest => rbind (visit paths handler) (visitAll rest)
  end.

Definition getHandlerSourcePaths (functions : list (string * option string))
  : result (gmap string entry) :=
  visitAll functions ∅.

End Handlers.

(** ** A small TOML library

    An instance of the interface for a fragment of TOML: comment lines,
    [[dotted.table]] headers and [key = value] lines whose value is a basic
    string without escapes or a boolean. The serializer lays a document out
    in the manner of [@iarna/toml]: the plain keys of a table first, a
    blank line, then its sub-tables, each under its full dotted header and
    indented below a table that has plain keys. The development uses it
    for concrete runs only; every general statement is about an arbitrary
    [TOML]. *)

Module MiniToml.

Definition space : ascii := " "%char.

Fixpoint ltrim (s : string) : string :=
  match s with
  | String c s' => if Ascii.eqb c space then ltrim s' else s
  | EmptyString => s
  end.

Definition string_rev (s : string) : string :=
  string_of_list_ascii (rev (list_ascii_of_string s)).

Definition trim (s : string) : string :=
  string_rev (ltrim (string_rev (ltrim s))).

(** The text before and after the first [c]. *)
Fixpoint breakAt (c : ascii) (s : string) : option (string * string) :=
  match s with
  | EmptyString => None
  | String c' s' =>
      if Ascii.eqb c' c then Some (EmptyString, s')
      else match breakAt c s' with
           | Some (a, b) => Some (String c' a, b)
           | None => None
           end
  end.

Fixpoint noneOf (bad : list ascii) (s : string) : bool :=
  match s with
  | EmptyString => true
  | String c s' => negb (existsb (Ascii.eqb c) bad) && noneOf bad s'
  end.

Definition parseValue (s : string) : option value :=
  if String.eqb s "true" then Some (VBool true)
  else if String.eqb s "false" then Some (VBool false)
  else match s with
       | String c body =>
           if Ascii.eqb c "034" then
             match string_rev body with
             | String c' inner =>
                 if Ascii.eqb c' "034" && noneOf ["034"; "\"]%char inner
                 then Some (VStr (string_rev inner)) else None
             | EmptyString => None
             end
           else None
       | EmptyString => None
       end.

(** The table at [path] below [t], created on the way, is replaced by
    its image under [f]. *)
Fixpoint updateAt (path : list string) (f : table → table) (t : table) : option table :=
  match path with
  | [] => Some (f t)
  | k :: path' =>
      match assoc k t with
      | None =>
          match updateAt path' f [] with
          | Some sub => Some (setKey k (VTable sub) t)
          | None => None
          end
      | Some (VTable sub) =>
          match updateAt path' f sub with
          | Some sub' => Some (setKey k (VTable sub') t)
          | None => None
          end
      | Some _ => None
      end
  end.

Fixpoint parseLines (lines : list string) (current : list string) (doc : table)
  : option table :=
  match lines with
  | [] => Some doc
  | line :: rest =>
      let line := trim line in
      match line with
      | EmptyString => parseLines rest current doc
      | String c body =>
          if Ascii.eqb c "#" then parseLines rest current doc
          else if Ascii.eqb c "[" then
            match string_rev body with
            | String c' inner =>
                if Ascii.eqb c' "]" then
                  let path := JsString.split "." (string_rev inner) in
                  match updateAt path (λ t, t) doc with
                  | Some doc' => parseLines rest path doc'
                  | None => None
                  end
                else None
            | EmptyString => None
            end
          else
            match breakAt "=" line with
            | Some (k, v) =>
                match parseValue (trim v) with
                | Some v' =>
                    match updateAt current (setKey (trim k) v') doc with
                    | Some doc' => parseLines rest current doc'
                    | None => None
                    end
                | None => None
                end
            | None => None
            end
      end
  end.

Definition parse (s : string) : option value :=
  match parseLines (JsString.split "010" s) [] [] with
  | Some doc => Some (VTable doc)
  | None => None
  end.

(** [isInline]: what is written as [key = value]. *)
Definition isInline (v : value) : bool :=
  match v with
  | VTable [] => true
  | VTable _ => false
  | VArr (VTable _ :: _) => false
  | _ => true
  end.

Definition stringifyInline (v : value) : string :=
  match v with
  | VStr s => dquote +:+ s +:+ dquote
  | VBool true => "true"
  | VBool false => "false"
  | _ => "{ }"
  end.

Fixpoint stringifyObject (prefix indent : string) (obj : value) {struct obj} : string :=
  match obj with
  | VTable t =>
      let inlineLines :=
        map (λ kv, indent +:+ kv.1 +:+ " = " +:+ stringifyInline kv.2)
            (filter (λ kv, isInline kv.2 = true) t) in
      let complexIndent :=
        match prefix, inlineLines with
        | EmptyString, _ | _, [] => ""
        | _, _ => indent +:+ "  "
        end in
      let complex :=
        (fix each (l : list (string * value)) : list string :=
           match l with
           | [] => []
           | (k, v) :: l' =>
               if isInline v then each l'
               else
                 let fullKey := prefix +:+ k in
                 let header :=
                   match v with
                   | VTable sub =>
                       if existsb (λ kv, isInline kv.2) sub
                       then complexIndent +:+ "[" +:+ fullKey +:+ "]" +:+ nl else ""
                   | _ => ""
                   end in
                 (header +:+ stringifyObject (fullKey +:+ ".") complexIndent v) :: each l'
           end) t in
      JsString.join nl
        ((match inlineLines with [] => [] | _ => inlineLines ++ [""] end) ++ complex)%list
  | _ => ""
  end.

Definition stringify (v : value) : string := stringifyObject "" "" v.

#[export] Instance lib : TOML := {| TOML_parse := parse; TOML_stringify := stringify |}.

End MiniToml.

(** ** Auxiliary definitions for the statements *)

(** The document with [tool.poetry['dev-dependencies']] deleted and nothing
    else changed. *)
Definition withoutDevDependencies (doc : value) : value :=
  match doc with
  | VTable top =>
      match assoc "tool" top with
      | Some (VTable toolT) =>
          match assoc "poetry" toolT with
          | Some (VTable poetryT) =>
              VTable (setKey "tool"
                        (VTable (setKey "poetry"
                                   (VTable (deleteKey "dev-dependencies" poetryT)) toolT))
                        top)
          | _ => doc
          end
      | _ => doc
      end
  | _ => doc
  end.

(** A string without the separator is one segment. *)
Definition whole (sep : ascii) (s : string) : Prop := JsString.split sep s = [s].



(** [s.indexOf('..') > -1]: the test of line 238. *)
Definition hasDots (s : string) : bool := JsString.indexOf ".." s >? -1.

(** The entry has a string path that passes the test of line 238. *)
Definition dotsLeft (e : value) : bool :=
  match get e "path" with
  | Some (VStr pth) => hasDots pth
  | _ => false
  end.

(** A directory name without two consecutive dots, or the parent-directory
    segment itself. *)
Definition plainSegment (seg : string) : Prop := seg ≠ ".." → hasDots seg = false.

(** The events of the cleanup link (lines 122-126). *)
Definition cleanupEvents (bindPath : string) : list event :=
  [EvLog ("Deleting bind path dir " +:+ bindPath); EvEmptyDir bindPath; EvRmdir bindPath].

(** The directory [d] and everything below it is gone. *)
Definition removed (d : string) (σ : fs) : Prop :=
  (d ∉ dirs σ) ∧ (∀ p, Fs.under d p = true → files σ !! p = None ∧ p ∉ dirs σ).

(** No [rmdirSync(d)] among the events. *)
Definition quiet (d : string) (t : list event) : Prop := EvRmdir d ∉ t.

Definition MQuiet {A} (d : string) (m : M A) : Prop := ∀ σ, quiet d (m σ).2.

Definition PQuiet (d : string) (p : P) : Prop := ∀ σ, quiet d (p σ).2.

(** A chain that removes [d] as its last act when it resolves, and does not
    remove it when it rejects. *)
Definition cleansUp (d : string) (p : P) : Prop :=
  ∀ σ, match (p σ).1.1 with
       | None => (∃ t0, (p σ).2 = (t0 ++ cleanupEvents d)%list) ∧ removed d (p σ).1.2
       | Some _ => quiet d (p σ).2
       end.

(** A file system with the given files. *)
Definition fsOf (l : list (string * string)) : fs :=
  {| files := list_to_map l; dirs := ∅ |}.

(** ** Manifests and file systems used as concrete inputs *)

Module Fixtures.

Definition manifestPath : string := "/host/stage/api/pyproject.toml".
Definition stageRoot : string := "/host/stage".

Definition quoted (s : string) : string := dquote +:+ s +:+ dquote.

(** The lines, each ended by a newline. *)
Definition text (l : list string) : string :=
  String.concat "" (map (λ s, s +:+ nl) l).

(** A sibling library in develop mode, and a dev-dependency table. *)
Definition siblingManifest : string :=
  text [ "# the api";
         "[tool.poetry]";
         "name = " +:+ quoted "api";
         "";
         "[tool.poetry.dependencies]";
         "python = " +:+ quoted "^3.9";
         "";
         "[tool.poetry.dependencies.sibling]";
         "path = " +:+ quoted "../sibling";
         "develop = true";
         "";
         "[tool.poetry.dev-dependencies]";
         "pytest = " +:+ quoted "^6" ].

(** The document of [siblingManifest], and the document after a rewrite
    with [stageRoot]. *)
Definition siblingDocument : value :=
  VTable [("tool", VTable [("poetry", VTable
    [("name", VStr "api");
     ("dependencies", VTable
        [("python", VStr "^3.9");
         ("sibling", VTable [("path", VStr "../sibling"); ("develop", VBool true)])]);
     ("dev-dependencies", VTable [("pytest", VStr "^6")])])])].

Definition siblingRewritten : value :=
  VTable [("tool", VTable [("poetry", VTable
    [("name", VStr "api");
     ("dependencies", VTable
        [("python", VStr "^3.9");
         ("sibling", VTable [("path", VStr "/var/task/sibling")])])])])].

(** One dependency given by its path. *)
Definition pathManifest (name path : string) : string :=
  text [ "[tool.poetry.dependencies." +:+ name +:+ "]";
         "path = " +:+ quoted path ].

Definition pathDocument (name path : string) : value :=
  VTable [("tool", VTable [("poetry", VTable
    [("dependencies", VTable [(name, VTable [("path", VStr path)])])])])].

(** The document of [commentedManifest] and of [plainManifest]. *)
Definition plainDocument : value :=
  VTable [("tool", VTable [("poetry", VTable
    [("dependencies", VTable [("python", VStr "^3.9"); ("requests", VStr "^2.25")])])])].

(** Version strings only, below a comment. *)
Definition commentedManifest : string :=
  text [ "# pinned for the lambda runtime";
         "[tool.poetry.dependencies]";
         "python = " +:+ quoted "^3.9";
         "requests = " +:+ quoted "^2.25" ].

(** Version strings only, as the serializer writes them. *)
Definition plainManifest : string :=
  text [ "[tool.poetry.dependencies]";
         "python = " +:+ quoted "^3.9";
         "requests = " +:+ quoted "^2.25" ].

(** No dependency table. *)
Definition bareManifest : string :=
  text [ "[tool.poetry]";
         "name = " +:+ quoted "api" ].

(** The staged tree with one manifest. *)
Definition staged (contents : string) : fs := fsOf [(manifestPath, contents)].

(** The events of a rewrite that returns. *)
Definition rewriteEvents (written : string) : list event :=
  [EvReadFile manifestPath; EvRmFile manifestPath; EvWriteFile manifestPath written].

(** The plugin on the service [/work/repo/api]. *)
Definition service : plugin :=
  {| this_options := {| dockerBuildPoetryMonorepo := true;
                        dockerImage := "python-builder:latest" |};
     servicePath := "/work/repo/api" |}.

Definition stagingDirectory : string := "/work/0000_slspyc".
Definition stagedManifest : string := "/work/0000_slspyc/api/pyproject.toml".

Definition succeeded : execResult := {| err := false; stdout := ""; stderr := "" |}.

(** A shell whose commands succeed, except those that contain [failing]:
    the copy of the monorepo puts the manifest into the staging directory,
    and [find] prints the path of that manifest. *)
Definition shell (failing : option string) (cmd : string) (σ : fs) : execResult * fs :=
  if match failing with
     | Some f => JsString.indexOf f cmd >? -1
     | None => false
     end
  then ({| err := true; stdout := ""; stderr := "exit status 1" |}, σ)
  else if String.prefix "rsync -rav --progress /work/repo/ " cmd then
    (succeeded,
     {| files := <[stagedManifest := siblingManifest]> (files σ); dirs := dirs σ |})
  else if String.prefix "find " cmd then
    ({| err := false; stdout := stagedManifest +:+ nl; stderr := "" |}, σ)
  else (succeeded, σ).

Definition host (failing : option string) : Host :=
  {| exec := shell failing;
     v4 := "0000";
     getRequirementsWorkingPath := λ id base, base +:+ "/" +:+ id +:+ "_slspyc";
     dockerPathForWin := λ p, p |}.

(** The service before a deployment: an archive of an earlier one. *)
Definition deployed : fs := fsOf [("/work/repo/api/.serverless/api.zip", "PK")].

End Fixtures.

(** ** Auxiliary definitions for the further properties *)

(** What the callback makes of an entry when no project root is supplied:
    a truthy [develop] is deleted from a table, anything else is kept. *)
Definition withoutDevelop (e : value) : value :=
  match e with
  | VTable fields =>
      if truthy (assoc "develop" fields) then VTable (deleteKey "develop" fields) else e
  | _ => e
  end.

(** [doc.tool[key]] and [doc.tool.poetry[key]]. *)
Definition tableOf (doc : value) (key : string) : option value :=
  tool ← get doc "tool"; get tool key.

Definition settingOf (doc : value) (key : string) : option value :=
  poetry ← tableOf doc "poetry"; get poetry key.

(** A value on which [path.indexOf('..') > -1] or the [path.join] after it
    throws: anything but a string, an array only when it has the element
    [".."]. *)
Definition unusablePath (v : value) : Prop :=
  match v with
  | VStr _ => False
  | VArr l => arrayHasDotDot l = true
  | _ => True
  end.

(** What the callback keeps of an entry: a value that is not a table
    unchanged; of a table every field other than [develop] and [path], a
    [develop] that is not truthy, and the presence of [path]. *)
Definition entryKept (e e' : value) : Prop :=
  match e with
  | VTable fields =>
      ∃ fields',
        e' = VTable fields' ∧
        (∀ k, k ≠ "develop" → k ≠ "path" → assoc k fields' = assoc k fields) ∧
        assoc "develop" fields'
        = (if truthy (assoc "develop" fields) then None else assoc "develop" fields) ∧
        (assoc "path" fields' = None ↔ assoc "path" fields = None)
  | _ => e' = e
  end.

(** The commands among the events, in the order in which they ran. *)
Definition commands (t : list event) : list string :=
  omap (λ ev, match ev with EvExec cmd => Some cmd | _ => None end) t.

Definition noCommand (ev : event) : Prop :=
  match ev with EvExec _ => False | _ => True end.

(** The events of the manifest rewriter. *)
Definition fileEvent (ev : event) : Prop :=
  match ev with
  | EvReadFile _ | EvRmFile _ | EvWriteFile _ _ => True
  | _ => False
  end.

(** A directory event on the bind path or on the requirements directory,
    of the kind the pipeline has for it; no forced removal of a file. *)
Definition tidy (bindPath target : string) (ev : event) : Prop :=
  match ev with
  | EvMkdirp d | EvRmdir d => d = bindPath
  | EvEnsureDir d => d = target
  | EvEmptyDir d => d = bindPath ∨ d = target
  | EvRmForce _ => False
  | _ => True
  end.

(** Every event of every run satisfies [φ]. *)
Definition MAll {A} (φ : event → Prop) (m : M A) : Prop := ∀ σ, Forall φ (m σ).2.

Definition PAll (φ : event → Prop) (p : P) : Prop := ∀ σ, Forall φ (p σ).2.

(** A computation that runs the command [cmd] and nothing else when it
    returns, and no command when it throws, which it does only when [may]
    is set. *)
Definition runs (cmd : string) (may : bool) (m : M execResult) : Prop :=
  ∀ σ, match m σ with
       | (Ok _, _, t) => commands t = [cmd]
       | (Throw _, _, t) => may = true ∧ commands t = []
       end.

(** A chain that has run the commands [cmds], in this order, when it
    resolves; that rejects by [reject()] only after a command, with a prefix
    of [cmds] run; and in which an exception is thrown only after one of the
    command lists [thrown]. *)
Definition chain (cmds : list string) (thrown : list (list string)) (p : P) : Prop :=
  ∀ σ, match p σ with
       | (None, _, t) => commands t = cmds
       | (Some (Reason reason), _, t) =>
           reason = None ∧ commands t ≠ [] ∧ commands t `prefix_of` cmds
       | (Some (Exception _), _, t) => commands t ∈ thrown
       end.

Section Stages.
Context `{host : Host}.

(** The commands of lines 57, 70, 96 and 112, and the manifest of line 46. *)
Definition copyCommandOf (this : plugin) : string :=
  "rsync -rav --progress " +:+ Path.dirname (servicePath this) +:+ "/ " +:+ bindPathOf this
  +:+ " --exclude node_modules --exclude .venv --exclude poetry.lock --exclude .git".

Definition findCommandOf (this : plugin) : string :=
  "find " +:+ bindPathOf this +:+ " -name " +:+ dquote +:+ "pyproject.toml" +:+ dquote.

Definition dockerCommandOf (this : plugin) : string :=
  "docker run --rm -v " +:+ bindPathOf this +:+ ":/var/task:z -w /var/task/"
  +:+ Path.basename (servicePath this) +:+ " " +:+ dockerImage (this_options this)
  +:+ " poetry install --no-dev".

Definition collectCommandOf (this : plugin) : string :=
  "rsync -rav --progress "
  +:+ (bindPathOf this +:+ "/" +:+ Path.basename (servicePath this)
       +:+ "/.venv/lib/python3.9/site-packages/")
  +:+ " " +:+ serverlessRequirementsZipPathOf this
  +:+ " --exclude pip* --exclude setuptools* --exclude wheel* --exclude *.pth"
  +:+ " --exclude *.virtualenv --exclude __pycache__ --exclude _distutils_hack"
  +:+ " --exclude pkg_resources --exclude _virtualenv.py".

Definition tomlFilePathOf (this : plugin) : string :=
  Path.join2 (Path.join2 (bindPathOf this) (Path.basename (servicePath this)))
             "pyproject.toml".

End Stages.

(** ** The steps of the pipeline, one by one *)



(** The chain [p] resolves exactly when [R] relates the file system it
    starts from to the one it leaves, and [R] relates it to no other. *)
Definition decides (p : P) (R : fs → fs → Prop) : Prop :=
  ∀ σ, match (p σ).1 with
       | (None, σ') => R σ σ' ∧ ∀ σ'', R σ σ'' → σ'' = σ'
       | (Some _, _) => ∀ σ'', ¬ R σ σ''
       end.

Section Steps.
Context `{L : TOML} `{host : Host}.

(** The command [cmd], run on [σ], succeeds, prints [out] and leaves [σ']. *)
Definition commandPrints (cmd out : string) (σ σ' : fs) : Prop :=
  ∃ r, exec cmd σ = (r, σ') ∧ err r = false ∧ stdout r = out.

Definition commandSucceeds (cmd : string) (σ σ' : fs) : Prop :=
  ∃ out, commandPrints cmd out σ σ'.

(** The rewrite of the manifest [p] returns, and leaves [σ']. *)
Definition rewriteSucceeds (p : string) (root : option string) (σ σ' : fs) : Prop :=
  ∃ t, removeTomlEditableDependencies (Some p) root σ = (Ok tt, σ', t).

(** The manifests [paths] are rewritten in turn, each rewrite returning. *)
Fixpoint allRewritten (root : option string) (paths : list string) (σ σ' : fs) : Prop :=
  match paths with
  | [] => σ' = σ
  | p :: rest => ∃ σ1, rewriteSucceeds p root σ σ1 ∧ allRewritten root rest σ1 σ'
  end.

(** The synchronous part (lines 33-52) returns, and leaves [σ']. *)
Definition prepared (this : plugin) (σ σ' : fs) : Prop :=
  ∃ t, prepare this (Path.dirname (servicePath this)) (bindPathOf this)
         (serverlessRequirementsZipPathOf this) σ = (Ok tt, σ', t).

(** The directory [d] is emptied, then removed (lines 125-126). *)
Definition cleaned (d : string) (σ σ' : fs) : Prop :=
  ∃ σ1 t1 t2, Fs.emptyDirSync d σ = (Ok tt, σ1, t1) ∧ Fs.rmdirSync d σ1 = (Ok tt, σ', t2).

(** The links of the chain after the copy, each succeeding: the manifest
    of the service is rewritten without a project root and the search
    succeeds; every manifest of the listing is rewritten with the bind path
    and the install succeeds; the collection succeeds; the bind path is
    emptied and removed. *)
Definition locateSucceeds (this : plugin) (listing : string) (σ σ' : fs) : Prop :=
  ∃ σ1, rewriteSucceeds (tomlFilePathOf this) None σ σ1 ∧
        commandPrints (findCommandOf this) listing σ1 σ'.

Definition buildSucceeds (this : plugin) (listing : string) (σ σ' : fs) : Prop :=
  ∃ σ1, allRewritten (Some (bindPathOf this)) (JsString.split "010" listing) σ σ1 ∧
        commandSucceeds (dockerCommandOf this) σ1 σ'.

(** Every step of the pipeline succeeds, from the file system [σ] to
    [σ']. *)
Definition everyStepSucceeds (this : plugin) (σ σ' : fs) : Prop :=
  ∃ σ0 σ1 σ2 σ3 σ4 listing,
    prepared this σ σ0 ∧
    commandSucceeds (copyCommandOf this) σ0 σ1 ∧
    locateSucceeds this listing σ1 σ2 ∧
    buildSucceeds this listing σ2 σ3 ∧
    commandSucceeds (collectCommandOf this) σ3 σ4 ∧
    cleaned (bindPathOf this) σ4 σ'.

End Steps.

(** The handler lies at the root of the service (line 269). *)
Definition inRoot (handler : string) : bool := JsString.indexOf "/" handler =? -1.

(** Functions that all have a handler. *)
Definition withHandlers (named : list (string * string)) : list (string * option string) :=
  map (λ nh, (nh.1, Some nh.2)) named.

(** The module files of the handlers at the root, and the directories of
    the others, in the order of the handlers. *)
Definition rootFiles (handlers : list string) : list string :=
  map Handlers.functionHandlerFile (filter (λ h, inRoot h = true) handlers).

Definition directories (handlers : list string) : list string :=
  map Path.dirname (filter (λ h, inRoot h = false) handlers).

(** The property [k] of [paths] once the directories [dirs] have been
    recorded in it: what it was, or the flag of a directory that is not
    the name of an inherited property. *)
Definition flagged (paths : gmap string Handlers.entry) (dirs : list string) (k : string)
  : option Handlers.entry :=
  match paths !! k with
  | Some v => Some v
  | None => if bool_decide (k ∈ dirs ∧ k ∉ Handlers.inherited) then Some Handlers.Flag else None
  end.

(** ** Further concrete inputs *)

Module Samples.

(** A manifest that the parser refuses. *)
Definition brokenManifest : string := Fixtures.text [ "[tool.poetry" ].

(** A dependency whose path is a boolean. *)
Definition flagManifest : string :=
  Fixtures.text [ "[tool.poetry.dependencies.sibling]";
                  "path = true" ].

Definition flagDocument : value :=
  VTable [("tool", VTable [("poetry", VTable
    [("dependencies", VTable [("sibling", VTable [("path", VBool true)])])])])].


(** Functions of a service: handlers in directories, and handlers at the
    root. *)
Definition sourceFunctions : list (string * string) :=
  [ ("hello", "src/handler.hello"); ("bye", "src/api/bye.run");
    ("again", "src/other.again"); ("text", "toString/text.render") ].

Definition laterFunctions : list (string * string) :=
  [ ("bye", "lib/bye.run"); ("pong", "pong.main"); ("ping2", "ping.other") ].

Definition rootDirectoryFunctions : list (string * string) :=
  [ ("hello", "root/handler.hello") ].

(** The listing that [find] prints. *)
Definition listing : list string :=
  [ "/work/0000_slspyc/api/pyproject.toml"; "/work/0000_slspyc/lib/pyproject.toml" ].




End Samples.

(** * Properties *)

(** ** Strings and paths on examples *)

Example join2_sibling : Path.join2 "/var/task/api" "../sibling" = "/var/task/sibling".
Proof. reflexivity. Qed.
Example join2_rel : Path.join2 "api" "../../lib" = "../lib".
Proof. reflexivity. Qed.
Example join2_root : Path.join2 "/var/task/api" "../../../../x" = "/x".
Proof. reflexivity. Qed.
Example join2_trail : Path.join2 "/var/task/api/" "../x/" = "/var/task/x/".
Proof. reflexivity. Qed.
Example dirname1 : Path.dirname "/a/b/c" = "/a/b". Proof. reflexivity. Qed.
Example dirname2 : Path.dirname "/a" = "/". Proof. reflexivity. Qed.
Example dirname3 : Path.dirname "a//b/" = "a/". Proof. reflexivity. Qed.
Example dirname4 : Path.dirname "//a" = "//". Proof. reflexivity. Qed.
Example dirname5 : Path.dirname "a" = ".". Proof. reflexivity. Qed.
Example basename1 : Path.basename "/a/b/c/" = "c". Proof. reflexivity. Qed.
Example basename2 : Path.basename "api" = "api". Proof. reflexivity. Qed.
Example replace1 : JsString.replace "/host/stage" "/var/task" "/host/stage/api/pyproject.toml" = "/var/task/api/pyproject.toml".
Proof. reflexivity. Qed.
Example split1 : JsString.split "/" "/a//b/" = [""; "a"; ""; "b"; ""]. Proof. reflexivity. Qed.
Example idx1 : JsString.indexOf ".." "./a..b" = 3. Proof. reflexivity. Qed.
Example idx2 : JsString.indexOf ".." "./vendor" = -1. Proof. reflexivity. Qed.

Example rewriteDependency_sibling :
  Rewriter.rewriteDependency "/host/stage/api/pyproject.toml" (Some "/host/stage")
    (VTable [("path", VStr "../sibling"); ("develop", VBool true)])
  = Ok (VTable [("path", VStr "/var/task/sibling")]).
Proof. reflexivity. Qed.

(** ** Strings and segments *)

Section StringFacts.
Import JsString.
Implicit Types (s a b pat : string) (sep c : ascii).

Lemma prefix_app pat s : String.prefix pat (pat +:+ s) = true.
Proof.
  induction pat as [|c pat IH]; simpl; [by destruct s|].
  destruct (ascii_dec c c); [done|congruence].
Qed.

Lemma drop_app pat s : drop (String.length pat) (pat +:+ s) = s.
Proof. induction pat as [|c pat IH]; simpl; [done|exact IH]. Qed.

Lemma replace_unfold pat rep s :
  replace pat rep s =
    if String.prefix pat s then rep +:+ drop (String.length pat) s
    else match s with
         | EmptyString => EmptyString
         | String c s' => String c (replace pat rep s')
         end.
Proof. by destruct s. Qed.

(** The staging root at the head of a path is what [replace] replaces. *)
Lemma replace_prefix pat rep s : replace pat rep (pat +:+ s) = rep +:+ s.
Proof. by rewrite replace_unfold, prefix_app, drop_app. Qed.

Lemma indexOf_unfold pat s :
  indexOf pat s =
    if String.prefix pat s then 0
    else match s with
         | EmptyString => -1
         | String _ s' => let i := indexOf pat s' in if i <? 0 then -1 else i + 1
         end.
Proof. by destruct s. Qed.

Lemma indexOf_ge pat s : -1 ≤ indexOf pat s.
Proof.
  induction s as [|c s IH]; rewrite indexOf_unfold.
  - destruct (String.prefix pat ""); lia.
  - destruct (String.prefix pat (String c s)); [lia|]. simpl.
    destruct (indexOf pat s <? 0) eqn:E; [lia|]. apply Z.ltb_ge in E. lia.
Qed.

Lemma indexOf_app a pat b : (indexOf pat (a +:+ pat +:+ b) >? -1) = true.
Proof.
  induction a as [|c a IH].
  - change ("" +:+ pat +:+ b) with (pat +:+ b).
    by rewrite indexOf_unfold, prefix_app.
  - change (String c a +:+ pat +:+ b) with (String c (a +:+ pat +:+ b)).
    rewrite indexOf_unfold. destruct (String.prefix pat _); [done|]. cbv zeta.
    apply Z.gtb_lt in IH.
    destruct (indexOf pat (a +:+ pat +:+ b) <? 0) eqn:E.
    + apply Z.ltb_lt in E. lia.
    + apply Z.gtb_lt. lia.
Qed.

Lemma split_nonempty sep s : split sep s ≠ [].
Proof.
  destruct s as [|c s]; simpl; [done|].
  destruct (Ascii.eqb c sep); [done|]. by destruct (split sep s).
Qed.

Lemma split_app sep a b :
  split sep (a +:+ String sep b) = (split sep a ++ split sep b)%list.
Proof.
  induction a as [|c a IH]; simpl.
  - by rewrite Ascii.eqb_refl.
  - destruct (Ascii.eqb c sep); [by rewrite IH|].
    rewrite IH. pose proof (split_nonempty sep a) as Hne.
    by destruct (split sep a).
Qed.

Lemma split_whole sep s : Forall (whole sep) (split sep s).
Proof.
  induction s as [|c s IH]; simpl.
  - by constructor.
  - destruct (Ascii.eqb c sep) eqn:E; [by constructor|].
    pose proof (split_nonempty sep s) as Hne.
    destruct (split sep s) as [|h t]; [done|].
    inversion IH as [|? ? Hh Ht]; subst. constructor; [|done].
    unfold whole in *. simpl. by rewrite E, Hh.
Qed.

Lemma split_join sep (l : list string) :
  l ≠ [] → Forall (whole sep) l → split sep (join (String sep "") l) = l.
Proof.
  intros Hne Hl. induction Hl as [|x l Hx Hl IH]; [done|].
  destruct l as [|y l]; [exact Hx|].
  change (join (String sep "") (x :: y :: l))
    with (x +:+ String sep (join (String sep "") (y :: l))).
  rewrite split_app, Hx, IH; done.
Qed.

Lemma dropLast_app {A} (l1 l2 : list A) :
  l2 ≠ [] → dropLast (l1 ++ l2) = (l1 ++ dropLast l2)%list.
Proof.
  intros Hne. unfold dropLast. rewrite length_app.
  destruct l2 as [|x l2]; [done|]. simpl length.
  replace (length l1 + S (length l2) - 1)%nat with (length l1 + length l2)%nat by lia.
  rewrite take_app_add. by replace (S (length l2) - 1)%nat with (length l2) by lia.
Qed.

Lemma dropLast_whole {A} (P : A → Prop) (l : list A) : Forall P l → Forall P (dropLast l).
Proof. apply Forall_take. Qed.

(** A segment is a part of the string. *)
Lemma split_head sep s h t : split sep s = h :: t → ∃ b, s = h +:+ b.
Proof.
  revert h t. induction s as [|c s IH]; simpl; intros h t Hs.
  - injection Hs as <- <-. by exists "".
  - destruct (Ascii.eqb c sep); [injection Hs as <- <-; by eexists|].
    destruct (split sep s) as [|h' t'] eqn:E; injection Hs as <- <-.
    + exists s. reflexivity.
    + destruct (IH _ _ eq_refl) as [b ->]. exists b. reflexivity.
Qed.

Lemma split_In sep s x : In x (split sep s) → ∃ a b, s = a +:+ x +:+ b.
Proof.
  induction s as [|c s IH]; simpl.
  - intros [<-|[]]. by exists "", "".
  - destruct (Ascii.eqb c sep).
    + intros [<-|Hx]; [exists "", (String c s); reflexivity|].
      destruct (IH Hx) as (a & b & ->). by exists (String c a), b.
    + destruct (split sep s) as [|h t] eqn:E.
      * by destruct (split_nonempty sep s).
      * intros [<-|Hx].
        -- destruct (split_head _ _ _ _ E) as [b ->]. by exists "", b.
        -- destruct (IH (or_intror Hx)) as (a & b & ->). by exists (String c a), b.
Qed.


End StringFacts.

(** ** Paths *)

Section PathFacts.
Import JsString Path.
Implicit Types (segs res base : list string).




(** The container-side directory of a manifest below the staging root. *)
Lemma dockerModulePath_staged root rel :
  Rewriter.dockerModulePath (root +:+ "/" +:+ rel) root
  = join "/" ("" :: "var" :: "task" :: dropLast (split "/" rel)).
Proof.
  unfold Rewriter.dockerModulePath. rewrite replace_prefix.
  change ("/var/task" +:+ "/" +:+ rel) with ("/var/task" +:+ String "/" rel).
  rewrite split_app.
  change (split "/" "/var/task") with ["" ; "var"; "task"].
  by rewrite dropLast_app by apply split_nonempty.
Qed.

Lemma whole_literals : Forall (whole "/") [""; "var"; "task"].
Proof. repeat constructor. Qed.

Lemma join2_nonempty a b :
  (0 < String.length a)%nat → (0 < String.length b)%nat →
  join2 a b = normalize (a +:+ "/" +:+ b).
Proof.
  intros Ha Hb. unfold join2.
  apply Nat.ltb_lt in Ha, Hb. by rewrite Ha, Hb.
Qed.



End PathFacts.

(** ** Two consecutive dots *)

Section DotsFacts.
Import JsString Path.

Lemma prefix_nil s : String.prefix "" s = true.
Proof. by destruct s. Qed.

Lemma prefix_cons_cons c1 s1 c2 s2 :
  String.prefix (String c1 s1) (String c2 s2)
  = if ascii_dec c1 c2 then String.prefix s1 s2 else false.
Proof. reflexivity. Qed.

Lemma prefix_dot_slash s1 s2 : String.prefix (String "." s1) (String "/" s2) = false.
Proof. rewrite prefix_cons_cons. by destruct (ascii_dec "." "/"). Qed.

Lemma prefix_dots_app a b :
  String.prefix ".." (a +:+ String "/" b) = String.prefix ".." a.
Proof.
  destruct a as [|c [|c' a]].
  - exact (prefix_dot_slash "." b).
  - change (String c "" +:+ String "/" b) with (String c (String "/" b)).
    rewrite !prefix_cons_cons. destruct (ascii_dec "." c); [|done].
    exact (prefix_dot_slash "" b).
  - change (String c (String c' a) +:+ String "/" b)
      with (String c (String c' (a +:+ String "/" b))).
    rewrite !prefix_cons_cons. destruct (ascii_dec "." c); [|done].
    destruct (ascii_dec "." c'); [|done]. by rewrite !prefix_nil.
Qed.

Lemma hasDots_nil : hasDots "" = false.
Proof. reflexivity. Qed.

Lemma hasDots_cons c s : hasDots (String c s) = String.prefix ".." (String c s) || hasDots s.
Proof.
  unfold hasDots. rewrite (indexOf_unfold ".." (String c s)).
  destruct (String.prefix ".." (String c s)); [done|]. cbv zeta. simpl orb.
  pose proof (indexOf_ge ".." s) as Hge.
  destruct (Z.ltb_spec (indexOf ".." s) 0) as [Hlt|Hle].
  - by replace (indexOf ".." s) with (-1) by lia.
  - transitivity true; [apply Z.gtb_lt; lia|symmetry; apply Z.gtb_lt; lia].
Qed.

(** Two consecutive dots do not reach across a separator. *)
Lemma hasDots_app a b : hasDots (a +:+ String "/" b) = hasDots a || hasDots b.
Proof.
  induction a as [|c a IH].
  - change ("" +:+ String "/" b) with (String "/" b). rewrite hasDots_cons.
    by destruct b.
  - change (String c a +:+ String "/" b) with (String c (a +:+ String "/" b)).
    rewrite !hasDots_cons, IH, orb_assoc. do 2 f_equal.
    exact (prefix_dots_app (String c a) b).
Qed.

Lemma hasDots_join (l : list string) :
  Forall (λ s, hasDots s = false) l → hasDots (join "/" l) = false.
Proof.
  induction 1 as [|x l Hx Hl IH]; [done|].
  destruct l as [|y l]; [exact Hx|].
  change (join "/" (x :: y :: l)) with (x +:+ String "/" (join "/" (y :: l))).
  by rewrite hasDots_app, Hx, IH.
Qed.

(** What the normal form of an absolute path is made of. *)
Lemma normalizeSegments_Forall (P : string → Prop) segs res :
  Forall P res → Forall (λ seg, seg ≠ ".." → P seg) segs →
  Forall P (normalizeSegments false segs res).
Proof.
  intros Hres Hsegs. revert res Hres.
  induction Hsegs as [|seg segs Hseg _ IH]; intros res Hres; simpl.
  - by apply Forall_rev.
  - destruct (String.eqb seg "" || String.eqb seg "."); [by apply IH|].
    destruct (String.eqb seg "..") eqn:E.
    + destruct res as [|last res]; [by apply IH|].
      destruct (String.eqb last ".."); [by apply IH|].
      apply IH. by inversion Hres.
    + apply IH. constructor; [|done]. apply Hseg. by apply String.eqb_neq.
Qed.

Lemma normalize_absolute_no_dots tl :
  Forall plainSegment (split "/" (String "/" tl)) →
  hasDots (normalize (String "/" tl)) = false.
Proof.
  intros Hsegs.
  pose proof (normalizeSegments_Forall _ _ [] (List.Forall_nil _) Hsegs) as Hn.
  apply hasDots_join in Hn.
  unfold normalize, normalizeString, slash.
  change (startsWithChar "/" (String "/" tl)) with true.
  change (String.length (String "/" tl) =? 0)%nat with false.
  cbv iota zeta. change (negb true) with false.
  set (q := join "/" (normalizeSegments false (split "/" (String "/" tl)) [])) in *.
  destruct (String.length q =? 0)%nat; [done|].
  change ("/" +:+ ?x) with (String "/" x). rewrite hasDots_cons.
  destruct (endsWithChar "/" (String "/" tl)).
  - change (q +:+ "/") with (q +:+ String "/" ""). rewrite hasDots_app, Hn.
    rewrite orb_false_r. destruct q as [|c q]; [done|].
    change (String c q +:+ String "/" "") with (String c (q +:+ String "/" "")).
    rewrite prefix_cons_cons. by destruct (ascii_dec "." "/").
  - rewrite Hn, orb_false_r. destruct q as [|c q]; [done|].
    rewrite prefix_cons_cons. by destruct (ascii_dec "." "/").
Qed.

(** A path without two consecutive dots has no segment with them. *)
Lemma hasDots_segments s :
  hasDots s = false → Forall (λ seg, hasDots seg = false) (split "/" s).
Proof.
  intros Hs. apply Forall_forall. intros seg Hseg.
  apply list_elem_of_In, split_In in Hseg as (a & b & ->).
  destruct (hasDots seg) eqn:E; [|done].
  assert (hasDots (a +:+ seg +:+ b) = true); [|congruence].
  clear Hs. unfold hasDots in E.
  destruct (Z.gtb_spec (indexOf ".." seg) (-1)) as [Hi|]; [|done]. clear E.
  assert (Hseg : ∃ x y, seg = x +:+ ".." +:+ y).
  { clear a b. induction seg as [|c seg IH]; [done|].
    rewrite indexOf_unfold in Hi.
    destruct (String.prefix ".." (String c seg)) eqn:Ep.
    - exists "". rewrite prefix_cons_cons in Ep.
      destruct (ascii_dec "." c) as [<-|]; [|done].
      destruct seg as [|c' seg]; [done|]. rewrite prefix_cons_cons in Ep.
      destruct (ascii_dec "." c') as [<-|]; [|done]. by exists seg.
    - cbv zeta in Hi. destruct (Z.ltb_spec (indexOf ".." seg) 0); [lia|].
      destruct IH as (x & y & ->); [lia|]. by exists (String c x), y. }
  destruct Hseg as (x & y & ->).
  assert (Hassoc : ∀ u v w, (u +:+ v) +:+ w = u +:+ v +:+ w).
  { intros u v w. induction u as [|c u IHu]; [reflexivity|].
    change ((String c u +:+ v) +:+ w) with (String c ((u +:+ v) +:+ w)).
    change (String c u +:+ v +:+ w) with (String c (u +:+ v +:+ w)).
    by rewrite IHu. }
  replace (a +:+ (x +:+ ".." +:+ y) +:+ b) with ((a +:+ x) +:+ ".." +:+ (y +:+ b)).
  - apply indexOf_app.
  - by rewrite !Hassoc.
Qed.

(** Below the staging root, resolving a path leaves no two consecutive
    dots when the directory names on the way have none. *)
Lemma join2_staged_no_dots root rel pth :
  (0 < String.length pth)%nat →
  Forall plainSegment
         (dropLast (split "/" rel) ++ split "/" pth) →
  hasDots (join2 (Rewriter.dockerModulePath (root +:+ "/" +:+ rel) root) pth) = false.
Proof.
  intros Hpth Hsegs. rewrite dockerModulePath_staged.
  set (D := dropLast (split "/" rel)) in *.
  assert (HD : Forall (whole "/") ("" :: "var" :: "task" :: D)).
  { apply (Forall_app _ [""; "var"; "task"] D). split; [apply whole_literals|].
    apply dropLast_whole, split_whole. }
  set (dir := join "/" ("" :: "var" :: "task" :: D)) in *.
  assert (Hdir : ∃ tl, dir = String "/" tl) by (unfold dir; eexists; reflexivity).
  destruct Hdir as [tl Hdir].
  rewrite join2_nonempty; [|rewrite Hdir; simpl; lia|done].
  assert (Hsplit : split "/" (dir +:+ "/" +:+ pth)
                   = ("" :: "var" :: "task" :: (D ++ split "/" pth))%list).
  { change (dir +:+ "/" +:+ pth) with (dir +:+ String "/" pth).
    rewrite split_app. unfold dir. by rewrite split_join. }
  revert Hsplit. rewrite Hdir.
  change (String "/" tl +:+ "/" +:+ pth) with (String "/" (tl +:+ "/" +:+ pth)).
  intros Hsplit. apply normalize_absolute_no_dots. rewrite Hsplit.
  by repeat (constructor; [done|]).
Qed.

End DotsFacts.

(** ** Tables *)

Section TableFacts.
Implicit Types (k : string) (v : value) (t : table).

Lemma assoc_setKey_eq k v t : assoc k (setKey k v t) = Some v.
Proof.
  induction t as [|[k' v'] t IH]; simpl.
  - by rewrite String.eqb_refl.
  - destruct (String.eqb k' k) eqn:E; simpl; by rewrite E.
Qed.

Lemma assoc_setKey_ne k k' v t : k ≠ k' → assoc k' (setKey k v t) = assoc k' t.
Proof.
  intros Hne. induction t as [|[k0 v0] t IH]; simpl.
  - apply String.eqb_neq in Hne. by rewrite Hne.
  - destruct (String.eqb k0 k) eqn:E; simpl.
    + apply String.eqb_eq in E as ->.
      apply String.eqb_neq in Hne. by rewrite Hne.
    + by rewrite IH.
Qed.

Lemma assoc_deleteKey_eq k t : assoc k (deleteKey k t) = None.
Proof.
  induction t as [|[k' v'] t IH]; simpl; [done|].
  destruct (String.eqb k' k) eqn:E; simpl; [done|]. by rewrite E.
Qed.

Lemma assoc_deleteKey_ne k k' t : k ≠ k' → assoc k' (deleteKey k t) = assoc k' t.
Proof.
  intros Hne. induction t as [|[k0 v0] t IH]; simpl; [done|].
  destruct (String.eqb k0 k) eqn:E; simpl.
  - apply String.eqb_eq in E as ->.
    apply String.eqb_neq in Hne. by rewrite Hne.
  - by rewrite IH.
Qed.

Lemma setKey_same k v t : assoc k t = Some v → setKey k v t = t.
Proof.
  induction t as [|[k' v'] t IH]; simpl; [done|].
  destruct (String.eqb k' k) eqn:E; [congruence|].
  intros Hk. by rewrite IH.
Qed.

Lemma deleteKey_absent k t : assoc k t = None → deleteKey k t = t.
Proof.
  induction t as [|[k' v'] t IH]; simpl; [done|].
  destruct (String.eqb k' k) eqn:E; [done|].
  intros Hk. by rewrite IH.
Qed.

Lemma deleteKey_idem k t : deleteKey k (deleteKey k t) = deleteKey k t.
Proof. apply deleteKey_absent, assoc_deleteKey_eq. Qed.

End TableFacts.

(** ** The rewriter on documents *)

Section RewriterFacts.
Import Rewriter.
Implicit Types (p : string) (root : option string).

Lemma rmap_Forall2 {A B} (f : A → result B) (l : list A) (l' : list B) :
  rmap f l = Ok l' → Forall2 (λ a b, f a = Ok b) l l'.
Proof.
  revert l'. induction l as [|a l IH]; simpl; intros l' Hl.
  - injection Hl as <-. constructor.
  - destruct (f a) as [b|] eqn:Ea; simpl in Hl; [|done].
    destruct (rmap f l) as [bs|] eqn:El; simpl in Hl; [|done].
    injection Hl as <-. constructor; auto.
Qed.

Lemma Forall2_rmap {A B} (f : A → result B) (l : list A) (l' : list B) :
  Forall2 (λ a b, f a = Ok b) l l' → rmap f l = Ok l'.
Proof. induction 1 as [|a b l l' Hab _ IH]; simpl; [done|]. by rewrite Hab, IH. Qed.

(** Entry by entry, keys and positions kept. *)
Lemma rewriteDependencies_table p root (es : table) deps' :
  rewriteDependencies p root (VTable es) = Ok deps' →
  ∃ es', deps' = VTable es' ∧
         Forall2 (λ kv kv', kv'.1 = kv.1 ∧ rewriteDependency p root kv.2 = Ok kv'.2) es es'.
Proof.
  simpl. intros Hr.
  destruct (rmap _ es) as [es'|] eqn:Em; simpl in Hr; [|done].
  injection Hr as <-. exists es'. split; [done|].
  apply rmap_Forall2 in Em.
  eapply Forall2_impl; [exact Em|]. intros [k v] [k' v']; simpl.
  destruct (rewriteDependency p root v); simpl; [|done].
  by intros [= -> ->].
Qed.

Lemma rewriteDependencies_entries p root deps deps' :
  rewriteDependencies p root deps = Ok deps' →
  Forall2 (λ e e', rewriteDependency p root e = Ok e') (entries deps) (entries deps').
Proof.
  destruct deps as [| | | | |l|es]; try (intros [= <-]; simpl; constructor).
  - simpl. intros Hr.
    destruct (rmap _ l) as [l'|] eqn:Em; simpl in Hr; [|done].
    injection Hr as <-. by apply rmap_Forall2.
  - intros (es' & -> & Hes)%rewriteDependencies_table. simpl.
    apply Forall2_fmap. eapply Forall2_impl; [exact Hes|]. by intros ?? [_ ?].
Qed.

(** The shape of a document that is rewritten without an exception, and
    of the document that results. *)
Lemma rewriteDocument_Ok p root doc doc' :
  rewriteDocument p root doc = Ok doc' →
  ∃ top toolT poetryT deps deps',
    doc = VTable top ∧
    assoc "tool" top = Some (VTable toolT) ∧
    assoc "poetry" toolT = Some (VTable poetryT) ∧
    assoc "dependencies" poetryT = Some deps ∧
    rewriteDependencies p root deps = Ok deps' ∧
    doc' = VTable (setKey "tool"
                     (VTable (setKey "poetry"
                                (VTable (deleteKey "dev-dependencies"
                                           (setKey "dependencies" deps' poetryT)))
                                toolT))
                     top).
Proof.
  unfold rewriteDocument. intros Hr.
  destruct (get doc "tool") as [tool|] eqn:Etool; [|done].
  destruct (get tool "poetry") as [poetry|] eqn:Epoetry; [|done].
  destruct (get poetry "dependencies") as [deps|] eqn:Edeps; [|done].
  destruct (rewriteDependencies p root deps) as [deps'|] eqn:Er; simpl in Hr; [|done].
  destruct doc as [| | | | | |top]; try done.
  destruct tool as [| | | | | |toolT]; try done.
  destruct poetry as [| | | | | |poetryT]; try done.
  injection Hr as <-. by exists top, toolT, poetryT, deps, deps'.
Qed.

Lemma rewriteDocument_dependencies p root doc doc' :
  rewriteDocument p root doc = Ok doc' →
  ∃ deps deps',
    dependenciesOf doc = Some deps ∧
    rewriteDependencies p root deps = Ok deps' ∧
    dependenciesOf doc' = Some deps' ∧
    devDependenciesOf doc' = None.
Proof.
  intros (top & toolT & poetryT & deps & deps' & -> & Ht & Hp & Hd & Hr & ->)%rewriteDocument_Ok.
  exists deps, deps'. unfold dependenciesOf, devDependenciesOf. simpl.
  rewrite Ht. simpl. rewrite Hp. simpl. rewrite !assoc_setKey_eq. simpl.
  rewrite !assoc_setKey_eq. simpl.
  rewrite assoc_deleteKey_eq, assoc_deleteKey_ne, assoc_setKey_eq by done.
  done.
Qed.

(** Without [tool.poetry.dependencies] the property access throws. *)
Lemma rewriteDocument_undefined p root doc :
  dependenciesOf doc = None → rewriteDocument p root doc = Throw TypeError.
Proof.
  unfold dependenciesOf, rewriteDocument.
  destruct (get doc "tool") as [tool|]; simpl; [|done].
  destruct (get tool "poetry") as [poetry|]; simpl; [|done].
  by intros ->.
Qed.

End RewriterFacts.

(** ** The rewriter on files *)

Section FileFacts.
Context (L : TOML).
Implicit Types (p : string) (root : option string) (σ : fs).

(** The run of the rewriter on a path of two characters or more. *)
Lemma removeToml_run p root σ :
  (2 ≤ String.length p)%nat →
  removeTomlEditableDependencies (Some p) root σ =
    match files σ !! p with
    | None => (Throw ENOENT, σ, [EvReadFile p])
    | Some contents =>
        match TOML_parse contents with
        | None => (Throw ParseError, σ, [EvReadFile p])
        | Some doc =>
            match Rewriter.rewriteDocument p root doc with
            | Throw e => (Throw e, σ, [EvReadFile p])
            | Ok doc' =>
                (Ok tt,
                 {| files := <[p := TOML_stringify doc']> (files σ); dirs := dirs σ |},
                 [EvReadFile p; EvRmFile p; EvWriteFile p (TOML_stringify doc')])
            end
        end
    end.
Proof.
  intros Hlen. unfold removeTomlEditableDependencies.
  destruct (String.length p <? 2)%nat eqn:E; [apply Nat.ltb_lt in E; lia|].
  unfold bind, lift, Fs.readFileSync, Fs.rmSync, Fs.writeFileSync.
  destruct (files σ !! p) as [contents|] eqn:Ef; [|done].
  destruct (TOML_parse contents) as [doc|]; [|done].
  destruct (Rewriter.rewriteDocument p root doc) as [doc'|]; [|done].
  simpl. rewrite Ef. simpl. by rewrite insert_delete_eq.
Qed.

(** A run that returns has read, parsed and rewritten the manifest and
    written the serialized result over it. *)
Lemma removeToml_Ok p root σ σ' t :
  (2 ≤ String.length p)%nat →
  removeTomlEditableDependencies (Some p) root σ = (Ok tt, σ', t) →
  ∃ contents doc doc',
    files σ !! p = Some contents ∧
    TOML_parse contents = Some doc ∧
    Rewriter.rewriteDocument p root doc = Ok doc' ∧
    σ' = {| files := <[p := TOML_stringify doc']> (files σ); dirs := dirs σ |} ∧
    t = [EvReadFile p; EvRmFile p; EvWriteFile p (TOML_stringify doc')].
Proof.
  intros Hlen. rewrite removeToml_run by done.
  destruct (files σ !! p) as [contents|]; [|done].
  destruct (TOML_parse contents) as [doc|] eqn:Ep; [|done].
  destruct (Rewriter.rewriteDocument p root doc) as [doc'|] eqn:Er; [|done].
  intros [= <- <-]. by exists contents, doc, doc'.
Qed.

End FileFacts.

(** ** One dependency entry *)

Section EntryFacts.
Import Rewriter.
Implicit Types (p : string) (root : option string) (fields : table).

(** The path step either leaves the fields alone or replaces a string
    path that contains two consecutive dots. *)
Lemma rewritePath_Ok p root fields fields' :
  rewritePath p root fields = Ok fields' →
  fields' = fields ∨
  ∃ r pth,
    rootSupplied root = Some r ∧
    assoc "path" fields = Some (VStr pth) ∧
    (JsString.indexOf ".." pth >? -1) = true ∧
    fields' = setKey "path" (VStr (Path.join2 (dockerModulePath p r) pth)) fields.
Proof.
  unfold rewritePath.
  destruct (rootSupplied root) as [r|]; [|intros [= <-]; by left].
  destruct (truthy (assoc "path" fields)); [|intros [= <-]; by left].
  destruct (assoc "path" fields) as [[pth| | | | |l|]|]; try done.
  - destruct (JsString.indexOf ".." pth >? -1) eqn:E; intros [= <-]; [|by left].
    right. by exists r, pth.
  - destruct (arrayHasDotDot l); [done|]. intros [= <-]; by left.
Qed.

Lemma rewritePath_develop p root fields fields' :
  rewritePath p root fields = Ok fields' →
  assoc "develop" fields' = assoc "develop" fields.
Proof.
  intros [->|(r & pth & _ & _ & _ & ->)]%rewritePath_Ok; [done|].
  by rewrite assoc_setKey_ne.
Qed.


(** A string path without two consecutive dots stays. *)
Lemma rewritePath_plain p root fields pth :
  assoc "path" fields = Some (VStr pth) →
  JsString.indexOf ".." pth = -1 →
  rewritePath p root fields = Ok fields.
Proof.
  intros Hp Hi. unfold rewritePath.
  destruct (rootSupplied root); [|done].
  rewrite Hp, Hi. simpl. by destruct (negb _).
Qed.

(** After the callback no entry has a truthy [develop]. *)
Lemma rewriteDependency_develop p root e e' :
  rewriteDependency p root e = Ok e' → truthy (get e' "develop") = false.
Proof.
  unfold rewriteDependency.
  destruct e as [| | | | | |fields]; simpl; try (by intros [= <-]).
  destruct (rewritePath p root _) as [fields'|] eqn:Er; simpl; [|done].
  intros [= <-]. simpl. rewrite (rewritePath_develop _ _ _ _ Er).
  destruct (truthy (assoc "develop" fields)) eqn:Et; [|done].
  by rewrite assoc_deleteKey_eq.
Qed.

(** What is not an object is not touched. *)
Lemma rewriteDependency_plain p root e :
  typeofObject e = false → rewriteDependency p root e = Ok e.
Proof. unfold rewriteDependency. by intros ->. Qed.

Lemma rewriteDependencies_plain p root (es : table) :
  Forall (λ kv, typeofObject kv.2 = false) es →
  rewriteDependencies p root (VTable es) = Ok (VTable es).
Proof.
  intros Hes. simpl.
  assert (rmap (λ kv, rbind (rewriteDependency p root kv.2) (λ v, Ok (kv.1, v))) es = Ok es)
    as ->; [|done].
  induction Hes as [|[k v] es Hv _ IH]; simpl; [done|].
  simpl in Hv. rewrite (rewriteDependency_plain _ _ _ Hv). simpl. by rewrite IH.
Qed.

End EntryFacts.

Lemma withoutDevDependencies_absent doc :
  devDependenciesOf doc = None → withoutDevDependencies doc = doc.
Proof.
  unfold devDependenciesOf, withoutDevDependencies.
  destruct doc as [| | | | | |top]; try done. simpl.
  destruct (assoc "tool" top) as [[| | | | | |toolT]|] eqn:Et; try done. simpl.
  destruct (assoc "poetry" toolT) as [[| | | | | |poetryT]|] eqn:Ep; try done. simpl.
  intros Hd. by rewrite (deleteKey_absent _ _ Hd), (setKey_same _ _ _ Ep), (setKey_same _ _ _ Et).
Qed.


(** ** Manifests on which the rewriter returns *)

Section Returns.
Import Rewriter.
Implicit Types (p : string) (root : option string).





End Returns.

(** ** The rewriter: return values, exceptions and the files it touches *)

(** C8. A manifest path that is [null] or [undefined], empty or one
    character long makes the rewriter return at once: no exception, no
    event (no file read, deleted or written) and the file system as it
    was. *)
Theorem short_manifest_path_is_skipped (L : TOML) (tomlFilePath root : option string) (σ : fs) :
  match tomlFilePath with
  | None => True
  | Some p => (String.length p < 2)%nat
  end →
  removeTomlEditableDependencies tomlFilePath root σ = (Ok tt, σ, []).
Proof.
  unfold removeTomlEditableDependencies.
  destruct tomlFilePath as [p|]; [|done].
  intros Hlen. apply Nat.ltb_lt in Hlen. by rewrite Hlen.
Qed.

Lemma short_manifest_path_is_skipped_witness :
  (String.length "p" < 2)%nat ∧
  removeTomlEditableDependencies (L:=MiniToml.lib) (Some "p") (Some Fixtures.stageRoot)
    (Fixtures.staged Fixtures.siblingManifest)
  = (Ok tt, Fixtures.staged Fixtures.siblingManifest, []).
Proof.
  assert (Hlen : (String.length "p" < 2)%nat) by (simpl; lia).
  split; [exact Hlen|].
  exact (short_manifest_path_is_skipped MiniToml.lib (Some "p") _ _ Hlen).
Defined.

(** C9. A manifest that parses but has no [tool.poetry.dependencies]
    ([tool], [tool.poetry] or the table itself is undefined) makes the
    rewriter throw a [TypeError]; it has only read the file, and the file
    system is as it was. *)
Theorem missing_dependencies_table_throws (L : TOML) (p : string) (root : option string)
  (σ : fs) (contents : string) (doc : value) :
  (2 ≤ String.length p)%nat →
  files σ !! p = Some contents →
  TOML_parse contents = Some doc →
  dependenciesOf doc = None →
  removeTomlEditableDependencies (Some p) root σ = (Throw TypeError, σ, [EvReadFile p]).
Proof.
  intros Hlen Hf Hp Hd. rewrite removeToml_run by done.
  by rewrite Hf, Hp, (rewriteDocument_undefined _ _ _ Hd).
Qed.

Lemma missing_dependencies_table_throws_witness :
  (2 ≤ String.length Fixtures.manifestPath)%nat ∧
  files (Fixtures.staged Fixtures.bareManifest) !! Fixtures.manifestPath
    = Some Fixtures.bareManifest ∧
  MiniToml.parse Fixtures.bareManifest
    = Some (VTable [("tool", VTable [("poetry", VTable [("name", VStr "api")])])]) ∧
  dependenciesOf (VTable [("tool", VTable [("poetry", VTable [("name", VStr "api")])])]) = None ∧
  removeTomlEditableDependencies (L:=MiniToml.lib) (Some Fixtures.manifestPath)
    (Some Fixtures.stageRoot) (Fixtures.staged Fixtures.bareManifest)
  = (Throw TypeError, Fixtures.staged Fixtures.bareManifest, [EvReadFile Fixtures.manifestPath]).
Proof.
  assert (H1 : (2 ≤ String.length Fixtures.manifestPath)%nat) by (vm_compute; lia).
  assert (H2 : files (Fixtures.staged Fixtures.bareManifest) !! Fixtures.manifestPath
               = Some Fixtures.bareManifest) by (vm_compute; reflexivity).
  assert (H3 : MiniToml.parse Fixtures.bareManifest
               = Some (VTable [("tool", VTable [("poetry", VTable [("name", VStr "api")])])]))
    by (vm_compute; reflexivity).
  assert (H4 : dependenciesOf (VTable [("tool", VTable [("poetry", VTable [("name", VStr "api")])])])
               = None) by reflexivity.
  split; [exact H1|]. split; [exact H2|]. split; [exact H3|]. split; [exact H4|].
  exact (missing_dependencies_table_throws MiniToml.lib _ _ _ _ _ H1 H2 H3 H4).
Defined.

(** C6. Whenever the rewriter returns, the manifest holds the
    serialization of a document without [tool.poetry.dev-dependencies],
    whether the manifest had that table or not. *)
Theorem dev_dependencies_removed (L : TOML) (p : string) (root : option string)
  (σ σ' : fs) (t : list event) :
  (2 ≤ String.length p)%nat →
  removeTomlEditableDependencies (Some p) root σ = (Ok tt, σ', t) →
  ∃ doc', files σ' !! p = Some (TOML_stringify doc') ∧ devDependenciesOf doc' = None.
Proof.
  intros Hlen (contents & doc & doc' & Hf & Hp & Hr & -> & ->)%removeToml_Ok; [|done].
  exists doc'. simpl. rewrite lookup_insert_eq. split; [done|].
  by destruct (rewriteDocument_dependencies _ _ _ _ Hr) as (? & ? & _ & _ & _ & ?).
Qed.

Lemma dev_dependencies_removed_witness :
  (2 ≤ String.length Fixtures.manifestPath)%nat ∧
  devDependenciesOf Fixtures.siblingDocument = Some (VTable [("pytest", VStr "^6")]) ∧
  removeTomlEditableDependencies (L:=MiniToml.lib) (Some Fixtures.manifestPath)
    (Some Fixtures.stageRoot) (Fixtures.staged Fixtures.siblingManifest)
  = (Ok tt, Fixtures.staged (MiniToml.stringify Fixtures.siblingRewritten),
     Fixtures.rewriteEvents (MiniToml.stringify Fixtures.siblingRewritten)) ∧
  ∃ doc',
    files (Fixtures.staged (MiniToml.stringify Fixtures.siblingRewritten)) !! Fixtures.manifestPath
      = Some (MiniToml.stringify doc') ∧
    devDependenciesOf doc' = None.
Proof.
  assert (Hlen : (2 ≤ String.length Fixtures.manifestPath)%nat) by (vm_compute; lia).
  assert (Hrun : removeTomlEditableDependencies (L:=MiniToml.lib) (Some Fixtures.manifestPath)
                   (Some Fixtures.stageRoot) (Fixtures.staged Fixtures.siblingManifest)
                 = (Ok tt, Fixtures.staged (MiniToml.stringify Fixtures.siblingRewritten),
                    Fixtures.rewriteEvents (MiniToml.stringify Fixtures.siblingRewritten)))
    by (vm_compute; reflexivity).
  split; [exact Hlen|]. split; [reflexivity|]. split; [exact Hrun|].
  exact (dev_dependencies_removed MiniToml.lib Fixtures.manifestPath (Some Fixtures.stageRoot)
           (Fixtures.staged Fixtures.siblingManifest) _ _ Hlen Hrun).
Defined.

(** An entry of the dependency table, followed through a run that
    returns: the manifest then holds a document whose table has, at the
    same position and under the same name, the entry as the callback
    rewrites it. *)
Lemma removeToml_entry (L : TOML) (p : string) (root : option string) (σ σ' : fs)
  (t : list event) (contents : string) (doc : value) (es : table) (i : nat)
  (name : string) (e : value) :
  (2 ≤ String.length p)%nat →
  files σ !! p = Some contents →
  TOML_parse contents = Some doc →
  dependenciesOf doc = Some (VTable es) →
  es !! i = Some (name, e) →
  removeTomlEditableDependencies (Some p) root σ = (Ok tt, σ', t) →
  ∃ doc' es' e',
    files σ' !! p = Some (TOML_stringify doc') ∧
    dependenciesOf doc' = Some (VTable es') ∧
    es' !! i = Some (name, e') ∧
    Rewriter.rewriteDependency p root e = Ok e'.
Proof.
  intros Hlen Hf Hp Hd Hi (contents0 & doc0 & doc' & Hf0 & Hp0 & Hr & -> & ->)%removeToml_Ok;
    [|done].
  rewrite Hf in Hf0. injection Hf0 as <-. rewrite Hp in Hp0. injection Hp0 as <-.
  destruct (rewriteDocument_dependencies _ _ _ _ Hr) as (deps & deps' & Hd0 & Hrd & Hd' & _).
  rewrite Hd in Hd0. injection Hd0 as <-.
  destruct (rewriteDependencies_table _ _ _ _ Hrd) as (es' & -> & Hes).
  destruct (Forall2_lookup_l _ _ _ _ _ Hes Hi) as ([name' e'] & Hi' & Hname & He').
  simpl in Hname, He'. subst name'.
  exists doc', es', e'. simpl. by rewrite lookup_insert_eq.
Qed.



(** What the run of the witness is. *)
Example sibling_manifest_run :
  removeTomlEditableDependencies (L:=MiniToml.lib) (Some "/host/stage/api/pyproject.toml")
    (Some "/host/stage") (Fixtures.staged Fixtures.siblingManifest)
  = (Ok tt, Fixtures.staged (MiniToml.stringify Fixtures.siblingRewritten),
     Fixtures.rewriteEvents (MiniToml.stringify Fixtures.siblingRewritten)).
Proof. vm_compute. reflexivity. Qed.

(** ** Paths that the rewriter leaves alone *)

(** C5 does not hold as the specification states it:
    [./my..lib] has no parent-directory
    segment, yet the test is [indexOf('..') > -1], and the path is
    rewritten. *)
Lemma path_without_parent_segment_is_rewritten :
  existsb (String.eqb "..") (JsString.split "/" "./my..lib") = false ∧
  MiniToml.parse (Fixtures.pathManifest "shared" "./my..lib")
    = Some (Fixtures.pathDocument "shared" "./my..lib") ∧
  removeTomlEditableDependencies (L:=MiniToml.lib) (Some Fixtures.manifestPath)
    (Some Fixtures.stageRoot) (Fixtures.staged (Fixtures.pathManifest "shared" "./my..lib"))
  = (Ok tt,
     Fixtures.staged (Fixtures.pathManifest "shared" "/var/task/api/my..lib"),
     Fixtures.rewriteEvents (Fixtures.pathManifest "shared" "/var/task/api/my..lib")) ∧
  MiniToml.parse (Fixtures.pathManifest "shared" "/var/task/api/my..lib")
    = Some (Fixtures.pathDocument "shared" "/var/task/api/my..lib").
Proof. repeat split; vm_compute; reflexivity. Qed.

(** C5, amended. A dependency whose path is a string without two
    consecutive dots keeps that path through a rewrite that returns,
    whatever project root is supplied. *)
Theorem path_without_dots_is_kept (L : TOML) (p : string) (root : option string)
  (σ σ' : fs) (t : list event) (contents : string) (doc : value) (es : table)
  (i : nat) (name : string) (fields : table) (pth : string) :
  (2 ≤ String.length p)%nat →
  files σ !! p = Some contents →
  TOML_parse contents = Some doc →
  dependenciesOf doc = Some (VTable es) →
  es !! i = Some (name, VTable fields) →
  assoc "path" fields = Some (VStr pth) →
  JsString.indexOf ".." pth = -1 →
  removeTomlEditableDependencies (Some p) root σ = (Ok tt, σ', t) →
  ∃ doc' es' fields',
    files σ' !! p = Some (TOML_stringify doc') ∧
    dependenciesOf doc' = Some (VTable es') ∧
    es' !! i = Some (name, VTable fields') ∧
    assoc "path" fields' = Some (VStr pth).
Proof.
  intros Hlen Hf Hp Hd Hi Hpath Hdots Hrun.
  destruct (removeToml_entry L _ _ _ _ _ _ _ _ _ _ _ Hlen Hf Hp Hd Hi Hrun)
    as (doc' & es' & e' & Hf' & Hd' & Hi' & He').
  unfold Rewriter.rewriteDependency in He'. simpl in He'.
  set (fields1 := if truthy (assoc "develop" fields) then deleteKey "develop" fields
                  else fields) in He'.
  assert (Hpath1 : assoc "path" fields1 = Some (VStr pth)).
  { unfold fields1. destruct (truthy _); [|done]. by rewrite assoc_deleteKey_ne. }
  rewrite (rewritePath_plain _ _ _ _ Hpath1 Hdots) in He'. simpl in He'.
  injection He' as <-. by exists doc', es', fields1.
Qed.

Lemma path_without_dots_is_kept_witness :
  (2 ≤ String.length Fixtures.manifestPath)%nat ∧
  files (Fixtures.staged (Fixtures.pathManifest "vendor" "./vendor")) !! Fixtures.manifestPath
    = Some (Fixtures.pathManifest "vendor" "./vendor") ∧
  MiniToml.parse (Fixtures.pathManifest "vendor" "./vendor")
    = Some (Fixtures.pathDocument "vendor" "./vendor") ∧
  JsString.indexOf ".." "./vendor" = -1 ∧
  removeTomlEditableDependencies (L:=MiniToml.lib) (Some Fixtures.manifestPath)
    (Some Fixtures.stageRoot) (Fixtures.staged (Fixtures.pathManifest "vendor" "./vendor"))
  = (Ok tt, Fixtures.staged (Fixtures.pathManifest "vendor" "./vendor"),
     Fixtures.rewriteEvents (Fixtures.pathManifest "vendor" "./vendor")) ∧
  ∃ doc' es' fields',
    files (Fixtures.staged (Fixtures.pathManifest "vendor" "./vendor")) !! Fixtures.manifestPath
      = Some (MiniToml.stringify doc') ∧
    dependenciesOf doc' = Some (VTable es') ∧
    es' !! 0%nat = Some ("vendor", VTable fields') ∧
    assoc "path" fields' = Some (VStr "./vendor").
Proof.
  assert (Hlen : (2 ≤ String.length Fixtures.manifestPath)%nat) by (vm_compute; lia).
  assert (Hf : files (Fixtures.staged (Fixtures.pathManifest "vendor" "./vendor"))
                 !! Fixtures.manifestPath = Some (Fixtures.pathManifest "vendor" "./vendor"))
    by (vm_compute; reflexivity).
  assert (Hp : MiniToml.parse (Fixtures.pathManifest "vendor" "./vendor")
               = Some (Fixtures.pathDocument "vendor" "./vendor")) by (vm_compute; reflexivity).
  assert (Hdots : JsString.indexOf ".." "./vendor" = -1) by reflexivity.
  assert (Hrun : removeTomlEditableDependencies (L:=MiniToml.lib) (Some Fixtures.manifestPath)
                   (Some Fixtures.stageRoot)
                   (Fixtures.staged (Fixtures.pathManifest "vendor" "./vendor"))
                 = (Ok tt, Fixtures.staged (Fixtures.pathManifest "vendor" "./vendor"),
                    Fixtures.rewriteEvents (Fixtures.pathManifest "vendor" "./vendor")))
    by (vm_compute; reflexivity).
  split; [exact Hlen|]. split; [exact Hf|]. split; [exact Hp|]. split; [exact Hdots|].
  split; [exact Hrun|].
  exact (path_without_dots_is_kept MiniToml.lib Fixtures.manifestPath (Some Fixtures.stageRoot)
           (Fixtures.staged (Fixtures.pathManifest "vendor" "./vendor")) _ _
           (Fixtures.pathManifest "vendor" "./vendor") (Fixtures.pathDocument "vendor" "./vendor")
           [("vendor", VTable [("path", VStr "./vendor")])] 0%nat "vendor"
           [("path", VStr "./vendor")] "./vendor"
           Hlen Hf Hp eq_refl eq_refl eq_refl Hdots Hrun).
Defined.

(** ** Manifests with version strings only *)

Lemma rewriteDocument_plain (p : string) (root : option string) (doc : value) (es : table) :
  dependenciesOf doc = Some (VTable es) →
  Forall (λ kv, typeofObject kv.2 = false) es →
  Rewriter.rewriteDocument p root doc = Ok (withoutDevDependencies doc).
Proof.
  unfold dependenciesOf, Rewriter.rewriteDocument, withoutDevDependencies.
  intros Hd Hes.
  destruct doc as [| | | | | |top]; try done. simpl in *.
  destruct (assoc "tool" top) as [[| | | | | |toolT]|]; try done. simpl in *.
  destruct (assoc "poetry" toolT) as [[| | | | | |poetryT]|]; try done. simpl in *.
  rewrite Hd, (rewriteDependencies_plain _ _ _ Hes). simpl.
  by rewrite (setKey_same _ _ _ Hd).
Qed.

(** C7 does not hold as the specification states it:
    the file is parsed and serialized
    again, and what the document does not hold, here a comment line, is not
    written back. *)
Lemma comment_is_not_written_back :
  MiniToml.parse Fixtures.commentedManifest = Some Fixtures.plainDocument ∧
  dependenciesOf Fixtures.plainDocument
    = Some (VTable [("python", VStr "^3.9"); ("requests", VStr "^2.25")]) ∧
  devDependenciesOf Fixtures.plainDocument = None ∧
  removeTomlEditableDependencies (L:=MiniToml.lib) (Some Fixtures.manifestPath)
    (Some Fixtures.stageRoot) (Fixtures.staged Fixtures.commentedManifest)
  = (Ok tt, Fixtures.staged Fixtures.plainManifest,
     Fixtures.rewriteEvents Fixtures.plainManifest) ∧
  String.eqb Fixtures.plainManifest Fixtures.commentedManifest = false.
Proof. repeat split; vm_compute; reflexivity. Qed.

(** Whatever the library: of two different files that parse to one
    document, at most one can be written back as it was. *)
Lemma one_document_one_serialization (L : TOML) (p : string) (root : option string)
  (c1 c2 : string) (doc : value) (es : table) :
  (2 ≤ String.length p)%nat →
  c1 ≠ c2 →
  TOML_parse c1 = Some doc →
  TOML_parse c2 = Some doc →
  dependenciesOf doc = Some (VTable es) →
  Forall (λ kv, typeofObject kv.2 = false) es →
  ¬ ((removeTomlEditableDependencies (Some p) root (fsOf [(p, c1)])).1.2 = fsOf [(p, c1)] ∧
     (removeTomlEditableDependencies (Some p) root (fsOf [(p, c2)])).1.2 = fsOf [(p, c2)]).
Proof.
  intros Hlen Hne Hp1 Hp2 Hd Hes [H1 H2].
  rewrite removeToml_run in H1, H2 by done.
  assert (Hl : ∀ c, files (fsOf [(p, c)]) !! p = Some c).
  { intros c. unfold fsOf. simpl. apply lookup_insert_eq. }
  rewrite Hl in H1, H2. cbv beta iota in H1, H2.
  rewrite Hp1 in H1. rewrite Hp2 in H2. cbv beta iota in H1, H2.
  rewrite (rewriteDocument_plain _ _ _ _ Hd Hes) in H1, H2.
  cbv beta iota in H1, H2.
  apply (f_equal (λ σ, files σ !! p)) in H1, H2. cbn [fst snd files] in H1, H2.
  rewrite lookup_insert_eq, Hl in H1, H2. congruence.
Qed.

(** C7, amended. When no dependency is an object, the rewriter returns and
    writes the serialization of the parsed document with only
    [dev-dependencies] deleted; that leaves the file as it was when the
    document has no such table and the file is what the serializer writes
    for its document. *)
Theorem plain_manifest_is_reserialized (L : TOML) (p : string) (root : option string)
  (σ : fs) (contents : string) (doc : value) (es : table) :
  (2 ≤ String.length p)%nat →
  files σ !! p = Some contents →
  TOML_parse contents = Some doc →
  dependenciesOf doc = Some (VTable es) →
  Forall (λ kv, typeofObject kv.2 = false) es →
  let written := TOML_stringify (withoutDevDependencies doc) in
  removeTomlEditableDependencies (Some p) root σ
    = (Ok tt, {| files := <[p := written]> (files σ); dirs := dirs σ |},
       [EvReadFile p; EvRmFile p; EvWriteFile p written]) ∧
  (devDependenciesOf doc = None → TOML_stringify doc = contents →
   (removeTomlEditableDependencies (Some p) root σ).1.2 = σ).
Proof.
  intros Hlen Hf Hp Hd Hes written.
  assert (Hrun : removeTomlEditableDependencies (Some p) root σ
                 = (Ok tt, {| files := <[p := written]> (files σ); dirs := dirs σ |},
                    [EvReadFile p; EvRmFile p; EvWriteFile p written])).
  { rewrite removeToml_run by done.
    by rewrite Hf, Hp, (rewriteDocument_plain _ _ _ _ Hd Hes). }
  split; [exact Hrun|].
  intros Hdev Hs. rewrite Hrun. simpl. unfold written.
  rewrite (withoutDevDependencies_absent _ Hdev), Hs, (insert_id _ _ _ Hf).
  by destruct σ.
Qed.

Lemma plain_manifest_is_reserialized_witness :
  (2 ≤ String.length Fixtures.manifestPath)%nat ∧
  files (Fixtures.staged Fixtures.plainManifest) !! Fixtures.manifestPath
    = Some Fixtures.plainManifest ∧
  MiniToml.parse Fixtures.plainManifest = Some Fixtures.plainDocument ∧
  Forall (λ kv : string * value, typeofObject kv.2 = false)
    [("python", VStr "^3.9"); ("requests", VStr "^2.25")] ∧
  devDependenciesOf Fixtures.plainDocument = None ∧
  MiniToml.stringify Fixtures.plainDocument = Fixtures.plainManifest ∧
  (removeTomlEditableDependencies (L:=MiniToml.lib) (Some Fixtures.manifestPath)
     (Some Fixtures.stageRoot) (Fixtures.staged Fixtures.plainManifest)).1.2
  = Fixtures.staged Fixtures.plainManifest.
Proof.
  assert (Hlen : (2 ≤ String.length Fixtures.manifestPath)%nat) by (vm_compute; lia).
  assert (Hf : files (Fixtures.staged Fixtures.plainManifest) !! Fixtures.manifestPath
               = Some Fixtures.plainManifest) by (vm_compute; reflexivity).
  assert (Hp : MiniToml.parse Fixtures.plainManifest = Some Fixtures.plainDocument)
    by (vm_compute; reflexivity).
  assert (Hes : Forall (λ kv : string * value, typeofObject kv.2 = false)
                  [("python", VStr "^3.9"); ("requests", VStr "^2.25")])
    by (repeat constructor).
  assert (Hdev : devDependenciesOf Fixtures.plainDocument = None) by reflexivity.
  assert (Hs : MiniToml.stringify Fixtures.plainDocument = Fixtures.plainManifest)
    by (vm_compute; reflexivity).
  split; [exact Hlen|]. split; [exact Hf|]. split; [exact Hp|]. split; [exact Hes|].
  split; [exact Hdev|]. split; [exact Hs|].
  exact (proj2 (plain_manifest_is_reserialized MiniToml.lib Fixtures.manifestPath
                  (Some Fixtures.stageRoot) (Fixtures.staged Fixtures.plainManifest)
                  Fixtures.plainManifest Fixtures.plainDocument
                  [("python", VStr "^3.9"); ("requests", VStr "^2.25")]
                  Hlen Hf Hp eq_refl Hes) Hdev Hs).
Defined.

(** ** The packager *)



(** ** The stage-and-build pipeline *)

Section PipelineFacts.
Context (L : TOML) (host : Host).
Implicit Types (d : string) (σ : fs).

Lemma quiet_app d (t1 t2 : list event) : quiet d t1 → quiet d t2 → quiet d (t1 ++ t2)%list.
Proof. unfold quiet. rewrite elem_of_app. tauto. Qed.

(** Events that are listed and are no [rmdirSync]. *)
Ltac quiet_events :=
  unfold quiet; intros Hin;
  repeat (apply elem_of_cons in Hin as [Hin|Hin]; [discriminate Hin|]);
  by apply elem_of_nil in Hin.

Lemma ret_quiet {A} d (a : A) : MQuiet d (ret a).
Proof. intros σ. simpl. quiet_events. Qed.

Lemma log_quiet d msg : MQuiet d (log msg).
Proof. intros σ. simpl. quiet_events. Qed.

Lemma execM_quiet d cmd : MQuiet d (execM cmd).
Proof. intros σ. unfold execM. destruct (exec cmd σ). simpl. quiet_events. Qed.

Lemma mkdirpSync_quiet d p : MQuiet d (Fs.mkdirpSync p).
Proof. intros σ. unfold Fs.mkdirpSync. destruct (Fs.blocked p σ); simpl; quiet_events. Qed.

Lemma ensureDirSync_quiet d p : MQuiet d (Fs.ensureDirSync p).
Proof. intros σ. unfold Fs.ensureDirSync. destruct (Fs.blocked p σ); simpl; quiet_events. Qed.

Lemma emptyDirSync_quiet d p : MQuiet d (Fs.emptyDirSync p).
Proof. intros σ. unfold Fs.emptyDirSync. destruct (Fs.blocked p σ); simpl; quiet_events. Qed.

Lemma bind_quiet {A B} d (m : M A) (k : A → M B) :
  MQuiet d m → (∀ a, MQuiet d (k a)) → MQuiet d (bind m k).
Proof.
  intros Hm Hk σ. unfold bind. specialize (Hm σ).
  destruct (m σ) as [[[a|e] σ1] t1]; simpl in *; [|done].
  specialize (Hk a σ1). destruct (k a σ1) as [[r σ2] t2]. simpl in *.
  by apply quiet_app.
Qed.

Lemma removeToml_quiet d (tomlFilePath root : option string) :
  MQuiet d (removeTomlEditableDependencies tomlFilePath root).
Proof.
  intros σ. destruct tomlFilePath as [p|]; [|apply ret_quiet].
  destruct (decide (2 ≤ String.length p)%nat) as [Hlen|Hlen].
  - rewrite removeToml_run by done.
    destruct (files σ !! p) as [contents|]; [|simpl; quiet_events].
    destruct (TOML_parse contents) as [doc|]; [|simpl; quiet_events].
    destruct (Rewriter.rewriteDocument p root doc); simpl; quiet_events.
  - unfold removeTomlEditableDependencies.
    destruct (String.length p <? 2)%nat eqn:E; [apply ret_quiet|].
    apply Nat.ltb_ge in E. lia.
Qed.

Lemma forEach_quiet {A} d (f : A → M unit) (l : list A) :
  (∀ a, MQuiet d (f a)) → MQuiet d (forEach f l).
Proof.
  intros Hf. induction l as [|a l IH]; simpl; [apply ret_quiet|].
  apply bind_quiet; auto.
Qed.

Lemma resolve_quiet d : PQuiet d resolve.
Proof. intros σ. simpl. quiet_events. Qed.

Lemma reject_quiet d reason : PQuiet d (reject reason).
Proof. intros σ. simpl. quiet_events. Qed.

Lemma callback_quiet {A} d (m : M A) (k : A → P) :
  MQuiet d m → (∀ a, PQuiet d (k a)) → PQuiet d (callback m k).
Proof.
  intros Hm Hk σ. unfold callback. specialize (Hm σ).
  destruct (m σ) as [[[a|e] σ1] t1]; simpl in *; [|done].
  specialize (Hk a σ1). destruct (k a σ1) as [[r σ2] t2]. simpl in *.
  by apply quiet_app.
Qed.

(** The error branch of an [exec] callback: the diagnostic is logged and
    the promise rejected. *)
Lemma failure_quiet d msg reason : PQuiet d (callback (log msg) (λ _, reject reason)).
Proof. apply callback_quiet; [apply log_quiet|intros _; apply reject_quiet]. Qed.

Lemma copyStep_quiet d this from to : PQuiet d (copyStep this from to).
Proof.
  apply callback_quiet; [apply execM_quiet|]. intros r.
  destruct (err r); [apply failure_quiet|apply resolve_quiet].
Qed.

Lemma buildStep_quiet d this bindPath apiDirName tomlFilePaths :
  PQuiet d (buildStep this bindPath apiDirName tomlFilePaths).
Proof.
  apply callback_quiet.
  - apply bind_quiet; [|intros _; repeat (apply bind_quiet; [apply log_quiet|intros _]);
                          apply execM_quiet].
    destruct (0 <? String.length tomlFilePaths)%nat; [|apply ret_quiet].
    apply forEach_quiet. intros p. apply removeToml_quiet.
  - intros r. destruct (err r); [apply failure_quiet|].
    apply callback_quiet; [apply log_quiet|intros _; apply resolve_quiet].
Qed.

Lemma collectStep_quiet d bindPath apiDirName target :
  PQuiet d (collectStep bindPath apiDirName target).
Proof.
  apply callback_quiet.
  - apply bind_quiet; [apply log_quiet|intros _; apply execM_quiet].
  - intros r. destruct (err r); [apply failure_quiet|apply resolve_quiet].
Qed.

Lemma prepare_quiet d this from bindPath target : MQuiet d (prepare this from bindPath target).
Proof.
  unfold prepare.
  repeat (apply bind_quiet;
          [first [apply log_quiet|apply mkdirpSync_quiet|apply ensureDirSync_quiet
                 |apply emptyDirSync_quiet]|intros _]).
  apply log_quiet.
Qed.

(** A chain that never resolves and removes nothing. *)
Lemma quiet_rejecting_cleansUp d (p : P) :
  PQuiet d p → (∀ σ, (p σ).1.1 ≠ None) → cleansUp d p.
Proof.
  intros Hq Hr σ. specialize (Hq σ). specialize (Hr σ).
  by destruct ((p σ).1.1).
Qed.

Lemma andThen_cleansUp d (p k : P) : PQuiet d p → cleansUp d k → cleansUp d (andThen p k).
Proof.
  intros Hp Hk σ. unfold andThen. specialize (Hp σ).
  destruct (p σ) as [[[r|] σ1] t1]; simpl in *; [done|].
  specialize (Hk σ1). destruct (k σ1) as [[[r|] σ2] t2]; simpl in *.
  - by apply quiet_app.
  - destruct Hk as [[t0 ->] Hrem]. split; [|done].
    exists (t1 ++ t0)%list. by rewrite app_assoc.
Qed.

Lemma callback_cleansUp {A} d (m : M A) (k : A → P) :
  MQuiet d m → (∀ a, cleansUp d (k a)) → cleansUp d (callback m k).
Proof.
  intros Hm Hk σ. unfold callback. specialize (Hm σ).
  destruct (m σ) as [[[a|e] σ1] t1]; simpl in *; [|done].
  specialize (Hk a σ1). destruct (k a σ1) as [[[r|] σ2] t2]; simpl in *.
  - by apply quiet_app.
  - destruct Hk as [[t0 ->] Hrem]. split; [|done].
    exists (t1 ++ t0)%list. by rewrite app_assoc.
Qed.

Lemma under_irrefl d : Fs.under d d = false.
Proof.
  unfold Fs.under. induction d as [|c d IH]; simpl; [done|].
  destruct (ascii_dec c c); [done|congruence].
Qed.

(** After [emptyDirSync(d)] nothing lies below [d]. *)
Lemma emptied_nonEmpty d σ :
  Fs.nonEmpty d {| files := filter (λ kv, Fs.under d kv.1 = false) (files σ);
                   dirs := {[d]} ∪ filter (λ p, Fs.under d p = false) (dirs σ) |} = false.
Proof.
  unfold Fs.nonEmpty. simpl. apply orb_false_iff. split; apply bool_decide_eq_false.
  - intros Hne. apply Hne. apply map_empty. intros p.
    apply map_lookup_filter_None. right. intros v [_ Hp]%map_lookup_filter_Some.
    simpl in *. congruence.
  - intros Hne. apply Hne. apply set_eq. intros p.
    rewrite elem_of_filter, elem_of_union, elem_of_singleton, elem_of_filter.
    split; [|set_solver]. intros [Hu [->|[Hn _]]]; [|congruence].
    by rewrite under_irrefl in Hu.
Qed.

(** The cleanup link: when [d] can be emptied it is removed, and the link
    resolves; otherwise [emptyDirSync] throws and nothing is removed. *)
Lemma cleanupStep_run d σ :
  cleanupStep d σ
  = match Fs.blocked d σ with
    | Some e => (Some (Exception e), σ,
                 [EvLog ("Deleting bind path dir " +:+ d); EvEmptyDir d])
    | None =>
        (None,
         {| files := filter (λ kv, Fs.under d kv.1 = false) (files σ);
            dirs := ({[d]} ∪ filter (λ p, Fs.under d p = false) (dirs σ)) ∖ {[d]} |},
         cleanupEvents d)
    end.
Proof.
  unfold cleanupStep, callback, bind, log, Fs.emptyDirSync.
  destruct (Fs.blocked d σ) as [e|]; [done|].
  unfold Fs.rmdirSync. cbn [fst snd files dirs].
  rewrite bool_decide_true by set_solver. by rewrite emptied_nonEmpty.
Qed.

(** After [emptyDirSync(d)] the directory can be removed, and is. *)
Lemma cleanupStep_cleansUp d : cleansUp d (cleanupStep d).
Proof.
  intros σ. rewrite cleanupStep_run. destruct (Fs.blocked d σ) as [e|]; simpl.
  { quiet_events. }
  split; [by exists []|].
  unfold removed. simpl. split.
  { intros [_ Hn]%elem_of_difference. apply Hn. by apply elem_of_singleton. }
  intros p Hp. split.
  - apply map_lookup_filter_None. right. intros v _. simpl. congruence.
  - rewrite elem_of_difference, elem_of_union, elem_of_filter, elem_of_singleton.
    intros [[->|[Hn _]] _]; [by rewrite under_irrefl in Hp|congruence].
Qed.

Lemma afterCopy_cleansUp this tomlFilePath bindPath apiDirName target :
  cleansUp bindPath (afterCopy this tomlFilePath bindPath apiDirName target).
Proof.
  unfold afterCopy, locateStep. apply callback_cleansUp.
  - apply bind_quiet; [apply log_quiet|intros _].
    apply bind_quiet; [apply removeToml_quiet|intros _; apply execM_quiet].
  - intros r. destruct (err r).
    + apply quiet_rejecting_cleansUp; [apply failure_quiet|done].
    + apply andThen_cleansUp; [apply buildStep_quiet|].
      apply andThen_cleansUp; [apply collectStep_quiet|apply cleanupStep_cleansUp].
Qed.

End PipelineFacts.

(** ** What a rewrite establishes *)


(** The callback looks at the entry itself: the tables inside an
    array-valued entry are not visited. *)
Example array_entry_is_not_visited :
  Rewriter.rewriteDependency Fixtures.manifestPath (Some Fixtures.stageRoot)
    (VArr [VTable [("path", VStr "../sibling"); ("develop", VBool true)]])
  = Ok (VArr [VTable [("path", VStr "../sibling"); ("develop", VBool true)]]).
Proof. reflexivity. Qed.



(** ** Rewriting twice *)

Section Idempotence.
Import Rewriter.
Implicit Types (p : string) (root : option string).

Lemma rewritePath_unsupplied p root fields :
  rootSupplied root = None → rewritePath p root fields = Ok fields.
Proof. unfold rewritePath. by intros ->. Qed.

Lemma rewriteDependency_again p root e e1 :
  rewriteDependency p root e = Ok e1 →
  rootSupplied root = None ∨ dotsLeft e1 = false →
  rewriteDependency p root e1 = Ok e1.
Proof.
  intros He Hsettled. pose proof (rewriteDependency_develop _ _ _ _ He) as Hdev.
  unfold rewriteDependency in He.
  destruct e as [| | | | | |fields]; simpl in He; try (by injection He as <-).
  destruct (rewritePath p root _) as [fields1|] eqn:Er; simpl in He; [|done].
  injection He as <-. simpl in Hdev. unfold rewriteDependency. simpl. rewrite Hdev.
  destruct Hsettled as [Hroot|Hdots]; [by rewrite rewritePath_unsupplied|].
  destruct (rewritePath_Ok _ _ _ _ Er) as [->|(r & pth & _ & _ & _ & ->)];
    [by rewrite Er|].
  unfold dotsLeft in Hdots. simpl in Hdots. rewrite assoc_setKey_eq in Hdots.
  unfold hasDots in Hdots.
  rewrite (rewritePath_plain _ _ _ (Path.join2 (dockerModulePath p r) pth)); [done| |].
  - apply assoc_setKey_eq.
  - pose proof (indexOf_ge ".." (Path.join2 (dockerModulePath p r) pth)).
    destruct (Z.gtb_spec (JsString.indexOf ".." (Path.join2 (dockerModulePath p r) pth)) (-1));
      [done|lia].
Qed.

Lemma rewriteDependencies_again p root deps deps1 :
  rewriteDependencies p root deps = Ok deps1 →
  rootSupplied root = None ∨ Forall (λ e, dotsLeft e = false) (entries deps1) →
  rewriteDependencies p root deps1 = Ok deps1.
Proof.
  intros Hr Hsettled.
  assert (Hset : ∀ e1, e1 ∈ entries deps1 → rootSupplied root = None ∨ dotsLeft e1 = false).
  { intros e1 He1. destruct Hsettled as [?|Hall]; [by left|right].
    by apply (proj1 (Forall_forall _ _) Hall). }
  clear Hsettled.
  destruct deps as [| | | | |l|es];
    try (simpl in Hr; injection Hr as <-; reflexivity).
  - simpl in Hr. destruct (rmap _ l) as [l1|] eqn:Em; simpl in Hr; [|done].
    injection Hr as <-. simpl in *. apply rmap_Forall2 in Em.
    assert (rmap (rewriteDependency p root) l1 = Ok l1) as ->; [|done].
    apply Forall2_rmap. induction Em as [|e e1 l l1 He _ IH]; [constructor|].
    constructor.
    + apply (rewriteDependency_again _ _ _ _ He), Hset. by left.
    + apply IH. intros e2 He2. apply Hset. by right.
  - destruct (rewriteDependencies_table _ _ _ _ Hr) as (es1 & -> & Hes). clear Hr.
    simpl in *.
    assert (rmap (λ kv, rbind (rewriteDependency p root kv.2) (λ v, Ok (kv.1, v))) es1
            = Ok es1) as ->; [|done].
    apply Forall2_rmap. induction Hes as [|[k e] [k1 e1] es es1 [_ He] _ IH]; [constructor|].
    simpl in *. constructor.
    + simpl. rewrite (rewriteDependency_again _ _ _ _ He); [done|]. apply Hset. by left.
    + apply IH. intros e2 He2. apply Hset. by right.
Qed.

(** On a document whose paths the first rewrite has settled, a second
    rewrite changes nothing. *)
Lemma rewriteDocument_again p root doc doc1 :
  rewriteDocument p root doc = Ok doc1 →
  rootSupplied root = None
  ∨ (∀ deps1, dependenciesOf doc1 = Some deps1 → Forall (λ e, dotsLeft e = false) (entries deps1)) →
  rewriteDocument p root doc1 = Ok doc1.
Proof.
  intros Hr Hsettled.
  destruct (rewriteDocument_Ok _ _ _ _ Hr)
    as (top & toolT & poetryT & deps & deps1 & -> & Ht & Hp & Hd & Hrd & ->).
  assert (Hagain : rewriteDependencies p root deps1 = Ok deps1).
  { apply (rewriteDependencies_again _ _ _ _ Hrd).
    destruct Hsettled as [?|Hall]; [by left|right]. apply Hall.
    unfold dependenciesOf. simpl.
    rewrite !assoc_setKey_eq. simpl. rewrite !assoc_setKey_eq. simpl.
    by rewrite assoc_deleteKey_ne, assoc_setKey_eq by done. }
  clear Hr Hsettled.
  unfold rewriteDocument. simpl.
  rewrite !assoc_setKey_eq. simpl. rewrite !assoc_setKey_eq. simpl.
  rewrite assoc_deleteKey_ne, assoc_setKey_eq by done.
  rewrite Hagain. simpl.
  set (P1 := deleteKey "dev-dependencies" (setKey "dependencies" deps1 poetryT)).
  assert (HP1 : deleteKey "dev-dependencies" (setKey "dependencies" deps1 P1) = P1).
  { rewrite (setKey_same "dependencies" deps1 P1).
    - apply deleteKey_idem.
    - unfold P1. by rewrite assoc_deleteKey_ne, assoc_setKey_eq. }
  rewrite HP1.
  rewrite (setKey_same "poetry" (VTable P1)) by apply assoc_setKey_eq.
  by rewrite (setKey_same "tool") by apply assoc_setKey_eq.
Qed.

End Idempotence.




(** Below a supplied project root, and when no directory name on the way
    has two consecutive dots, the first rewrite settles every path: the
    second one then changes nothing. *)
Lemma rewriteDependency_settles (r rel : string) (e e1 : value) :
  (0 < String.length r)%nat →
  Forall plainSegment (JsString.dropLast (JsString.split "/" rel)) →
  (∀ pth, get e "path" = Some (VStr pth) → Forall plainSegment (JsString.split "/" pth)) →
  Rewriter.rewriteDependency (r +:+ "/" +:+ rel) (Some r) e = Ok e1 →
  dotsLeft e1 = false.
Proof.
  intros Hr Hrel Hpaths He. unfold Rewriter.rewriteDependency in He.
  destruct e as [| | | | | |fields]; simpl in He; try (by injection He as <-).
  set (fields0 := if truthy (assoc "develop" fields) then deleteKey "develop" fields
                  else fields) in He.
  assert (Hpath0 : assoc "path" fields0 = assoc "path" fields).
  { unfold fields0. destruct (truthy _); [|done]. by rewrite assoc_deleteKey_ne. }
  unfold Rewriter.rewritePath, Rewriter.rootSupplied in He.
  apply Nat.ltb_lt in Hr. rewrite Hr, Hpath0 in He. simpl in Hpaths.
  destruct (truthy (assoc "path" fields)) eqn:Et.
  - destruct (assoc "path" fields) as [[pth| | | | |l|]|] eqn:Ep; try done.
    + fold (hasDots pth) in He. destruct (hasDots pth) eqn:Eh; simpl in He.
      * injection He as <-. unfold dotsLeft. simpl. rewrite assoc_setKey_eq.
        apply join2_staged_no_dots.
        -- destruct pth; [done|simpl; lia].
        -- apply Forall_app. split; [done|]. by apply Hpaths.
      * injection He as <-. unfold dotsLeft. simpl. by rewrite Hpath0.
    + destruct (arrayHasDotDot l); simpl in He; [done|].
      injection He as <-. unfold dotsLeft. simpl. by rewrite Hpath0.
  - simpl in He. injection He as <-. unfold dotsLeft. simpl.
    destruct (assoc "path" fields) as [[pth| | | | | |]|]; rewrite Hpath0; try done.
    simpl in Et. destruct pth; [done|discriminate].
Qed.

Lemma second_rewrite_below_root (L : TOML) (r rel : string) (σ : fs)
  (contents : string) (doc doc1 : value) :
  (0 < String.length r)%nat →
  files σ !! (r +:+ "/" +:+ rel) = Some contents →
  TOML_parse contents = Some doc →
  Rewriter.rewriteDocument (r +:+ "/" +:+ rel) (Some r) doc = Ok doc1 →
  TOML_parse (TOML_stringify doc1) = Some doc1 →
  Forall plainSegment (JsString.dropLast (JsString.split "/" rel)) →
  (∀ deps e pth, dependenciesOf doc = Some deps → e ∈ entries deps →
                 get e "path" = Some (VStr pth) →
                 Forall plainSegment (JsString.split "/" pth)) →
  let once := removeTomlEditableDependencies (Some (r +:+ "/" +:+ rel)) (Some r) σ in
  let twice := removeTomlEditableDependencies (Some (r +:+ "/" +:+ rel)) (Some r) once.1.2 in
  once.1.1 = Ok tt ∧ twice.1.1 = Ok tt ∧ twice.1.2 = once.1.2.
Proof.
  intros Hr Hf Hp Hrw Hrt Hrel Hpaths once twice. subst once twice.
  assert (Hlen : (2 ≤ String.length (r +:+ "/" +:+ rel))%nat).
  { destruct r as [|c r]; [simpl in Hr; lia|]. destruct r; simpl; lia. }
  assert (Hsettled : ∀ deps1, dependenciesOf doc1 = Some deps1 →
                              Forall (λ e, dotsLeft e = false) (entries deps1)).
  { intros deps1 Hd1.
    destruct (rewriteDocument_dependencies _ _ _ _ Hrw) as (deps & deps1' & Hd & Hrd & Hd1' & _).
    rewrite Hd1 in Hd1'. injection Hd1' as <-.
    pose proof (rewriteDependencies_entries _ _ _ _ Hrd) as Hes.
    apply Forall_forall. intros e1 He1.
    apply list_elem_of_lookup in He1 as [i Hi].
    destruct (Forall2_lookup_r _ _ _ _ _ Hes Hi) as (e & Hie & He).
    apply (rewriteDependency_settles r rel e e1 Hr Hrel); [|done].
    intros pth Hpth. apply (Hpaths deps e pth Hd); [|done].
    apply list_elem_of_lookup. by exists i. }
  rewrite (removeToml_run L _ (Some r) σ) by done. rewrite Hf, Hp, Hrw. cbn [fst snd].
  rewrite removeToml_run by done. cbn [fst snd files dirs].
  rewrite lookup_insert_eq, Hrt,
    (rewriteDocument_again _ _ _ _ Hrw (or_intror Hsettled)).
  cbn [fst snd files dirs]. by rewrite insert_insert_eq.
Qed.

(** * Further properties *)

(** ** Exceptions of the rewriter *)

Section Exceptions.
Import Rewriter.
Implicit Types (p : string) (root : option string).

Lemma rewritePath_throws p root fields e : rewritePath p root fields = Throw e → e = TypeError.
Proof.
  unfold rewritePath. destruct (rootSupplied root); [|done].
  destruct (truthy _); [|done].
  destruct (assoc "path" fields) as [[pth| | | | |l|]|]; try (by intros [= <-]).
  - by destruct (JsString.indexOf ".." pth >? -1).
  - destruct (arrayHasDotDot l); [by intros [= <-]|done].
Qed.

Lemma rewriteDependency_throws p root e x : rewriteDependency p root e = Throw x → x = TypeError.
Proof.
  unfold rewriteDependency. destruct e as [| | | | | |fields]; simpl; try done.
  destruct (rewritePath p root _) as [f|x'] eqn:Er; simpl; [done|].
  intros [= <-]. by apply (rewritePath_throws _ _ _ _ Er).
Qed.

(** The first exception ends the [forEach]. *)
Lemma rmap_throws {A B} (f : A → result B) (l : list A) (i : nat) (a : A) :
  (∀ b x, f b = Throw x → x = TypeError) →
  l !! i = Some a → f a = Throw TypeError → rmap f l = Throw TypeError.
Proof.
  intros Hf. revert i. induction l as [|b l IH]; intros i Hi Ha; [done|]. simpl.
  destruct i as [|i]; simpl in Hi.
  - injection Hi as ->. by rewrite Ha.
  - destruct (f b) as [y|x] eqn:Eb; simpl; [|by rewrite (Hf _ _ Eb)].
    by rewrite (IH i Hi Ha).
Qed.

(** When the entries are rewritten without an exception, so is the
    document. *)
Lemma rewriteDocument_returns p root doc deps deps' :
  dependenciesOf doc = Some deps →
  rewriteDependencies p root deps = Ok deps' →
  ∃ doc', rewriteDocument p root doc = Ok doc' ∧
          dependenciesOf doc' = Some deps' ∧ devDependenciesOf doc' = None.
Proof.
  intros Hd Hr.
  assert (∃ doc', rewriteDocument p root doc = Ok doc') as [doc' Hdoc].
  { unfold rewriteDocument. revert Hd. unfold dependenciesOf.
    destruct (get doc "tool") as [tool|] eqn:Et; simpl; [|done].
    destruct (get tool "poetry") as [poetry|] eqn:Epo; simpl; [|done].
    intros Hd. rewrite Hd, Hr. simpl.
    destruct doc as [| | | | | |top]; try (simpl in Et; discriminate).
    destruct tool as [| | | | | |toolT]; try (simpl in Epo; discriminate).
    destruct poetry as [| | | | | |poetryT]; try (simpl in Hd; discriminate).
    by eexists. }
  exists doc'. split; [done|].
  destruct (rewriteDocument_dependencies _ _ _ _ Hdoc) as (deps0 & deps0' & Hd0 & Hr0 & Hd' & Hdev).
  rewrite Hd in Hd0. injection Hd0 as <-. rewrite Hr in Hr0. injection Hr0 as <-. done.
Qed.

Lemma rewriteDocument_throws p root doc deps e :
  dependenciesOf doc = Some deps →
  rewriteDependencies p root deps = Throw e →
  rewriteDocument p root doc = Throw e.
Proof.
  intros Hd Hr. unfold rewriteDocument. revert Hd. unfold dependenciesOf.
  destruct (get doc "tool") as [tool|]; simpl; [|done].
  destruct (get tool "poetry") as [poetry|]; simpl; [|done].
  intros ->. by rewrite Hr.
Qed.

Lemma rewriteDependency_unsupplied p root e :
  rootSupplied root = None → rewriteDependency p root e = Ok (withoutDevelop e).
Proof.
  intros Hroot. unfold rewriteDependency, withoutDevelop.
  destruct e as [| | | | | |fields]; simpl; try done.
  rewrite rewritePath_unsupplied by done. simpl. by destruct (truthy _).
Qed.

(** Without a project root the entries come out as [withoutDevelop] makes
    them. *)
Lemma rewriteDependencies_unsupplied p root deps :
  rootSupplied root = None →
  rewriteDependencies p root deps
  = Ok (match deps with
        | VTable es => VTable (map (λ kv, (kv.1, withoutDevelop kv.2)) es)
        | VArr l => VArr (map withoutDevelop l)
        | _ => deps
        end).
Proof.
  intros Hroot. destruct deps as [| | | | |l|es]; try done; simpl.
  - assert (rmap (rewriteDependency p root) l = Ok (map withoutDevelop l)) as ->; [|done].
    apply Forall2_rmap. apply Forall2_fmap_r. apply Forall_Forall2_diag.
    apply Forall_forall. intros e _. by apply rewriteDependency_unsupplied.
  - assert (rmap (λ kv : string * value,
                    rbind (rewriteDependency p root kv.2) (λ v, Ok (kv.1, v))) es
            = Ok (map (λ kv, (kv.1, withoutDevelop kv.2)) es)) as ->; [|done].
    apply Forall2_rmap. apply Forall2_fmap_r. apply Forall_Forall2_diag.
    apply Forall_forall. intros kv _. by rewrite rewriteDependency_unsupplied.
Qed.

(** [s.replace(pat, rep)] of a string in which [pat] does not occur. *)
Lemma replace_absent pat rep s : JsString.indexOf pat s = -1 → JsString.replace pat rep s = s.
Proof.
  induction s as [|c s IH]; rewrite indexOf_unfold, replace_unfold.
  - by destruct (String.prefix pat "").
  - destruct (String.prefix pat (String c s)); [done|]. cbv zeta.
    pose proof (indexOf_ge pat s).
    destruct (Z.ltb_spec (JsString.indexOf pat s) 0); [|lia].
    intros _. rewrite IH; [done|lia].
Qed.


(** What the callback keeps of an entry. *)
Lemma rewriteDependency_kept p root e e' :
  rewriteDependency p root e = Ok e' → entryKept e e'.
Proof.
  unfold rewriteDependency, entryKept.
  destruct e as [| | | | | |fields]; simpl; try (by intros [= <-]).
  destruct (rewritePath p root _) as [fields1|] eqn:Er; simpl; [|done].
  intros [= <-]. exists fields1. split; [done|].
  assert (Hdev : ∀ k, k ≠ "develop" →
            assoc k (if truthy (assoc "develop" fields) then deleteKey "develop" fields
                     else fields) = assoc k fields).
  { intros k Hk. destruct (truthy _); [|done]. by rewrite assoc_deleteKey_ne. }
  split; [|split].
  - intros k Hk1 Hk2.
    destruct (rewritePath_Ok _ _ _ _ Er) as [->|(r & pth & _ & _ & _ & ->)]; [by apply Hdev|].
    rewrite assoc_setKey_ne by done. by apply Hdev.
  - rewrite (rewritePath_develop _ _ _ _ Er).
    destruct (truthy _); [|done]. apply assoc_deleteKey_eq.
  - destruct (rewritePath_Ok _ _ _ _ Er) as [->|(r & pth & _ & Hp & _ & ->)].
    + by rewrite Hdev.
    + rewrite assoc_setKey_eq. rewrite Hdev in Hp by done. by rewrite Hp.
Qed.

End Exceptions.


(** X2. A manifest that does not exist makes the rewriter throw [ENOENT],
    and one that the parser refuses makes it throw the parser's error; in
    both cases the file system is unchanged and the manifest has only been
    read. *)
Theorem unreadable_manifest_throws (L : TOML) (p : string) (root : option string) (σ : fs) :
  (2 ≤ String.length p)%nat →
  match files σ !! p with
  | None => True
  | Some contents => TOML_parse contents = None
  end →
  removeTomlEditableDependencies (Some p) root σ
  = (Throw (match files σ !! p with Some _ => ParseError | None => ENOENT end), σ,
     [EvReadFile p]).
Proof.
  intros Hlen Hf. rewrite removeToml_run by done.
  destruct (files σ !! p) as [contents|]; [|done]. by rewrite Hf.
Qed.

Lemma unreadable_manifest_throws_witness :
  removeTomlEditableDependencies (L:=MiniToml.lib) (Some Fixtures.manifestPath)
    (Some Fixtures.stageRoot) (fsOf [])
  = (Throw ENOENT, fsOf [], [EvReadFile Fixtures.manifestPath]) ∧
  MiniToml.parse Samples.brokenManifest = None ∧
  removeTomlEditableDependencies (L:=MiniToml.lib) (Some Fixtures.manifestPath)
    (Some Fixtures.stageRoot) (Fixtures.staged Samples.brokenManifest)
  = (Throw ParseError, Fixtures.staged Samples.brokenManifest,
     [EvReadFile Fixtures.manifestPath]).
Proof.
  assert (Hlen : (2 ≤ String.length Fixtures.manifestPath)%nat) by (vm_compute; lia).
  assert (Hp : MiniToml.parse Samples.brokenManifest = None) by (vm_compute; reflexivity).
  split; [|split; [exact Hp|]].
  - exact (unreadable_manifest_throws MiniToml.lib Fixtures.manifestPath
             (Some Fixtures.stageRoot) (fsOf []) Hlen I).
  - exact (unreadable_manifest_throws MiniToml.lib Fixtures.manifestPath
             (Some Fixtures.stageRoot) (Fixtures.staged Samples.brokenManifest) Hlen Hp).
Defined.

(** X3. Without a project root, or with an empty one, the rewrite of a
    manifest that has a dependency table returns whatever the entries are:
    the paths are left alone, a truthy [develop] is deleted from every
    entry that is a table, and the dev-dependency table is gone. *)
Theorem rewrite_without_root_clears_develop_only (L : TOML) (p : string)
  (root : option string) (σ : fs) (contents : string) (doc : value) (es : table) :
  Rewriter.rootSupplied root = None →
  (2 ≤ String.length p)%nat →
  files σ !! p = Some contents →
  TOML_parse contents = Some doc →
  dependenciesOf doc = Some (VTable es) →
  ∃ doc',
    removeTomlEditableDependencies (Some p) root σ
    = (Ok tt,
       {| files := <[p := TOML_stringify doc']> (files σ); dirs := dirs σ |},
       [EvReadFile p; EvRmFile p; EvWriteFile p (TOML_stringify doc')]) ∧
    dependenciesOf doc' = Some (VTable (map (λ kv, (kv.1, withoutDevelop kv.2)) es)) ∧
    devDependenciesOf doc' = None.
Proof.
  intros Hroot Hlen Hf Hp Hd.
  pose proof (rewriteDependencies_unsupplied p root (VTable es) Hroot) as Hr.
  destruct (rewriteDocument_returns _ _ _ _ _ Hd Hr) as (doc' & Hdoc & Hd' & Hdev).
  exists doc'. rewrite removeToml_run by done. by rewrite Hf, Hp, Hdoc.
Qed.

Lemma rewrite_without_root_clears_develop_only_witness :
  ∃ doc',
    removeTomlEditableDependencies (L:=MiniToml.lib) (Some Fixtures.manifestPath) (Some "")
      (Fixtures.staged Fixtures.siblingManifest)
    = (Ok tt,
       {| files := <[Fixtures.manifestPath := MiniToml.stringify doc']>
                     (files (Fixtures.staged Fixtures.siblingManifest));
          dirs := dirs (Fixtures.staged Fixtures.siblingManifest) |},
       [EvReadFile Fixtures.manifestPath; EvRmFile Fixtures.manifestPath;
        EvWriteFile Fixtures.manifestPath (MiniToml.stringify doc')]) ∧
    dependenciesOf doc'
    = Some (VTable [("python", VStr "^3.9");
                    ("sibling", VTable [("path", VStr "../sibling")])]) ∧
    devDependenciesOf doc' = None.
Proof.
  assert (Hlen : (2 ≤ String.length Fixtures.manifestPath)%nat) by (vm_compute; lia).
  assert (Hf : files (Fixtures.staged Fixtures.siblingManifest) !! Fixtures.manifestPath
               = Some Fixtures.siblingManifest) by (vm_compute; reflexivity).
  assert (Hp : MiniToml.parse Fixtures.siblingManifest = Some Fixtures.siblingDocument)
    by (vm_compute; reflexivity).
  exact (rewrite_without_root_clears_develop_only MiniToml.lib Fixtures.manifestPath
           (Some "") (Fixtures.staged Fixtures.siblingManifest) Fixtures.siblingManifest
           Fixtures.siblingDocument
           [("python", VStr "^3.9");
            ("sibling", VTable [("path", VStr "../sibling"); ("develop", VBool true)])]
           eq_refl Hlen Hf Hp eq_refl).
Defined.

(** X4. With a project root, a dependency whose [path] is truthy and
    neither a string nor an array without the element [".."] (a number, a
    boolean, a date, an inline table) makes the rewriter throw a
    [TypeError]; the manifest is not written. *)
Theorem path_of_another_type_throws (L : TOML) (p r : string) (σ : fs)
  (contents : string) (doc : value) (es : table) (i : nat) (name : string)
  (fields : table) (v : value) :
  (0 < String.length r)%nat →
  (2 ≤ String.length p)%nat →
  files σ !! p = Some contents →
  TOML_parse contents = Some doc →
  dependenciesOf doc = Some (VTable es) →
  es !! i = Some (name, VTable fields) →
  assoc "path" fields = Some v →
  truthy (Some v) = true →
  unusablePath v →
  removeTomlEditableDependencies (Some p) (Some r) σ
  = (Throw TypeError, σ, [EvReadFile p]).
Proof.
  intros Hr Hlen Hf Hp Hd Hi Hpath Htruthy Hv.
  rewrite removeToml_run by done. rewrite Hf, Hp.
  assert (Hpath' : assoc "path"
                     (if truthy (assoc "develop" fields) then deleteKey "develop" fields
                      else fields) = Some v).
  { destruct (truthy (assoc "develop" fields)); [|done].
    by rewrite assoc_deleteKey_ne. }
  assert (He : Rewriter.rewriteDependency p (Some r) (VTable fields) = Throw TypeError).
  { unfold Rewriter.rewriteDependency. simpl typeofObject. cbv iota.
    unfold Rewriter.rewritePath, Rewriter.rootSupplied.
    destruct (Nat.ltb_spec 0 (String.length r)); [|lia].
    rewrite Hpath', Htruthy.
    destruct v as [s| | | | |l|]; try done. simpl in Hv. by rewrite Hv. }
  rewrite (rewriteDocument_throws _ _ _ _ TypeError Hd); [done|].
  simpl.
  rewrite (rmap_throws _ es i (name, VTable fields)); [done| |done|].
  - intros [k e] x. simpl.
    destruct (Rewriter.rewriteDependency p (Some r) e) as [e'|x'] eqn:Ee; simpl; [done|].
    intros [= <-]. by apply (rewriteDependency_throws _ _ _ _ Ee).
  - simpl. by rewrite He.
Qed.

Lemma path_of_another_type_throws_witness :
  MiniToml.parse Samples.flagManifest = Some Samples.flagDocument ∧
  removeTomlEditableDependencies (L:=MiniToml.lib) (Some Fixtures.manifestPath)
    (Some Fixtures.stageRoot) (Fixtures.staged Samples.flagManifest)
  = (Throw TypeError, Fixtures.staged Samples.flagManifest,
     [EvReadFile Fixtures.manifestPath]).
Proof.
  assert (Hr : (0 < String.length Fixtures.stageRoot)%nat) by (vm_compute; lia).
  assert (Hlen : (2 ≤ String.length Fixtures.manifestPath)%nat) by (vm_compute; lia).
  assert (Hf : files (Fixtures.staged Samples.flagManifest) !! Fixtures.manifestPath
               = Some Samples.flagManifest) by (vm_compute; reflexivity).
  assert (Hp : MiniToml.parse Samples.flagManifest = Some Samples.flagDocument)
    by (vm_compute; reflexivity).
  split; [exact Hp|].
  exact (path_of_another_type_throws MiniToml.lib Fixtures.manifestPath Fixtures.stageRoot
           (Fixtures.staged Samples.flagManifest) Samples.flagManifest Samples.flagDocument
           [("sibling", VTable [("path", VBool true)])] 0%nat "sibling"
           [("path", VBool true)] (VBool true)
           Hr Hlen Hf Hp eq_refl eq_refl eq_refl eq_refl I).
Defined.

(** X5. A rewrite that returns keeps the dependencies of the table: the
    same names in the same order, an entry that is not a table as it was,
    and of an entry that is a table every field other than [develop] and
    [path], a [develop] that was not truthy, and a [path] exactly when
    there was one. *)
Theorem rewrite_keeps_names_and_other_fields (L : TOML) (p : string) (root : option string)
  (σ σ' : fs) (t : list event) (contents : string) (doc : value) (es : table) :
  (2 ≤ String.length p)%nat →
  files σ !! p = Some contents →
  TOML_parse contents = Some doc →
  dependenciesOf doc = Some (VTable es) →
  removeTomlEditableDependencies (Some p) root σ = (Ok tt, σ', t) →
  ∃ doc' es',
    files σ' !! p = Some (TOML_stringify doc') ∧
    dependenciesOf doc' = Some (VTable es') ∧
    map fst es' = map fst es ∧
    Forall2 entryKept (map snd es) (map snd es').
Proof.
  intros Hlen Hf Hp Hd (contents0 & doc0 & doc' & Hf0 & Hp0 & Hr & -> & ->)%removeToml_Ok;
    [|done].
  rewrite Hf in Hf0. injection Hf0 as <-. rewrite Hp in Hp0. injection Hp0 as <-.
  destruct (rewriteDocument_dependencies _ _ _ _ Hr) as (deps & deps' & Hd0 & Hrd & Hd' & _).
  rewrite Hd in Hd0. injection Hd0 as <-.
  destruct (rewriteDependencies_table _ _ _ _ Hrd) as (es' & -> & Hes).
  exists doc', es'. split; [simpl; by rewrite lookup_insert_eq|]. split; [done|].
  split.
  - clear -Hes. induction Hes as [|kv kv' es es' [Hk _] _ IH]; [done|].
    simpl. by rewrite Hk, IH.
  - apply Forall2_fmap. eapply Forall2_impl; [exact Hes|].
    intros kv kv' [_ He]. by apply (rewriteDependency_kept _ _ _ _ He).
Qed.

Lemma rewrite_keeps_names_and_other_fields_witness :
  ∃ doc' es',
    files (Fixtures.staged (MiniToml.stringify Fixtures.siblingRewritten))
      !! Fixtures.manifestPath = Some (MiniToml.stringify doc') ∧
    dependenciesOf doc' = Some (VTable es') ∧
    map fst es' = ["python"; "sibling"] ∧
    Forall2 entryKept
      [VStr "^3.9"; VTable [("path", VStr "../sibling"); ("develop", VBool true)]]
      (map snd es').
Proof.
  assert (Hlen : (2 ≤ String.length Fixtures.manifestPath)%nat) by (vm_compute; lia).
  assert (Hf : files (Fixtures.staged Fixtures.siblingManifest) !! Fixtures.manifestPath
               = Some Fixtures.siblingManifest) by (vm_compute; reflexivity).
  assert (Hp : MiniToml.parse Fixtures.siblingManifest = Some Fixtures.siblingDocument)
    by (vm_compute; reflexivity).
  assert (Hrun : removeTomlEditableDependencies (L:=MiniToml.lib) (Some Fixtures.manifestPath)
                   (Some Fixtures.stageRoot) (Fixtures.staged Fixtures.siblingManifest)
                 = (Ok tt, Fixtures.staged (MiniToml.stringify Fixtures.siblingRewritten),
                    Fixtures.rewriteEvents (MiniToml.stringify Fixtures.siblingRewritten)))
    by (vm_compute; reflexivity).
  exact (rewrite_keeps_names_and_other_fields MiniToml.lib Fixtures.manifestPath
           (Some Fixtures.stageRoot) (Fixtures.staged Fixtures.siblingManifest) _ _
           Fixtures.siblingManifest Fixtures.siblingDocument
           [("python", VStr "^3.9");
            ("sibling", VTable [("path", VStr "../sibling"); ("develop", VBool true)])]
           Hlen Hf Hp eq_refl Hrun).
Defined.

(** X6. A rewrite that returns keeps the rest of the document: every
    top-level key other than [tool], every key of [tool] other than
    [poetry], and every key of [tool.poetry] other than [dependencies] and
    [dev-dependencies]. *)
Theorem rewrite_keeps_the_rest_of_the_document (L : TOML) (p : string)
  (root : option string) (σ σ' : fs) (t : list event) (contents : string) (doc : value) :
  (2 ≤ String.length p)%nat →
  files σ !! p = Some contents →
  TOML_parse contents = Some doc →
  removeTomlEditableDependencies (Some p) root σ = (Ok tt, σ', t) →
  ∃ doc',
    files σ' !! p = Some (TOML_stringify doc') ∧
    (∀ k, k ≠ "tool" → get doc' k = get doc k) ∧
    (∀ k, k ≠ "poetry" → tableOf doc' k = tableOf doc k) ∧
    (∀ k, k ≠ "dependencies" → k ≠ "dev-dependencies" →
          settingOf doc' k = settingOf doc k).
Proof.
  intros Hlen Hf Hp (contents0 & doc0 & doc' & Hf0 & Hp0 & Hr & -> & ->)%removeToml_Ok;
    [|done].
  rewrite Hf in Hf0. injection Hf0 as <-. rewrite Hp in Hp0. injection Hp0 as <-.
  exists doc'. split; [simpl; by rewrite lookup_insert_eq|].
  destruct (rewriteDocument_Ok _ _ _ _ Hr)
    as (top & toolT & poetryT & deps & deps' & -> & Ht & Hpo & _ & _ & ->).
  unfold settingOf, tableOf. simpl. rewrite Ht, assoc_setKey_eq. simpl.
  rewrite Hpo, assoc_setKey_eq. simpl.
  split; [|split].
  - intros k Hk. by rewrite assoc_setKey_ne.
  - intros k Hk. by rewrite assoc_setKey_ne.
  - intros k Hk1 Hk2. by rewrite assoc_deleteKey_ne, assoc_setKey_ne.
Qed.

Lemma rewrite_keeps_the_rest_of_the_document_witness :
  settingOf Fixtures.siblingDocument "name" = Some (VStr "api") ∧
  ∃ doc',
    files (Fixtures.staged (MiniToml.stringify Fixtures.siblingRewritten))
      !! Fixtures.manifestPath = Some (MiniToml.stringify doc') ∧
    (∀ k, k ≠ "tool" → get doc' k = get Fixtures.siblingDocument k) ∧
    (∀ k, k ≠ "poetry" → tableOf doc' k = tableOf Fixtures.siblingDocument k) ∧
    (∀ k, k ≠ "dependencies" → k ≠ "dev-dependencies" →
          settingOf doc' k = settingOf Fixtures.siblingDocument k).
Proof.
  assert (Hlen : (2 ≤ String.length Fixtures.manifestPath)%nat) by (vm_compute; lia).
  assert (Hf : files (Fixtures.staged Fixtures.siblingManifest) !! Fixtures.manifestPath
               = Some Fixtures.siblingManifest) by (vm_compute; reflexivity).
  assert (Hp : MiniToml.parse Fixtures.siblingManifest = Some Fixtures.siblingDocument)
    by (vm_compute; reflexivity).
  assert (Hrun : removeTomlEditableDependencies (L:=MiniToml.lib) (Some Fixtures.manifestPath)
                   (Some Fixtures.stageRoot) (Fixtures.staged Fixtures.siblingManifest)
                 = (Ok tt, Fixtures.staged (MiniToml.stringify Fixtures.siblingRewritten),
                    Fixtures.rewriteEvents (MiniToml.stringify Fixtures.siblingRewritten)))
    by (vm_compute; reflexivity).
  split; [reflexivity|].
  exact (rewrite_keeps_the_rest_of_the_document MiniToml.lib Fixtures.manifestPath
           (Some Fixtures.stageRoot) (Fixtures.staged Fixtures.siblingManifest) _ _
           Fixtures.siblingManifest Fixtures.siblingDocument Hlen Hf Hp Hrun).
Defined.

(** X7. When the project root does not occur in the path of the manifest,
    the replacement of line 239 changes nothing: the container-side
    directory is the host-side directory of the manifest, and a path with
    [..] is resolved against that directory, not against [/var/task]. *)
Theorem root_outside_the_manifest_path (p r : string) (fields : table) (pth : string) :
  (0 < String.length r)%nat →
  JsString.indexOf r p = -1 →
  assoc "path" fields = Some (VStr pth) →
  hasDots pth = true →
  Rewriter.dockerModulePath p r
  = JsString.join "/" (JsString.dropLast (JsString.split "/" p)) ∧
  ∃ fields',
    Rewriter.rewriteDependency p (Some r) (VTable fields) = Ok (VTable fields') ∧
    assoc "path" fields'
    = Some (VStr (Path.join2 (JsString.join "/" (JsString.dropLast (JsString.split "/" p)))
                             pth)).
Proof.
  intros Hr Hi Hp Hdots.
  assert (Hm : Rewriter.dockerModulePath p r
               = JsString.join "/" (JsString.dropLast (JsString.split "/" p))).
  { unfold Rewriter.dockerModulePath. by rewrite replace_absent. }
  split; [exact Hm|].
  unfold Rewriter.rewriteDependency. simpl typeofObject. cbv iota.
  set (fields0 := if truthy (assoc "develop" fields) then deleteKey "develop" fields
                  else fields).
  assert (Hp0 : assoc "path" fields0 = Some (VStr pth)).
  { subst fields0. destruct (truthy _); [|done]. by rewrite assoc_deleteKey_ne. }
  unfold Rewriter.rewritePath, Rewriter.rootSupplied.
  destruct (Nat.ltb_spec 0 (String.length r)); [|lia].
  rewrite Hp0. unfold hasDots in Hdots.
  assert (Ht : truthy (Some (VStr pth)) = true).
  { destruct pth; [by vm_compute in Hdots|done]. }
  rewrite Ht, Hdots. simpl. eexists. split; [done|].
  by rewrite assoc_setKey_eq, Hm.
Qed.

Lemma root_outside_the_manifest_path_witness :
  Rewriter.dockerModulePath Fixtures.manifestPath "/elsewhere" = "/host/stage/api" ∧
  ∃ fields',
    Rewriter.rewriteDependency Fixtures.manifestPath (Some "/elsewhere")
      (VTable [("path", VStr "../sibling"); ("develop", VBool true)])
    = Ok (VTable fields') ∧
    assoc "path" fields' = Some (VStr "/host/stage/sibling").
Proof.
  exact (root_outside_the_manifest_path Fixtures.manifestPath "/elsewhere"
           [("path", VStr "../sibling"); ("develop", VBool true)] "../sibling"
           ltac:(vm_compute; lia) ltac:(vm_compute; reflexivity) eq_refl
           ltac:(vm_compute; reflexivity)).
Defined.

(** ** A rewrite after a rewrite without a project root *)

Section Absorption.
Import Rewriter.
Implicit Types (p : string) (root : option string) (k : string) (v : value) (t : table).









End Absorption.



(** ** The events of the pipeline *)

Section TraceFacts.
Context `{L : TOML} `{host : Host}.
Implicit Types (φ : event → Prop) (σ : fs).

Lemma commands_app (t1 t2 : list event) :
  commands (t1 ++ t2) = (commands t1 ++ commands t2)%list.
Proof. apply omap_app. Qed.

Lemma commands_silent (t : list event) : Forall noCommand t → commands t = [].
Proof.
  induction 1 as [|ev t Hev _ IH]; [done|].
  destruct ev; try done; exact IH.
Qed.

Lemma ret_all {A} φ (a : A) : MAll φ (ret a).
Proof. intros σ. constructor. Qed.

Lemma log_all φ msg : φ (EvLog msg) → MAll φ (log msg).
Proof. intros H σ. simpl. by repeat constructor. Qed.

Lemma execM_all φ cmd : φ (EvExec cmd) → MAll φ (execM cmd).
Proof. intros H σ. unfold execM. destruct (exec cmd σ). simpl. by repeat constructor. Qed.

Lemma bind_all {A B} φ (m : M A) (k : A → M B) :
  MAll φ m → (∀ a, MAll φ (k a)) → MAll φ (bind m k).
Proof.
  intros Hm Hk σ. unfold bind. specialize (Hm σ).
  destruct (m σ) as [[[a|e] σ1] t1]; simpl in *; [|done].
  specialize (Hk a σ1). destruct (k a σ1) as [[r σ2] t2]. simpl in *.
  by apply Forall_app.
Qed.

Lemma forEach_all {A} φ (f : A → M unit) (l : list A) :
  (∀ a, MAll φ (f a)) → MAll φ (forEach f l).
Proof.
  intros Hf. induction l as [|a l IH]; simpl; [apply ret_all|].
  apply bind_all; auto.
Qed.

Lemma removeToml_all φ (tomlFilePath root : option string) :
  (∀ ev, fileEvent ev → φ ev) →
  MAll φ (removeTomlEditableDependencies tomlFilePath root).
Proof.
  intros Hφ σ. destruct tomlFilePath as [p|]; [|apply ret_all].
  destruct (Nat.ltb_spec (String.length p) 2) as [Hlt|Hge].
  - unfold removeTomlEditableDependencies.
    destruct (Nat.ltb_spec (String.length p) 2); [apply ret_all|lia].
  - rewrite removeToml_run by done.
    destruct (files σ !! p) as [contents|]; [|simpl; by repeat constructor; apply Hφ].
    destruct (TOML_parse contents) as [doc|]; [|simpl; by repeat constructor; apply Hφ].
    destruct (Rewriter.rewriteDocument p root doc); simpl; by repeat constructor; apply Hφ.
Qed.

Lemma removeToml_silent (tomlFilePath root : option string) :
  MAll noCommand (removeTomlEditableDependencies tomlFilePath root).
Proof. apply removeToml_all. by intros []. Qed.

Lemma resolve_all φ : PAll φ resolve.
Proof. intros σ. constructor. Qed.

Lemma reject_all φ reason : PAll φ (reject reason).
Proof. intros σ. constructor. Qed.

Lemma callback_all {A} φ (m : M A) (k : A → P) :
  MAll φ m → (∀ a, PAll φ (k a)) → PAll φ (callback m k).
Proof.
  intros Hm Hk σ. unfold callback. specialize (Hm σ).
  destruct (m σ) as [[[a|e] σ1] t1]; simpl in *; [|done].
  specialize (Hk a σ1). destruct (k a σ1) as [[r σ2] t2]. simpl in *.
  by apply Forall_app.
Qed.

Lemma andThen_all φ (p k : P) : PAll φ p → PAll φ k → PAll φ (andThen p k).
Proof.
  intros Hp Hk σ. unfold andThen. specialize (Hp σ).
  destruct (p σ) as [[[s|] σ1] t1]; simpl in *; [done|].
  specialize (Hk σ1). destruct (k σ1) as [[r σ2] t2]. simpl in *.
  by apply Forall_app.
Qed.

Lemma failure_all φ msg reason :
  φ (EvLog msg) → PAll φ (callback (log msg) (λ _, reject reason)).
Proof. intros H. apply callback_all; [by apply log_all|intros _; apply reject_all]. Qed.

Lemma mkdirpSync_all φ d : φ (EvMkdirp d) → MAll φ (Fs.mkdirpSync d).
Proof.
  intros H σ. unfold Fs.mkdirpSync. destruct (Fs.blocked d σ); simpl; by repeat constructor.
Qed.

Lemma ensureDirSync_all φ d : φ (EvEnsureDir d) → MAll φ (Fs.ensureDirSync d).
Proof.
  intros H σ. unfold Fs.ensureDirSync. destruct (Fs.blocked d σ); simpl; by repeat constructor.
Qed.

Lemma emptyDirSync_all φ d : φ (EvEmptyDir d) → MAll φ (Fs.emptyDirSync d).
Proof.
  intros H σ. unfold Fs.emptyDirSync. destruct (Fs.blocked d σ); simpl; by repeat constructor.
Qed.

Lemma prepare_all φ this m b z :
  φ (EvMkdirp b) → φ (EvEnsureDir z) → φ (EvEmptyDir z) → φ (EvEmptyDir b) →
  (∀ msg, φ (EvLog msg)) →
  MAll φ (prepare this m b z).
Proof.
  intros H1 H2 H3 H4 Hlog. unfold prepare.
  apply bind_all; [by apply mkdirpSync_all|intros _].
  apply bind_all; [by apply ensureDirSync_all|intros _].
  apply bind_all; [by apply emptyDirSync_all|intros _].
  apply bind_all; [by apply log_all|intros _].
  apply bind_all; [by apply emptyDirSync_all|intros _].
  apply bind_all; [by apply log_all|intros _].
  by apply log_all.
Qed.

Lemma prepare_silent this m b z : MAll noCommand (prepare this m b z).
Proof. by apply prepare_all. Qed.

(** What blocks a directory depends on the files only, and stays away when
    files are removed. *)
Lemma blocked_files d σ σ' : files σ' = files σ → Fs.blocked d σ' = Fs.blocked d σ.
Proof. unfold Fs.blocked, Fs.belowFile, Fs.isFile. by intros ->. Qed.

Lemma blocked_dirs d σ D : Fs.blocked d {| files := files σ; dirs := D |} = Fs.blocked d σ.
Proof. by apply blocked_files. Qed.

Lemma blocked_None d σ :
  Fs.blocked d σ = None ↔
  files σ !! d = None ∧ ∀ q, Fs.under q d = true → files σ !! q = None.
Proof.
  unfold Fs.blocked, Fs.belowFile, Fs.isFile.
  destruct (bool_decide (filter _ (files σ) ≠ ∅)) eqn:Eb.
  - split; [done|]. intros [_ Hq]. apply bool_decide_eq_true in Eb. exfalso. apply Eb.
    apply map_empty. intros q. apply map_lookup_filter_None.
    destruct (Fs.under q d) eqn:Eq; [left; by apply Hq|right].
    intros v _. simpl. congruence.
  - apply bool_decide_eq_false in Eb.
    assert (Hq : ∀ q, Fs.under q d = true → files σ !! q = None).
    { intros q Hu. destruct (files σ !! q) as [v|] eqn:Ev; [|done].
      exfalso. apply Eb. intros Hempty.
      assert (filter (λ kv : string * string, Fs.under kv.1 d = true) (files σ) !! q = Some v)
        as Hin by (by apply map_lookup_filter_Some).
      by rewrite Hempty, lookup_empty in Hin. }
    destruct (bool_decide (is_Some (files σ !! d))) eqn:Ed.
    + split; [done|]. intros [Hd _]. apply bool_decide_eq_true in Ed.
      rewrite Hd in Ed. by destruct Ed.
    + apply bool_decide_eq_false in Ed. split; [|done]. intros _. split; [|done].
      destruct (files σ !! d); [|done]. exfalso. apply Ed. by eexists.
Qed.

Lemma blocked_filter d (keep : string * string → Prop) `{!∀ kv, Decision (keep kv)} σ D :
  Fs.blocked d σ = None →
  Fs.blocked d {| files := filter keep (files σ); dirs := D |} = None.
Proof.
  rewrite !blocked_None. simpl. intros [Hd Hq]. split.
  - apply map_lookup_filter_None. by left.
  - intros q Hu. apply map_lookup_filter_None. left. by apply Hq.
Qed.

Lemma bind_run {A B} (m : M A) (k : A → M B) σ :
  bind m k σ
  = match m σ with
    | (Ok a, σ1, t1) => match k a σ1 with (r, σ2, t2) => (r, σ2, (t1 ++ t2)%list) end
    | (Throw e, σ1, t1) => (Throw e, σ1, t1)
    end.
Proof. reflexivity. Qed.

Lemma mkdirpSync_run d σ :
  Fs.mkdirpSync d σ
  = match Fs.blocked d σ with
    | Some e => (Throw e, σ, [EvMkdirp d])
    | None => (Ok tt, {| files := files σ; dirs := {[d]} ∪ dirs σ |}, [EvMkdirp d])
    end.
Proof. reflexivity. Qed.

Lemma ensureDirSync_run d σ :
  Fs.ensureDirSync d σ
  = match Fs.blocked d σ with
    | Some e => (Throw e, σ, [EvEnsureDir d])
    | None => (Ok tt, {| files := files σ; dirs := {[d]} ∪ dirs σ |}, [EvEnsureDir d])
    end.
Proof. reflexivity. Qed.

Lemma emptyDirSync_run d σ :
  Fs.emptyDirSync d σ
  = match Fs.blocked d σ with
    | Some e => (Throw e, σ, [EvEmptyDir d])
    | None =>
        (Ok tt,
         {| files := filter (λ kv, Fs.under d kv.1 = false) (files σ);
            dirs := {[d]} ∪ filter (λ p, Fs.under d p = false) (dirs σ) |},
         [EvEmptyDir d])
    end.
Proof. reflexivity. Qed.

(** The synchronous part: it throws when the bind path or the
    requirements directory cannot be made a directory, and returns
    otherwise. *)
Lemma prepare_run this m b z σ :
  match Fs.blocked b σ, Fs.blocked z σ with
  | Some e, _ => prepare this m b z σ = (Throw e, σ, [EvMkdirp b])
  | None, Some e =>
      prepare this m b z σ
      = (Throw e, {| files := files σ; dirs := {[b]} ∪ dirs σ |}, [EvMkdirp b; EvEnsureDir z])
  | None, None =>
      ∃ t0,
        prepare this m b z σ
        = (Ok tt,
           {| files := filter (λ kv, Fs.under b kv.1 = false)
                         (filter (λ kv, Fs.under z kv.1 = false) (files σ));
              dirs := {[b]} ∪ filter (λ p, Fs.under b p = false)
                                 ({[z]} ∪ filter (λ p, Fs.under z p = false)
                                            ({[z]} ∪ ({[b]} ∪ dirs σ))) |},
           t0)
  end.
Proof.
  unfold prepare.
  destruct (Fs.blocked b σ) as [e|] eqn:Eb.
  { rewrite bind_run, (mkdirpSync_run b σ), Eb. by destruct (Fs.blocked z σ). }
  destruct (Fs.blocked z σ) as [e|] eqn:Ez.
  { rewrite bind_run, (mkdirpSync_run b σ), Eb, bind_run, ensureDirSync_run.
    by rewrite blocked_dirs, Ez. }
  rewrite bind_run, (mkdirpSync_run b σ), Eb, bind_run, ensureDirSync_run.
  rewrite blocked_dirs, Ez, bind_run, emptyDirSync_run. cbn [files dirs].
  rewrite blocked_dirs, Ez, bind_run. unfold log at 1.
  rewrite bind_run, emptyDirSync_run. cbn [files dirs].
  rewrite blocked_filter by done. unfold bind, log. by eexists.
Qed.

End TraceFacts.

(** ** The order of the commands *)

Section ChainFacts.
Context `{L : TOML} `{host : Host}.
Implicit Types (σ : fs) (cmds : list string) (thrown : list (list string)).

Lemma execM_runs cmd : runs cmd false (execM cmd).
Proof. intros σ. unfold execM. by destruct (exec cmd σ). Qed.

Lemma runs_may cmd (m : M execResult) : runs cmd false m → runs cmd true m.
Proof.
  intros Hm σ. specialize (Hm σ). destruct (m σ) as [[[] ?] ?]; [done|]. by destruct Hm.
Qed.

Lemma bind_runs {A} (pre : M A) (k : A → M execResult) cmd (may : bool) :
  MAll noCommand pre →
  (∀ σ, match pre σ with (Throw _, _, _) => may = true | _ => True end) →
  (∀ a, runs cmd may (k a)) →
  runs cmd may (bind pre k).
Proof.
  intros Hpre Hmay Hk σ. unfold bind. specialize (Hpre σ). specialize (Hmay σ).
  destruct (pre σ) as [[[a|e] σ1] t1]; simpl in *.
  - specialize (Hk a σ1). destruct (k a σ1) as [[[r|e] σ2] t2];
      rewrite commands_app, (commands_silent _ Hpre); simpl; done.
  - by rewrite (commands_silent _ Hpre).
Qed.

Lemma resolve_chain : chain [] [] resolve.
Proof. by intros σ. Qed.

(** A link that runs one command and rejects when it fails. *)
Lemma callback_chain (m : M execResult) (cmd : string) (may : bool)
  (msg : execResult → string) (k : execResult → P) cmds thrown :
  runs cmd may m →
  (∀ r, chain cmds thrown (k r)) →
  chain (cmd :: cmds) ((if may then [[]] else []) ++ map (cons cmd) thrown)
    (callback m (λ r, if err r then callback (log (msg r)) (λ _, reject None) else k r)).
Proof.
  intros Hm Hk σ. unfold callback at 1. specialize (Hm σ).
  destruct (m σ) as [[[r|e] σ1] t1].
  - destruct (err r).
    + simpl. rewrite commands_app, Hm. simpl.
      split; [done|]. split; [done|]. by exists cmds.
    + specialize (Hk r σ1). destruct (k r σ1) as [[[[reason|e]|] σ2] t2];
        rewrite commands_app, Hm; simpl.
      * destruct Hk as (-> & _ & Hpre). split; [done|]. split; [done|].
        by apply prefix_cons.
      * apply elem_of_app. right. apply list_elem_of_fmap. by eexists.
      * by rewrite Hk.
  - destruct Hm as [-> ->]. by left.
Qed.

Lemma andThen_chain (p k : P) cmds1 cmds2 thrown1 thrown2 :
  chain cmds1 thrown1 p → chain cmds2 thrown2 k →
  chain (cmds1 ++ cmds2) (thrown1 ++ map (app cmds1) thrown2) (andThen p k).
Proof.
  intros Hp Hk σ. unfold andThen. specialize (Hp σ).
  destruct (p σ) as [[[[reason|e]|] σ1] t1].
  - destruct Hp as (-> & Hne & Hpre). split; [done|]. split; [done|].
    by apply prefix_app_r.
  - apply elem_of_app. by left.
  - specialize (Hk σ1). destruct (k σ1) as [[[[reason|e]|] σ2] t2];
      rewrite commands_app, Hp.
    + destruct Hk as (-> & Hne & Hpre). split; [done|]. split.
      * intros [_ ?]%app_eq_nil. done.
      * destruct Hpre as [rest ->]. exists rest. by rewrite app_assoc.
    + apply elem_of_app. right. apply list_elem_of_fmap. by eexists.
    + by rewrite Hk.
Qed.

(** The cleanup link runs no command; it throws when the bind path cannot
    be emptied. *)
Lemma cleanupStep_chain d : chain [] [[]] (cleanupStep d).
Proof.
  intros σ. rewrite cleanupStep_run. destruct (Fs.blocked d σ); [|done].
  by apply list_elem_of_singleton.
Qed.

Lemma copyStep_chain this :
  chain [copyCommandOf this] []
    (copyStep this (Path.dirname (servicePath this)) (bindPathOf this)).
Proof.
  apply (callback_chain _ (copyCommandOf this) false _ (λ _, resolve) [] []).
  - apply execM_runs.
  - intros _. apply resolve_chain.
Qed.

Lemma buildStep_chain this tomlFilePaths :
  chain [dockerCommandOf this] [[]]
    (buildStep this (bindPathOf this) (Path.basename (servicePath this)) tomlFilePaths).
Proof.
  apply (callback_chain _ (dockerCommandOf this) true _
           (λ r, callback (log (stdout r)) (λ _, resolve)) [] []).
  - apply bind_runs.
    + destruct (0 <? String.length tomlFilePaths)%nat; [|apply ret_all].
      apply forEach_all. intros path. apply removeToml_silent.
    + intros σ.
      by match goal with |- context [?m σ] => destruct (m σ) as [[[|] ?] ?] end.
    + intros _. apply bind_runs; [apply log_all; exact I|intros σ; exact I|intros _].
      apply bind_runs; [apply log_all; exact I|intros σ; exact I|intros _].
      apply runs_may, execM_runs.
  - intros r σ. done.
Qed.

Lemma collectStep_chain this :
  chain [collectCommandOf this] []
    (collectStep (bindPathOf this) (Path.basename (servicePath this))
       (serverlessRequirementsZipPathOf this)).
Proof.
  apply (callback_chain _ (collectCommandOf this) false _ (λ _, resolve) [] []).
  - apply bind_runs; [apply log_all; exact I|intros σ; exact I|intros _]. apply execM_runs.
  - intros _. apply resolve_chain.
Qed.

Lemma afterCopy_chain this tomlFilePath :
  chain [findCommandOf this; dockerCommandOf this; collectCommandOf this]
        [[]; [findCommandOf this];
         [findCommandOf this; dockerCommandOf this; collectCommandOf this]]
    (afterCopy this tomlFilePath (bindPathOf this) (Path.basename (servicePath this))
       (serverlessRequirementsZipPathOf this)).
Proof.
  apply (callback_chain _ (findCommandOf this) true _
           (λ r, andThen (buildStep this (bindPathOf this) (Path.basename (servicePath this))
                            (stdout r))
                   (andThen (collectStep (bindPathOf this) (Path.basename (servicePath this))
                               (serverlessRequirementsZipPathOf this))
                      (cleanupStep (bindPathOf this))))
           [dockerCommandOf this; collectCommandOf this]
           [[]; [dockerCommandOf this; collectCommandOf this]]).
  - apply bind_runs; [apply log_all; exact I|intros σ; exact I|intros _].
    apply bind_runs; [apply removeToml_silent| |intros _].
    + intros σ.
      by match goal with |- context [?m σ] => destruct (m σ) as [[[|] ?] ?] end.
    + apply runs_may, execM_runs.
  - intros r.
    apply (andThen_chain _ _ [dockerCommandOf this] [collectCommandOf this] [[]]
             [[collectCommandOf this]]);
      [apply buildStep_chain|].
    apply (andThen_chain _ _ [collectCommandOf this] [] [] [[]]);
      [apply collectStep_chain|apply cleanupStep_chain].
Qed.

(** The chain that the call returns. *)
Lemma pipeline_chain this :
  chain [copyCommandOf this; findCommandOf this; dockerCommandOf this;
         collectCommandOf this]
        [[copyCommandOf this]; [copyCommandOf this; findCommandOf this];
         [copyCommandOf this; findCommandOf this; dockerCommandOf this;
          collectCommandOf this]]
    (andThen (copyStep this (Path.dirname (servicePath this)) (bindPathOf this))
       (afterCopy this (tomlFilePathOf this) (bindPathOf this)
          (Path.basename (servicePath this))
          (serverlessRequirementsZipPathOf this))).
Proof.
  exact (andThen_chain _ _ _ _ _ _ (copyStep_chain this)
           (afterCopy_chain this (tomlFilePathOf this))).
Qed.

End ChainFacts.

(** X9. The enabled pipeline runs its four commands in the order copy,
    find, install, collect. The call throws only from its preparation,
    before any command and before a promise exists. Otherwise it returns a
    promise: a fulfilled promise has run all four commands; a promise
    rejected by [reject()] carries no reason and has run at least the copy
    and no command out of order; an exception rejects the promise while a
    manifest is rewritten, after the copy alone or after the copy and the
    find, so that the install has not run, or when the bind path cannot be
    emptied at the end, after all four. *)
Theorem stages_run_in_order (L : TOML) (host : Host) (this : plugin) (σ : fs) :
  dockerBuildPoetryMonorepo (this_options this) = true →
  let all := [copyCommandOf this; findCommandOf this; dockerCommandOf this;
              collectCommandOf this] in
  match buildDockerPoetryMonorepo this σ with
  | (Throw _, _, t) => commands t = []
  | (Ok (Some Fulfilled), _, t) => commands t = all
  | (Ok (Some (RejectedBy (Reason reason))), _, t) =>
      reason = None ∧ commands t ≠ [] ∧ commands t `prefix_of` all
  | (Ok (Some (RejectedBy (Exception _))), _, t) =>
      commands t = take 1 all ∨ commands t = take 2 all ∨ commands t = all
  | (Ok None, _, _) => False
  end.
Proof.
  intros Hon all. unfold buildDockerPoetryMonorepo. rewrite Hon.
  cbv beta iota zeta delta [negb].
  pose proof (prepare_silent this (Path.dirname (servicePath this)) (bindPathOf this)
                (serverlessRequirementsZipPathOf this) σ) as Hs.
  destruct (prepare _ _ _ _ σ) as [[[[]|e] σ0] t0]; simpl in Hs;
    [|by apply commands_silent].
  pose proof (pipeline_chain this σ0) as Hc. unfold afterCopy, tomlFilePathOf in Hc.
  unfold settle.
  match type of Hc with match ?x with _ => _ end =>
    destruct x as [[[[reason|e]|] σ'] t] end;
    rewrite commands_app, (commands_silent _ Hs); [exact Hc| |exact Hc].
  apply elem_of_cons in Hc as [->|Hc]; [by left|].
  apply elem_of_cons in Hc as [->|Hc]; [right; by left|].
  apply elem_of_cons in Hc as [->|Hc]; [right; by right|].
  by apply elem_of_nil in Hc.
Qed.

Lemma stages_run_in_order_witness :
  (buildDockerPoetryMonorepo (L:=MiniToml.lib) (host:=Fixtures.host None)
     Fixtures.service Fixtures.deployed).1.1 = Ok (Some Fulfilled) ∧
  (buildDockerPoetryMonorepo (L:=MiniToml.lib) (host:=Fixtures.host (Some "docker"))
     Fixtures.service Fixtures.deployed).1.1 = Ok (Some (RejectedBy (Reason None))) ∧
  match buildDockerPoetryMonorepo (L:=MiniToml.lib) (host:=Fixtures.host None)
          Fixtures.service Fixtures.deployed with
  | (Throw _, _, t) => commands t = []
  | (Ok (Some Fulfilled), _, t) =>
      commands t = [copyCommandOf (host:=Fixtures.host None) Fixtures.service;
                    findCommandOf (host:=Fixtures.host None) Fixtures.service;
                    dockerCommandOf (host:=Fixtures.host None) Fixtures.service;
                    collectCommandOf (host:=Fixtures.host None) Fixtures.service]
  | (Ok (Some (RejectedBy (Reason reason))), _, t) =>
      reason = None ∧ commands t ≠ [] ∧
      commands t `prefix_of` [copyCommandOf (host:=Fixtures.host None) Fixtures.service;
                              findCommandOf (host:=Fixtures.host None) Fixtures.service;
                              dockerCommandOf (host:=Fixtures.host None) Fixtures.service;
                              collectCommandOf (host:=Fixtures.host None) Fixtures.service]
  | (Ok (Some (RejectedBy (Exception _))), _, t) =>
      commands t = take 1 [copyCommandOf (host:=Fixtures.host None) Fixtures.service;
                           findCommandOf (host:=Fixtures.host None) Fixtures.service;
                           dockerCommandOf (host:=Fixtures.host None) Fixtures.service;
                           collectCommandOf (host:=Fixtures.host None) Fixtures.service]
      ∨ commands t = take 2 [copyCommandOf (host:=Fixtures.host None) Fixtures.service;
                             findCommandOf (host:=Fixtures.host None) Fixtures.service;
                             dockerCommandOf (host:=Fixtures.host None) Fixtures.service;
                             collectCommandOf (host:=Fixtures.host None) Fixtures.service]
      ∨ commands t = [copyCommandOf (host:=Fixtures.host None) Fixtures.service;
                      findCommandOf (host:=Fixtures.host None) Fixtures.service;
                      dockerCommandOf (host:=Fixtures.host None) Fixtures.service;
                      collectCommandOf (host:=Fixtures.host None) Fixtures.service]
  | (Ok None, _, _) => False
  end.
Proof.
  split; [vm_compute; reflexivity|]. split; [vm_compute; reflexivity|].
  exact (stages_run_in_order MiniToml.lib (Fixtures.host None) Fixtures.service
           Fixtures.deployed eq_refl).
Defined.

(** Events that are listed and satisfy the predicate. *)
Ltac listed_events :=
  repeat first [apply List.Forall_nil | apply List.Forall_cons; [simpl; auto|]].

(** X10. Whatever the shell does and however the promise settles, the
    pipeline itself creates and removes no directory but the bind path,
    ensures no directory but the requirements directory, empties only
    these two, and never force-removes a file. *)
Theorem pipeline_keeps_to_its_two_directories (L : TOML) (host : Host) (this : plugin)
  (σ : fs) :
  Forall (tidy (bindPathOf this) (serverlessRequirementsZipPathOf this))
         (buildDockerPoetryMonorepo this σ).2.
Proof.
  unfold buildDockerPoetryMonorepo.
  destruct (dockerBuildPoetryMonorepo (this_options this));
    cbv beta iota zeta delta [negb]; [|constructor].
  set (b := bindPathOf this). set (z := serverlessRequirementsZipPathOf this).
  assert (Hprep : MAll (tidy b z) (prepare this (Path.dirname (servicePath this)) b z)).
  { apply prepare_all; simpl; auto. }
  specialize (Hprep σ).
  destruct (prepare _ _ _ _ σ) as [[[[]|e] σ0] t0]; simpl in Hprep; [|exact Hprep].
  match goal with |- context [settle ?p σ0] =>
    assert (Hc : PAll (tidy b z) p);
      [|specialize (Hc σ0); unfold settle;
        destruct (p σ0) as [[[r|] σ'] t]; simpl in *; by apply Forall_app] end.
  assert (Hfail : ∀ msg reason, PAll (tidy b z) (callback (log msg) (λ _, reject reason))).
  { intros msg reason. by apply failure_all. }
  apply andThen_all.
  { apply callback_all; [by apply execM_all|].
    intros r. destruct (err r); [apply Hfail|apply resolve_all]. }
  apply callback_all.
  { apply bind_all; [by apply log_all|intros _].
    apply bind_all; [apply removeToml_all; by intros []|intros _]. by apply execM_all. }
  intros r. destruct (err r); [apply Hfail|].
  apply andThen_all.
  { apply callback_all.
    - apply bind_all.
      + destruct (0 <? String.length (stdout r))%nat; [|apply ret_all].
        apply forEach_all. intros path. apply removeToml_all. by intros [].
      + intros _. apply bind_all; [by apply log_all|intros _].
        apply bind_all; [by apply log_all|intros _]. by apply execM_all.
    - intros r'. destruct (err r'); [apply Hfail|].
      apply callback_all; [by apply log_all|intros _; apply resolve_all]. }
  apply andThen_all.
  { apply callback_all.
    - apply bind_all; [by apply log_all|intros _]. by apply execM_all.
    - intros r'. destruct (err r'); [apply Hfail|apply resolve_all]. }
  intros σ1. rewrite cleanupStep_run.
  destruct (Fs.blocked b σ1); simpl; listed_events.
Qed.

(** X11. The preparation throws when the bind path or the requirements
    directory is a regular file or lies below one: the call then throws
    that error, no command has run and no promise exists. Otherwise, when
    the requirements directory does not lie below the bind path, the copy
    command runs on a file system in which the bind path and the
    requirements directory exist, nothing lies below the bind path, no file
    lies below the requirements directory, and every other file is as it
    was; from there the promise rejects without a reason when the copy
    fails, and goes on with the rest of the chain otherwise. *)
Theorem copy_starts_from_an_empty_staging_directory (L : TOML) (host : Host)
  (this : plugin) (σ : fs) :
  dockerBuildPoetryMonorepo (this_options this) = true →
  Fs.under (bindPathOf this) (serverlessRequirementsZipPathOf this) = false →
  match Fs.blocked (bindPathOf this) σ,
        Fs.blocked (serverlessRequirementsZipPathOf this) σ with
  | Some e, _ =>
      buildDockerPoetryMonorepo this σ = (Throw e, σ, [EvMkdirp (bindPathOf this)])
  | None, Some e =>
      buildDockerPoetryMonorepo this σ
      = (Throw e, {| files := files σ; dirs := {[bindPathOf this]} ∪ dirs σ |},
         [EvMkdirp (bindPathOf this); EvEnsureDir (serverlessRequirementsZipPathOf this)])
  | None, None =>
      ∃ σ0 t0,
        commands t0 = [] ∧
        bindPathOf this ∈ dirs σ0 ∧
        serverlessRequirementsZipPathOf this ∈ dirs σ0 ∧
        (∀ p, Fs.under (bindPathOf this) p = true → files σ0 !! p = None ∧ p ∉ dirs σ0) ∧
        (∀ p, Fs.under (serverlessRequirementsZipPathOf this) p = true →
              files σ0 !! p = None) ∧
        (∀ p, Fs.under (bindPathOf this) p = false →
              Fs.under (serverlessRequirementsZipPathOf this) p = false →
              files σ0 !! p = files σ !! p) ∧
        buildDockerPoetryMonorepo this σ
        = match exec (copyCommandOf this) σ0 with
          | (r, σ1) =>
              if err r then
                (Ok (Some (RejectedBy (Reason None))), σ1,
                 (t0 ++ [EvExec (copyCommandOf this);
                         EvLog ("Error copying files from "
                                +:+ Path.dirname (servicePath this)
                                +:+ " to " +:+ bindPathOf this +:+ ": " +:+ stderr r)])%list)
              else
                match settle (afterCopy this (tomlFilePathOf this) (bindPathOf this)
                                (Path.basename (servicePath this))
                                (serverlessRequirementsZipPathOf this)) σ1 with
                | (s, σ2, t2) =>
                    (Ok (Some s), σ2, (t0 ++ EvExec (copyCommandOf this) :: t2)%list)
                end
          end
  end.
Proof.
  intros Hon Hout.
  set (b := bindPathOf this). set (z := serverlessRequirementsZipPathOf this).
  pose proof (prepare_run this (Path.dirname (servicePath this)) b z σ) as Hrun.
  pose proof (prepare_silent this (Path.dirname (servicePath this)) b z σ) as Hs.
  unfold buildDockerPoetryMonorepo. rewrite Hon. cbv beta iota zeta delta [negb].
  fold b z.
  destruct (Fs.blocked b σ) as [e|] eqn:Eb; [by rewrite Hrun|].
  destruct (Fs.blocked z σ) as [e|] eqn:Ez; [by rewrite Hrun|].
  destruct Hrun as [t0 Hrun]. rewrite Hrun in Hs |- *. simpl in Hs.
  match type of Hrun with _ = (_, ?σ0, _) => exists σ0, t0 end.
  split; [by apply commands_silent|]. cbn [files dirs].
  split; [set_solver|].
  split.
  { apply elem_of_union. right. apply elem_of_filter. split; [done|set_solver]. }
  split.
  { intros p Hp. split.
    - apply map_lookup_filter_None. right. intros v _. simpl. congruence.
    - rewrite elem_of_union, elem_of_singleton, elem_of_filter.
      intros [->|[Hn _]]; [by rewrite under_irrefl in Hp|congruence]. }
  split.
  { intros p Hp. apply map_lookup_filter_None. left.
    apply map_lookup_filter_None. right. intros v _. simpl. congruence. }
  split.
  { intros p Hb Hz. destruct (files σ !! p) as [v|] eqn:Ef.
    - apply map_lookup_filter_Some. split; [|done].
      apply map_lookup_filter_Some. by split.
    - apply map_lookup_filter_None. left. apply map_lookup_filter_None. by left. }
  unfold settle. unfold andThen at 1. unfold copyStep, callback at 1, execM.
  change ("rsync -rav --progress " +:+ Path.dirname (servicePath this) +:+ "/ " +:+ b
          +:+ " --exclude node_modules --exclude .venv --exclude poetry.lock --exclude .git")
    with (copyCommandOf this).
  destruct (exec (copyCommandOf this) _) as [r σ1].
  destruct (err r); [done|].
  unfold resolve, afterCopy, tomlFilePathOf. fold b.
  match goal with |- context [locateStep ?a ?b ?c σ1] =>
    destruct (locateStep a b c σ1) as [[[s|] σ2] t2] end; done.
Qed.

Lemma copy_starts_from_an_empty_staging_directory_witness :
  Fs.blocked (serverlessRequirementsZipPathOf Fixtures.service)
    (fsOf [("/work/repo/api/.serverless/requirements", "a regular file")])
  = Some EEXIST ∧
  buildDockerPoetryMonorepo (L:=MiniToml.lib) (host:=Fixtures.host None) Fixtures.service
    (fsOf [("/work/repo/api/.serverless/requirements", "a regular file")])
  = (Throw EEXIST,
     {| files := files (fsOf [("/work/repo/api/.serverless/requirements", "a regular file")]);
        dirs := {[bindPathOf (host:=Fixtures.host None) Fixtures.service]}
                ∪ dirs (fsOf [("/work/repo/api/.serverless/requirements", "a regular file")]) |},
     [EvMkdirp (bindPathOf (host:=Fixtures.host None) Fixtures.service);
      EvEnsureDir (serverlessRequirementsZipPathOf Fixtures.service)]) ∧
  ∃ σ0 t0,
    commands t0 = [] ∧
    bindPathOf (host:=Fixtures.host (Some "rsync")) Fixtures.service ∈ dirs σ0 ∧
    serverlessRequirementsZipPathOf Fixtures.service ∈ dirs σ0 ∧
    (∀ p, Fs.under (bindPathOf (host:=Fixtures.host (Some "rsync")) Fixtures.service) p = true →
          files σ0 !! p = None ∧ p ∉ dirs σ0) ∧
    (∀ p, Fs.under (serverlessRequirementsZipPathOf Fixtures.service) p = true →
          files σ0 !! p = None) ∧
    (∀ p, Fs.under (bindPathOf (host:=Fixtures.host (Some "rsync")) Fixtures.service) p = false →
          Fs.under (serverlessRequirementsZipPathOf Fixtures.service) p = false →
          files σ0 !! p = files Fixtures.deployed !! p) ∧
    buildDockerPoetryMonorepo (L:=MiniToml.lib) (host:=Fixtures.host (Some "rsync"))
      Fixtures.service Fixtures.deployed
    = match exec (Host:=Fixtures.host (Some "rsync"))
              (copyCommandOf (host:=Fixtures.host (Some "rsync")) Fixtures.service) σ0 with
      | (r, σ1) =>
          if err r then
            (Ok (Some (RejectedBy (Reason None))), σ1,
             (t0 ++ [EvExec (copyCommandOf (host:=Fixtures.host (Some "rsync"))
                               Fixtures.service);
                     EvLog ("Error copying files from "
                            +:+ Path.dirname (servicePath Fixtures.service) +:+ " to "
                            +:+ bindPathOf (host:=Fixtures.host (Some "rsync")) Fixtures.service
                            +:+ ": " +:+ stderr r)])%list)
          else
            match settle (afterCopy (L:=MiniToml.lib) (host:=Fixtures.host (Some "rsync"))
                            Fixtures.service
                            (tomlFilePathOf (host:=Fixtures.host (Some "rsync"))
                               Fixtures.service)
                            (bindPathOf (host:=Fixtures.host (Some "rsync")) Fixtures.service)
                            (Path.basename (servicePath Fixtures.service))
                            (serverlessRequirementsZipPathOf Fixtures.service)) σ1 with
            | (s, σ2, t2) =>
                (Ok (Some s), σ2,
                 (t0 ++ EvExec (copyCommandOf (host:=Fixtures.host (Some "rsync"))
                                  Fixtures.service) :: t2)%list)
            end
      end.
Proof.
  split; [vm_compute; reflexivity|]. split.
  - exact (copy_starts_from_an_empty_staging_directory MiniToml.lib (Fixtures.host None)
             Fixtures.service
             (fsOf [("/work/repo/api/.serverless/requirements", "a regular file")]) eq_refl
             ltac:(vm_compute; reflexivity)).
  - exact (copy_starts_from_an_empty_staging_directory MiniToml.lib
             (Fixtures.host (Some "rsync")) Fixtures.service Fixtures.deployed eq_refl
             ltac:(vm_compute; reflexivity)).
Defined.

(** ** The listing of the manifests *)

Section LocatedManifests.
Context `{L : TOML} `{host : Host}.

Lemma text_cons (x : string) (l : list string) :
  Fixtures.text (x :: l) = x +:+ String "010" (Fixtures.text l).
Proof.
  assert (Hc : ∀ a b r, String.concat "" (a :: b :: r) = a +:+ String.concat "" (b :: r))
    by reflexivity.
  unfold Fixtures.text. destruct l as [|y l]; [done|]. cbn [map]. rewrite Hc.
  generalize (String.concat "" ((y +:+ nl) :: map (λ s, s +:+ nl) l)). intros rest.
  induction x as [|c x IH]; [done|].
  change (String c ((x +:+ nl) +:+ rest) = String c (x +:+ String "010" rest)).
  by rewrite IH.
Qed.

(** The lines of a text: its lines, and the empty string after the last
    newline. *)
Lemma split_text (l : list string) :
  Forall (whole "010") l → JsString.split "010" (Fixtures.text l) = (l ++ [""])%list.
Proof.
  induction 1 as [|x l Hx _ IH]; [done|].
  by rewrite text_cons, split_app, Hx, IH.
Qed.

Lemma forEach_skipped {A} (f : A → M unit) (l : list A) (a : A) σ :
  (∀ σ', f a σ' = (Ok tt, σ', [])) →
  forEach f (l ++ [a]) σ = forEach f l σ.
Proof.
  intros Ha. revert σ. induction l as [|b l IH]; intros σ; simpl.
  - unfold bind. by rewrite Ha.
  - unfold bind. destruct (f b σ) as [[[[]|e] σ1] t1]; [|done]. by rewrite IH.
Qed.

Lemma join_empty (l : list string) :
  Forall (whole "010") l → String.length (JsString.join nl l) = 0%nat →
  l = [] ∨ l = [""].
Proof.
  intros Hl Hlen. destruct l as [|x [|y l]]; [by left| |].
  - right. destruct x; [done|simpl in Hlen; lia].
  - exfalso. revert Hlen.
    change (JsString.join nl (x :: y :: l))
      with (x +:+ String "010" (JsString.join nl (y :: l))).
    generalize (JsString.join nl (y :: l)). intros rest.
    induction x as [|c x IH]; simpl; lia.
Qed.

(** The manifests of a listing are rewritten one by one, with or without
    the newline at its end. *)
Lemma listing_rewritten (bindPath : string) (paths : list string) σ :
  Forall (whole "010") paths →
  (if (0 <? String.length (Fixtures.text paths))%nat
   then forEach (λ path, removeTomlEditableDependencies (Some path) (Some bindPath))
          (JsString.split "010" (Fixtures.text paths))
   else ret tt) σ
  = (if (0 <? String.length (JsString.join nl paths))%nat
     then forEach (λ path, removeTomlEditableDependencies (Some path) (Some bindPath))
            (JsString.split "010" (JsString.join nl paths))
     else ret tt) σ.
Proof.
  intros Hl.
  set (f := λ path, removeTomlEditableDependencies (Some path) (Some bindPath)).
  assert (Hskip : ∀ σ', f "" σ' = (Ok tt, σ', [])) by done.
  rewrite split_text by done.
  destruct (Nat.ltb_spec 0 (String.length (JsString.join nl paths))) as [Hpos|Hzero].
  - assert (paths ≠ []) by (intros ->; simpl in Hpos; lia).
    unfold nl. rewrite split_join by done.
    destruct (0 <? String.length (Fixtures.text paths))%nat eqn:El.
    + by apply forEach_skipped.
    + destruct paths as [|x l]; [done|]. rewrite text_cons in El.
      apply Nat.ltb_ge in El. destruct x; simpl in El; lia.
  - destruct (join_empty paths Hl) as [->| ->]; [lia|done|done].
Qed.

End LocatedManifests.

(** X12. [find] ends every path it prints with a newline, so that the
    split of line 81 yields an empty string after the last path; the
    rewriter skips it: for paths without a newline in them, the build link
    does the same on the listing as [find] prints it as on the paths joined
    by newlines. *)
Theorem trailing_newline_is_harmless (L : TOML) (host : Host) (this : plugin)
  (bindPath apiDirName : string) (paths : list string) (σ : fs) :
  Forall (whole "010") paths →
  buildStep this bindPath apiDirName (Fixtures.text paths) σ
  = buildStep this bindPath apiDirName (JsString.join nl paths) σ.
Proof.
  intros Hl. pose proof (listing_rewritten bindPath paths σ Hl) as E.
  unfold buildStep, callback. unfold bind at 1 5. by rewrite E.
Qed.

Lemma trailing_newline_is_harmless_witness :
  Forall (whole "010") Samples.listing ∧
  JsString.split "010" (Fixtures.text Samples.listing) = (Samples.listing ++ [""])%list ∧
  buildStep (L:=MiniToml.lib) (host:=Fixtures.host None) Fixtures.service
    Fixtures.stagingDirectory "api" (Fixtures.text Samples.listing) Fixtures.deployed
  = buildStep (L:=MiniToml.lib) (host:=Fixtures.host None) Fixtures.service
      Fixtures.stagingDirectory "api" (JsString.join nl Samples.listing) Fixtures.deployed.
Proof.
  assert (H : Forall (whole "010") Samples.listing).
  { repeat (apply List.Forall_cons; [vm_compute; reflexivity|]). apply List.Forall_nil. }
  split; [exact H|]. split; [vm_compute; reflexivity|].
  exact (trailing_newline_is_harmless MiniToml.lib (Fixtures.host None) Fixtures.service
           Fixtures.stagingDirectory "api" Samples.listing Fixtures.deployed H).
Defined.

(** ** The incremental packager *)

(** X13. The enabled incremental update logs, then runs its [zip -ur]
    command on the file system as it is: unlike the full rebuild it removes
    nothing before, so the archive is updated in place. When the command
    fails the promise rejects with the diagnostic of the command, which is
    also logged; otherwise it is fulfilled. *)
Theorem incremental_update_keeps_the_archive (host : Host) (this : plugin) (σ : fs) :
  dockerBuildPoetryMonorepo (this_options this) = true →
  addDepsToZipFile this σ =
    match exec (addCommandOf this) σ with
    | (r, σ1) =>
        if err r then
          (Some (RejectedBy (Reason (Some (stderr r)))), σ1,
           [EvLog "Adding dependencies to zip file"; EvExec (addCommandOf this);
            EvLog ("Error zipping requirements files from "
                   +:+ serverlessRequirementsZipPathOf this +:+ ": " +:+ stderr r)])
        else
          (Some Fulfilled, σ1,
           [EvLog "Adding dependencies to zip file"; EvExec (addCommandOf this)])
    end.
Proof.
  intros Hon. unfold addDepsToZipFile. rewrite Hon. cbv beta iota zeta delta [negb].
  unfold settle, callback, bind, execM, log.
  destruct (exec (addCommandOf this) σ) as [r σ1]. by destruct (err r).
Qed.

Lemma incremental_update_keeps_the_archive_witness :
  addDepsToZipFile (host:=Fixtures.host (Some "zip")) Fixtures.service Fixtures.deployed
  = (Some (RejectedBy (Reason (Some "exit status 1"))), Fixtures.deployed,
     [EvLog "Adding dependencies to zip file";
      EvExec "cd /work/repo/api/.serverless/requirements; zip -ur ../api.zip ./*;";
      EvLog "Error zipping requirements files from /work/repo/api/.serverless/requirements: exit status 1"]) ∧
  addDepsToZipFile (host:=Fixtures.host None) Fixtures.service Fixtures.deployed
  = (Some Fulfilled, Fixtures.deployed,
     [EvLog "Adding dependencies to zip file";
      EvExec "cd /work/repo/api/.serverless/requirements; zip -ur ../api.zip ./*;"]).
Proof.
  split.
  - exact (incremental_update_keeps_the_archive (Fixtures.host (Some "zip")) Fixtures.service
             Fixtures.deployed eq_refl).
  - exact (incremental_update_keeps_the_archive (Fixtures.host None) Fixtures.service
             Fixtures.deployed eq_refl).
Defined.

(** ** The source paths of the handlers *)

Section HandlerFacts.
Import Handlers.
Implicit Types (m : gmap string entry) (named : list (string * string)).

Lemma visitAll_app (fs1 fs2 : list (string * option string)) m :
  visitAll (fs1 ++ fs2) m = rbind (visitAll fs1 m) (visitAll fs2).
Proof.
  revert m. induction fs1 as [|[n h] fs1 IH]; intros m; simpl; [done|].
  destruct (visit m h) as [m1|e]; simpl; [apply IH|done].
Qed.

Lemma absent_spec m k : absent m k = true ↔ m !! k = None ∧ k ∉ inherited.
Proof.
  unfold absent. destruct (m !! k).
  - split; [done|]. by intros [? _].
  - rewrite negb_true_iff, bool_decide_eq_false. tauto.
Qed.

Lemma visit_directory m h :
  inRoot h = false →
  visit m (Some h) = Ok (if absent m (Path.dirname h) then <[Path.dirname h := Flag]> m else m).
Proof. unfold visit, inRoot. intros ->. by destruct (absent m _). Qed.

Lemma visit_root m h l :
  inRoot h = true → m !! "root" = Some (Files l) →
  visit m (Some h) = Ok (<["root" := Files (l ++ [functionHandlerFile h])]> m).
Proof.
  unfold visit, inRoot. intros -> Hm. unfold absent. by rewrite Hm, Hm.
Qed.
Lemma flagged_directory m d dirs k :
  flagged (if absent m d then <[d := Flag]> m else m) dirs k = flagged m (d :: dirs) k.
Proof.
  unfold flagged. destruct (absent m d) eqn:Ea.
  - apply absent_spec in Ea as [Hd Hi].
    destruct (decide (k = d)) as [->|Hne].
    + rewrite lookup_insert_eq, Hd. rewrite bool_decide_true; [done|].
      split; [apply elem_of_cons; by left|done].
    + rewrite lookup_insert_ne by done. destruct (m !! k); [done|].
      rewrite (bool_decide_ext _ (k ∈ d :: dirs ∧ k ∉ inherited)); [done|].
      rewrite elem_of_cons. tauto.
  - destruct (m !! k) eqn:Ek; [done|].
    rewrite (bool_decide_ext _ (k ∈ d :: dirs ∧ k ∉ inherited)); [done|].
    rewrite elem_of_cons. split; [tauto|]. intros [[->|Hk] Hi]; [|done].
    exfalso. assert (absent m d = true) by (apply absent_spec; done). congruence.
Qed.


Lemma visitAll_cons n h named m :
  visitAll (withHandlers ((n, h) :: named)) m
  = rbind (visit m (Some h)) (visitAll (withHandlers named)).
Proof. reflexivity. Qed.

(** Handlers in directories only. *)
Lemma visitAll_directories named m :
  Forall (λ nh, inRoot nh.2 = false) named →
  ∃ m', visitAll (withHandlers named) m = Ok m' ∧
        ∀ k, m' !! k = flagged m (directories (map snd named)) k.
Proof.
  intros Hall. revert m. induction Hall as [|[n h] named Hh _ IH]; intros m.
  - exists m. split; [done|]. intros k. unfold flagged, directories. simpl.
    by destruct (m !! k).
  - simpl in Hh. rewrite visitAll_cons, visit_directory by done. simpl rbind.
    destruct (IH (if absent m (Path.dirname h) then <[Path.dirname h := Flag]> m else m))
      as (m' & -> & Hm').
    exists m'. split; [done|]. intros k. rewrite Hm', flagged_directory.
    unfold directories. simpl. rewrite filter_cons. simpl.
    by destruct (decide (inRoot h = false)).
Qed.

(** Once [paths.root] is an array. *)
Lemma visitAll_root named m l :
  m !! "root" = Some (Files l) →
  ∃ m', visitAll (withHandlers named) m = Ok m' ∧
        m' !! "root" = Some (Files (l ++ rootFiles (map snd named))) ∧
        ∀ k, k ≠ "root" → m' !! k = flagged m (directories (map snd named)) k.
Proof.
  revert m l. induction named as [|[n h] named IH]; intros m l Hm.
  - exists m. simpl. rewrite app_nil_r. split; [done|]. split; [done|].
    intros k _. unfold flagged, directories. simpl.
    by destruct (m !! k).
  - destruct (inRoot h) eqn:Eh.
    + rewrite visitAll_cons, (visit_root _ _ _ Eh Hm). simpl rbind.
      destruct (IH (<["root" := Files (l ++ [functionHandlerFile h])]> m)
                  (l ++ [functionHandlerFile h])%list) as (m' & -> & Hroot & Hm');
        [apply lookup_insert_eq|].
      exists m'. split; [done|]. split.
      * rewrite Hroot. unfold rootFiles. simpl. rewrite filter_cons. simpl.
        destruct (decide (inRoot h = true)); [|done]. by rewrite <- app_assoc.
      * intros k Hk. rewrite Hm' by done. unfold flagged.
        rewrite lookup_insert_ne by done. unfold directories. simpl. rewrite filter_cons.
        simpl. destruct (decide (inRoot h = false)); [congruence|done].
    + rewrite visitAll_cons, visit_directory by done. simpl rbind.
      set (m1 := if absent m (Path.dirname h) then <[Path.dirname h := Flag]> m else m).
      assert (Hm1 : m1 !! "root" = Some (Files l)).
      { unfold m1. destruct (absent m (Path.dirname h)) eqn:Ea; [|done].
        apply absent_spec in Ea as [Hd _]. rewrite lookup_insert_ne; [done|]. congruence. }
      destruct (IH m1 l Hm1) as (m' & -> & Hroot & Hm').
      exists m'. split; [done|]. split.
      * rewrite Hroot. unfold rootFiles. simpl. rewrite filter_cons. simpl.
        destruct (decide (inRoot h = true)); [congruence|done].
      * intros k Hk. rewrite Hm' by done. unfold m1. rewrite flagged_directory.
        unfold directories. simpl. rewrite filter_cons. simpl.
        by destruct (decide (inRoot h = false)).
Qed.

Lemma visit_throws m h e : visit m h = Throw e → e = TypeError.
Proof.
  unfold visit. destruct h as [h|]; [|by intros [= <-]].
  destruct (JsString.indexOf "/" h =? -1).
  - destruct (_ !! "root") as [[l|]|]; by intros [= <-].
  - by destruct (absent m _).
Qed.

Lemma visitAll_throws fs m e : visitAll fs m = Throw e → e = TypeError.
Proof.
  revert m. induction fs as [|[n h] fs IH]; intros m; simpl; [done|].
  destruct (visit m h) as [m1|e1] eqn:Ev; simpl; [apply IH|].
  intros [= <-]. by apply (visit_throws _ _ _ Ev).
Qed.

Lemma withHandlers_app named1 named2 :
  withHandlers (named1 ++ named2) = (withHandlers named1 ++ withHandlers named2)%list.
Proof. apply map_app. Qed.

Lemma rootFiles_directories named :
  Forall (λ nh, inRoot nh.2 = false) named → rootFiles (map snd named) = [].
Proof.
  induction 1 as [|[n h] named Hh _ IH]; [done|]. simpl in *.
  unfold rootFiles in *. simpl. rewrite filter_cons.
  destruct (decide (inRoot h = true)); [congruence|done].
Qed.

Lemma rootFiles_app l1 l2 : rootFiles (l1 ++ l2) = (rootFiles l1 ++ rootFiles l2)%list.
Proof. unfold rootFiles. by rewrite filter_app, map_app. Qed.

Lemma directories_app l1 l2 :
  directories (l1 ++ l2) = (directories l1 ++ directories l2)%list.
Proof. unfold directories. by rewrite filter_app, map_app. Qed.

Lemma rootFiles_cons_root h l :
  inRoot h = true → rootFiles (h :: l) = functionHandlerFile h :: rootFiles l.
Proof.
  intros Hh. unfold rootFiles. rewrite filter_cons.
  by destruct (decide (inRoot h = true)).
Qed.

Lemma directories_cons_root h l : inRoot h = true → directories (h :: l) = directories l.
Proof.
  intros Hh. unfold directories. rewrite filter_cons.
  destruct (decide (inRoot h = false)); [congruence|done].
Qed.

Lemma flagged_empty dirs k :
  flagged ∅ dirs k = if bool_decide (k ∈ dirs ∧ k ∉ inherited) then Some Flag else None.
Proof. unfold flagged. by rewrite lookup_empty. Qed.

(** The first handler at the root of the service, when no directory
    named [root] was recorded before it. *)
Lemma visitAll_first_root pre n h rest :
  Forall (λ nh, inRoot nh.2 = false) pre →
  inRoot h = true →
  visitAll (withHandlers (pre ++ (n, h) :: rest)) ∅
  = if bool_decide ("root" ∈ directories (map snd pre)) then Throw TypeError
    else rbind (visitAll (withHandlers pre) ∅)
           (λ m, visitAll (withHandlers rest)
                   (<["root" := Files [functionHandlerFile h]]> (<["root" := Files []]> m))).
Proof.
  intros Hpre Hh. rewrite withHandlers_app, visitAll_app.
  destruct (visitAll_directories pre ∅ Hpre) as (m & -> & Hm).
  cbv beta iota delta [rbind].
  rewrite visitAll_cons. unfold visit. unfold inRoot in Hh. rewrite Hh.
  specialize (Hm "root"). rewrite flagged_empty in Hm. unfold absent.
  assert (Hin : bool_decide ("root" ∈ inherited) = false) by (by vm_compute).
  destruct (bool_decide ("root" ∈ directories (map snd pre))) eqn:Ed.
  - apply bool_decide_eq_true in Ed. rewrite bool_decide_true in Hm.
    + by rewrite !Hm.
    + split; [done|]. by apply bool_decide_eq_false in Hin.
  - apply bool_decide_eq_false in Ed. rewrite bool_decide_false in Hm by tauto.
    rewrite Hm, Hin. cbv beta iota delta [negb]. by rewrite lookup_insert_eq.
Qed.

End HandlerFacts.

(** X14. When every handler lies in a directory, the call returns an
    object whose own properties are the directories of the handlers, each
    set to [true]; a directory that has the name of a property that every
    object inherits ([constructor], [toString], ...) is left out. *)
Theorem handler_directories_are_flagged (named : list (string * string)) :
  Forall (λ nh, inRoot nh.2 = false) named →
  ∃ paths,
    Handlers.getHandlerSourcePaths (withHandlers named) = Ok paths ∧
    ∀ k, paths !! k
         = if bool_decide (k ∈ directories (map snd named) ∧ k ∉ Handlers.inherited)
           then Some Handlers.Flag else None.
Proof.
  intros Hall. destruct (visitAll_directories named ∅ Hall) as (paths & Hp & Hk).
  exists paths. split; [exact Hp|]. intros k. by rewrite Hk, flagged_empty.
Qed.

(** X15. When a handler lies at the root of the service, and no handler
    before it lies in a directory named [root], the call returns an object
    whose [root] lists the module files of all the handlers at the root, in
    the order of the functions and with repetitions, and whose other
    properties are the directories of the other handlers. *)
Theorem root_handlers_are_listed_in_order (pre : list (string * string)) (n h : string)
  (rest : list (string * string)) :
  Forall (λ nh, inRoot nh.2 = false) pre →
  "root" ∉ directories (map snd pre) →
  inRoot h = true →
  ∃ paths,
    Handlers.getHandlerSourcePaths (withHandlers (pre ++ (n, h) :: rest)) = Ok paths ∧
    paths !! "root"
    = Some (Handlers.Files (rootFiles (map snd (pre ++ (n, h) :: rest)))) ∧
    ∀ k, k ≠ "root" →
         paths !! k
         = if bool_decide (k ∈ directories (map snd (pre ++ (n, h) :: rest))
                           ∧ k ∉ Handlers.inherited)
           then Some Handlers.Flag else None.
Proof.
  intros Hpre Hroot Hh. unfold Handlers.getHandlerSourcePaths.
  rewrite visitAll_first_root by done. rewrite bool_decide_false by done.
  destruct (visitAll_directories pre ∅ Hpre) as (m & -> & Hm).
  cbv beta iota delta [rbind].
  destruct (visitAll_root rest
              (<["root" := Handlers.Files [Handlers.functionHandlerFile h]]>
                 (<["root" := Handlers.Files []]> m))
              [Handlers.functionHandlerFile h]) as (paths & -> & Hfiles & Hrest);
    [apply lookup_insert_eq|].
  exists paths. split; [done|]. split.
  - rewrite Hfiles, map_app, rootFiles_app, (rootFiles_directories _ Hpre).
    cbn [map snd app]. by rewrite rootFiles_cons_root.
  - intros k Hk. rewrite Hrest by done. unfold flagged.
    rewrite !lookup_insert_ne, Hm by done. rewrite flagged_empty.
    rewrite map_app, directories_app. cbn [map snd].
    rewrite directories_cons_root by done.
    destruct (bool_decide (k ∈ directories (map snd pre) ∧ k ∉ Handlers.inherited)) eqn:E1.
    + apply bool_decide_eq_true in E1. rewrite bool_decide_true; [done|].
      rewrite elem_of_app. tauto.
    + apply bool_decide_eq_false in E1.
      rewrite (bool_decide_ext _ (k ∈ (directories (map snd pre)
                                       ++ directories (map snd rest))%list
                                  ∧ k ∉ Handlers.inherited)); [done|].
      rewrite elem_of_app. tauto.
Qed.

(** X16. A handler in a directory named [root] sets [paths.root] to
    [true]; the first handler at the root of the service after it makes the
    call throw a [TypeError], whatever functions follow. *)
Theorem directory_named_root_breaks_root_handlers (pre : list (string * string))
  (n h : string) (rest : list (string * string)) :
  Forall (λ nh, inRoot nh.2 = false) pre →
  "root" ∈ directories (map snd pre) →
  inRoot h = true →
  Handlers.getHandlerSourcePaths (withHandlers (pre ++ (n, h) :: rest)) = Throw TypeError.
Proof.
  intros Hpre Hroot Hh. unfold Handlers.getHandlerSourcePaths.
  rewrite visitAll_first_root by done. by rewrite bool_decide_true.
Qed.

(** X17. A function without a [handler] makes the call throw a
    [TypeError]. *)
Theorem function_without_handler_throws (functions : list (string * option string))
  (n : string) :
  (n, None) ∈ functions →
  Handlers.getHandlerSourcePaths functions = Throw TypeError.
Proof.
  intros (pre & rest & ->)%list_elem_of_split. unfold Handlers.getHandlerSourcePaths.
  rewrite visitAll_app.
  destruct (Handlers.visitAll pre ∅) as [m|e] eqn:E; simpl; [done|].
  by rewrite (visitAll_throws _ _ _ E).
Qed.

(** The four theorems on concrete services. *)

Lemma handler_directories_are_flagged_witness :
  directories (map snd Samples.sourceFunctions) = ["src"; "src/api"; "src"; "toString"] ∧
  ∃ paths,
    Handlers.getHandlerSourcePaths (withHandlers Samples.sourceFunctions) = Ok paths ∧
    paths !! "src" = Some Handlers.Flag ∧
    paths !! "src/api" = Some Handlers.Flag ∧
    paths !! "toString" = None ∧
    paths !! "root" = None.
Proof.
  assert (H : Forall (λ nh : string * string, inRoot nh.2 = false) Samples.sourceFunctions).
  { repeat (apply List.Forall_cons; [vm_compute; reflexivity|]). apply List.Forall_nil. }
  split; [vm_compute; reflexivity|].
  destruct (handler_directories_are_flagged Samples.sourceFunctions H) as (paths & Hp & Hk).
  exists paths. split; [exact Hp|]. rewrite !Hk. repeat split; vm_compute; reflexivity.
Defined.

Lemma root_handlers_are_listed_in_order_witness :
  ∃ paths,
    Handlers.getHandlerSourcePaths
      (withHandlers (Samples.sourceFunctions ++ ("ping", "ping.handler") :: Samples.laterFunctions))
    = Ok paths ∧
    paths !! "root" = Some (Handlers.Files ["ping.py"; "pong.py"; "ping.py"]) ∧
    paths !! "src" = Some Handlers.Flag ∧
    paths !! "lib" = Some Handlers.Flag.
Proof.
  assert (H : Forall (λ nh : string * string, inRoot nh.2 = false) Samples.sourceFunctions).
  { repeat (apply List.Forall_cons; [vm_compute; reflexivity|]). apply List.Forall_nil. }
  assert (Hroot : "root" ∉ directories (map snd Samples.sourceFunctions)).
  { apply (bool_decide_unpack _). vm_compute. exact I. }
  destruct (root_handlers_are_listed_in_order Samples.sourceFunctions "ping" "ping.handler"
              Samples.laterFunctions H Hroot eq_refl) as (paths & Hp & Hfiles & Hk).
  exists paths. split; [exact Hp|]. split; [exact Hfiles|].
  rewrite !Hk by done. split; vm_compute; reflexivity.
Defined.

Lemma directory_named_root_breaks_root_handlers_witness :
  Handlers.getHandlerSourcePaths (withHandlers Samples.rootDirectoryFunctions)
  = Ok {[ "root" := Handlers.Flag ]} ∧
  Handlers.getHandlerSourcePaths
    (withHandlers (Samples.rootDirectoryFunctions
                   ++ ("ping", "ping.handler") :: Samples.laterFunctions))
  = Throw TypeError.
Proof.
  assert (H : Forall (λ nh : string * string, inRoot nh.2 = false)
                Samples.rootDirectoryFunctions).
  { repeat (apply List.Forall_cons; [vm_compute; reflexivity|]). apply List.Forall_nil. }
  assert (Hroot : "root" ∈ directories (map snd Samples.rootDirectoryFunctions)).
  { apply (bool_decide_unpack _). vm_compute. exact I. }
  split; [vm_compute; reflexivity|].
  exact (directory_named_root_breaks_root_handlers Samples.rootDirectoryFunctions "ping"
           "ping.handler" Samples.laterFunctions H Hroot eq_refl).
Defined.

Lemma function_without_handler_throws_witness :
  Handlers.getHandlerSourcePaths
    [("hello", Some "src/handler.hello"); ("broken", None); ("ping", Some "ping.handler")]
  = Throw TypeError.
Proof.
  apply (function_without_handler_throws _ "broken").
  apply list_elem_of_lookup. by exists 1%nat.
Defined.

(** * The pipeline, step by step *)

Section StepFacts.
Context `{L : TOML} `{host : Host}.
Implicit Types (σ : fs).

(** What a link leaves, the events apart. *)
Lemma callback_fst {A} (m : M A) (k : A → P) σ :
  (callback m k σ).1
  = match (m σ).1 with
    | (Ok a, σ1) => (k a σ1).1
    | (Throw e, σ1) => (Some (Exception e), σ1)
    end.
Proof.
  unfold callback. destruct (m σ) as [[[a|e] σ1] t1]; [|reflexivity].
  cbn [fst snd]. destruct (k a σ1) as [[r σ2] t2]; reflexivity.
Qed.

Lemma bind_fst {A B} (m : M A) (k : A → M B) σ :
  (bind m k σ).1
  = match (m σ).1 with
    | (Ok a, σ1) => (k a σ1).1
    | (Throw e, σ1) => (Throw e, σ1)
    end.
Proof.
  unfold bind. destruct (m σ) as [[[a|e] σ1] t1]; [|reflexivity].
  cbn [fst snd]. destruct (k a σ1) as [[r σ2] t2]; reflexivity.
Qed.

Lemma andThen_fst (p k : P) σ :
  (andThen p k σ).1
  = match (p σ).1 with
    | (None, σ1) => (k σ1).1
    | (Some r, σ1) => (Some r, σ1)
    end.
Proof.
  unfold andThen. destruct (p σ) as [[[r|] σ1] t1]; [reflexivity|].
  cbn [fst snd]. destruct (k σ1) as [[r σ2] t2]; reflexivity.
Qed.

Lemma execM_fst cmd σ : (execM cmd σ).1 = (Ok (exec cmd σ).1, (exec cmd σ).2).
Proof. unfold execM. by destruct (exec cmd σ). Qed.

Lemma failure_fst msg reason σ :
  (callback (log msg) (λ _, reject reason) σ).1 = (Some (Reason reason), σ).
Proof. reflexivity. Qed.

(** The links, the events apart. *)
Lemma copyStep_fst this σ :
  (copyStep this (Path.dirname (servicePath this)) (bindPathOf this) σ).1
  = match exec (copyCommandOf this) σ with
    | (r, σ1) => (if err r then Some (Reason None) else None, σ1)
    end.
Proof.
  unfold copyStep. rewrite callback_fst, execM_fst.
  change ("rsync -rav --progress " +:+ Path.dirname (servicePath this) +:+ "/ "
          +:+ bindPathOf this
          +:+ " --exclude node_modules --exclude .venv --exclude poetry.lock --exclude .git")
    with (copyCommandOf this).
  destruct (exec (copyCommandOf this) σ) as [r σ1]. cbn [fst snd]. by destruct (err r).
Qed.

Lemma locateStep_fst this (k : string → P) σ :
  (locateStep (tomlFilePathOf this) (bindPathOf this) k σ).1
  = match (removeTomlEditableDependencies (Some (tomlFilePathOf this)) None σ).1 with
    | (Throw e, σ1) => (Some (Exception e), σ1)
    | (Ok _, σ1) =>
        match exec (findCommandOf this) σ1 with
        | (r, σ2) => if err r then (Some (Reason None), σ2) else (k (stdout r) σ2).1
        end
    end.
Proof.
  unfold locateStep. rewrite callback_fst, bind_fst. cbn [log fst snd].
  rewrite bind_fst.
  destruct (removeTomlEditableDependencies _ _ σ) as [[[[]|e] σ1] t1]; [|done].
  cbn [fst snd]. rewrite execM_fst.
  change ("find " +:+ bindPathOf this +:+ " -name " +:+ dquote +:+ "pyproject.toml" +:+ dquote)
    with (findCommandOf this).
  destruct (exec (findCommandOf this) σ1) as [r σ2]. cbn [fst snd]. by destruct (err r).
Qed.

(** The guard of line 80 makes no difference: the one entry of an empty
    listing is skipped by the rewriter. *)
Lemma guarded_loop (root : option string) (listing : string) σ :
  (if (0 <? String.length listing)%nat
   then forEach (λ path, removeTomlEditableDependencies (Some path) root)
          (JsString.split "010" listing)
   else ret tt) σ
  = forEach (λ path, removeTomlEditableDependencies (Some path) root)
      (JsString.split "010" listing) σ.
Proof. by destruct listing. Qed.

Lemma buildStep_fst this (listing : string) σ :
  (buildStep this (bindPathOf this) (Path.basename (servicePath this)) listing σ).1
  = match (forEach (λ path, removeTomlEditableDependencies (Some path)
                              (Some (bindPathOf this)))
             (JsString.split "010" listing) σ).1 with
    | (Throw e, σ1) => (Some (Exception e), σ1)
    | (Ok _, σ1) =>
        match exec (dockerCommandOf this) σ1 with
        | (r, σ2) => (if err r then Some (Reason None) else None, σ2)
        end
    end.
Proof.
  unfold buildStep. rewrite callback_fst, bind_fst, guarded_loop.
  destruct (forEach _ _ σ) as [[[[]|e] σ1] t1]; [|done].
  cbn [fst snd]. rewrite bind_fst. cbn [log fst snd]. rewrite bind_fst. cbn [log fst snd].
  rewrite execM_fst.
  change ("docker run --rm -v " +:+ bindPathOf this +:+ ":/var/task:z -w /var/task/"
          +:+ Path.basename (servicePath this) +:+ " " +:+ dockerImage (this_options this)
          +:+ " poetry install --no-dev")
    with (dockerCommandOf this).
  destruct (exec (dockerCommandOf this) σ1) as [r σ2]. cbn [fst snd]. by destruct (err r).
Qed.

Lemma collectStep_fst this σ :
  (collectStep (bindPathOf this) (Path.basename (servicePath this))
     (serverlessRequirementsZipPathOf this) σ).1
  = match exec (collectCommandOf this) σ with
    | (r, σ1) => (if err r then Some (Reason None) else None, σ1)
    end.
Proof.
  unfold collectStep. rewrite callback_fst, bind_fst. cbn [log fst snd]. rewrite execM_fst.
  match goal with |- context [exec ?c σ] => change c with (collectCommandOf this) end.
  destruct (exec (collectCommandOf this) σ) as [r σ1]. cbn [fst snd]. by destruct (err r).
Qed.

(** *** Each link resolves exactly when its step succeeds *)

Lemma commandSucceeds_run cmd σ σ' :
  commandSucceeds cmd σ σ' ↔ err (exec cmd σ).1 = false ∧ σ' = (exec cmd σ).2.
Proof.
  unfold commandSucceeds, commandPrints. split.
  - intros (out & r & E & Herr & _). by rewrite E.
  - intros [Herr ->]. exists (stdout (exec cmd σ).1), (exec cmd σ).1.
    by destruct (exec cmd σ).
Qed.

Lemma commandPrints_run cmd out σ σ' :
  commandPrints cmd out σ σ' ↔
  err (exec cmd σ).1 = false ∧ out = stdout (exec cmd σ).1 ∧ σ' = (exec cmd σ).2.
Proof.
  unfold commandPrints. split.
  - intros (r & E & Herr & <-). by rewrite E.
  - intros (Herr & -> & ->). exists (exec cmd σ).1. by destruct (exec cmd σ).
Qed.

Lemma rewriteSucceeds_run (p : string) root σ σ' :
  rewriteSucceeds p root σ σ' ↔
  (removeTomlEditableDependencies (Some p) root σ).1 = (Ok tt, σ').
Proof.
  unfold rewriteSucceeds. split.
  - by intros [t ->].
  - destruct (removeTomlEditableDependencies _ _ σ) as [[[[]|e] σ1] t1]; [|done].
    intros [= <-]. by exists t1.
Qed.

(** The loop over the manifests returns exactly when every rewrite does. *)
Lemma forEach_allRewritten root (paths : list string) σ :
  match (forEach (λ path, removeTomlEditableDependencies (Some path) root) paths σ).1 with
  | (Ok _, σ1) =>
      allRewritten root paths σ σ1 ∧ ∀ σ'', allRewritten root paths σ σ'' → σ'' = σ1
  | (Throw _, _) => ∀ σ'', ¬ allRewritten root paths σ σ''
  end.
Proof.
  revert σ. induction paths as [|q paths IH]; intros σ.
  - simpl. split; [done|]. by intros σ'' ->.
  - cbn [forEach allRewritten]. rewrite bind_fst.
    destruct (removeTomlEditableDependencies (Some q) root σ) as [[[[]|e] σ1] t1] eqn:E;
      cbn [fst snd].
    + specialize (IH σ1).
      destruct (forEach _ paths σ1) as [[[[]|e] σ2] t2]; cbn [fst snd] in *.
      * destruct IH as [Hall Huniq]. split.
        { exists σ1. split; [by exists t1|done]. }
        intros σ'' (σ1' & [t1' E'] & Hrest). rewrite E in E'. injection E' as <- _.
        by apply Huniq.
      * intros σ'' (σ1' & [t1' E'] & Hrest). rewrite E in E'. injection E' as <- _.
        by apply (IH σ'').
    + intros σ'' (σ1' & [t1' E'] & _). by rewrite E in E'.
Qed.

Lemma andThen_decides (p k : P) (R S : fs → fs → Prop) :
  decides p R → decides k S → decides (andThen p k) (λ σ σ', ∃ σ1, R σ σ1 ∧ S σ1 σ').
Proof.
  intros Hp Hk σ. rewrite andThen_fst. specialize (Hp σ).
  destruct (p σ).1 as [[r|] σ1].
  - intros σ'' (σ1' & HR & _). by apply (Hp σ1').
  - destruct Hp as [HR Huniq]. specialize (Hk σ1).
    destruct (k σ1).1 as [[r|] σ2].
    + intros σ'' (σ1' & HR' & HS). rewrite (Huniq _ HR') in HS. by apply (Hk σ'').
    + destruct Hk as [HS Huniq']. split; [by exists σ1|].
      intros σ'' (σ1' & HR' & HS'). rewrite (Huniq _ HR') in HS'. by apply Huniq'.
Qed.

Lemma copyStep_decides this :
  decides (copyStep this (Path.dirname (servicePath this)) (bindPathOf this))
          (commandSucceeds (copyCommandOf this)).
Proof.
  intros σ. rewrite copyStep_fst.
  destruct (exec (copyCommandOf this) σ) as [r σ1] eqn:E.
  destruct (err r) eqn:Herr.
  - intros σ'' [Hok _]%commandSucceeds_run. rewrite E in Hok. simpl in Hok. congruence.
  - split.
    + apply commandSucceeds_run. by rewrite E.
    + intros σ'' [_ ->]%commandSucceeds_run. by rewrite E.
Qed.

Lemma collectStep_decides this :
  decides (collectStep (bindPathOf this) (Path.basename (servicePath this))
             (serverlessRequirementsZipPathOf this))
          (commandSucceeds (collectCommandOf this)).
Proof.
  intros σ. rewrite collectStep_fst.
  destruct (exec (collectCommandOf this) σ) as [r σ1] eqn:E.
  destruct (err r) eqn:Herr.
  - intros σ'' [Hok _]%commandSucceeds_run. rewrite E in Hok. simpl in Hok. congruence.
  - split.
    + apply commandSucceeds_run. by rewrite E.
    + intros σ'' [_ ->]%commandSucceeds_run. by rewrite E.
Qed.

Lemma buildStep_decides this listing :
  decides (buildStep this (bindPathOf this) (Path.basename (servicePath this)) listing)
          (buildSucceeds this listing).
Proof.
  intros σ. rewrite buildStep_fst. unfold buildSucceeds.
  pose proof (forEach_allRewritten (Some (bindPathOf this)) (JsString.split "010" listing) σ)
    as Hloop.
  destruct (forEach _ _ σ).1 as [[[]|e] σ1].
  - destruct Hloop as [Hall Huniq].
    destruct (exec (dockerCommandOf this) σ1) as [r σ2] eqn:E.
    destruct (err r) eqn:Herr.
    + intros σ'' (σ1' & Hall' & [Hok _]%commandSucceeds_run).
      rewrite (Huniq _ Hall'), E in Hok. simpl in Hok. congruence.
    + split.
      * exists σ1. split; [done|]. apply commandSucceeds_run. by rewrite E.
      * intros σ'' (σ1' & Hall' & [_ ->]%commandSucceeds_run).
        by rewrite (Huniq _ Hall'), E.
  - intros σ'' (σ1' & Hall' & _). by apply (Hloop σ1').
Qed.

Lemma cleanupStep_decides d : decides (cleanupStep d) (cleaned d).
Proof.
  intros σ. rewrite cleanupStep_run. unfold cleaned.
  rewrite emptyDirSync_run.
  destruct (Fs.blocked d σ) as [e|]; cbn [fst snd].
  - by intros σ'' (σ1 & t1 & t2 & [=] & _).
  - assert (Hrm : ∀ σ1, σ1 = {| files := filter (λ kv, Fs.under d kv.1 = false) (files σ);
                                dirs := {[d]} ∪ filter (λ p, Fs.under d p = false) (dirs σ) |} →
              Fs.rmdirSync d σ1
              = (Ok tt, {| files := files σ1; dirs := dirs σ1 ∖ {[d]} |}, [EvRmdir d])).
    { intros σ1 ->. unfold Fs.rmdirSync. cbn [files dirs].
      rewrite bool_decide_true by set_solver. by rewrite emptied_nonEmpty. }
    split.
    + eexists _, _, _. split; [done|]. by rewrite (Hrm _ eq_refl).
    + intros σ'' (σ1 & t1 & t2 & [= <- <-] & Hrmdir).
      rewrite (Hrm _ eq_refl) in Hrmdir. by injection Hrmdir as <- _.
Qed.

Lemma locateStep_decides this (k : string → P) (S : string → fs → fs → Prop) :
  (∀ listing, decides (k listing) (S listing)) →
  decides (locateStep (tomlFilePathOf this) (bindPathOf this) k)
          (λ σ σ', ∃ listing σ1, locateSucceeds this listing σ σ1 ∧ S listing σ1 σ').
Proof.
  intros Hk σ. rewrite locateStep_fst. unfold locateSucceeds.
  destruct (removeTomlEditableDependencies _ _ σ).1 as [[[]|e] σ1] eqn:E.
  - destruct (exec (findCommandOf this) σ1) as [r σ2] eqn:Ex.
    assert (Hdet : ∀ listing σ2', (∃ σ1', rewriteSucceeds (tomlFilePathOf this) None σ σ1' ∧
                                         commandPrints (findCommandOf this) listing σ1' σ2') →
                     err r = false ∧ listing = stdout r ∧ σ2' = σ2).
    { intros listing σ2' (σ1' & Hrw%rewriteSucceeds_run & Hp%commandPrints_run).
      rewrite E in Hrw. injection Hrw as <-. by rewrite Ex in Hp. }
    destruct (err r) eqn:Herr.
    + intros σ'' (listing & σ2' & Hloc & _). by destruct (Hdet _ _ Hloc).
    + specialize (Hk (stdout r) σ2). destruct (k (stdout r) σ2).1 as [[rj|] σ3].
      * intros σ'' (listing & σ2' & Hloc & HS). destruct (Hdet _ _ Hloc) as (_ & -> & ->).
        by apply (Hk σ'').
      * destruct Hk as [HS Huniq]. split.
        { exists (stdout r), σ2. split; [|done]. exists σ1. split.
          - by apply rewriteSucceeds_run.
          - apply commandPrints_run. by rewrite Ex. }
        intros σ'' (listing & σ2' & Hloc & HS'). destruct (Hdet _ _ Hloc) as (_ & -> & ->).
        by apply Huniq.
  - intros σ'' (listing & σ2' & (σ1' & Hrw%rewriteSucceeds_run & _) & _).
    by rewrite E in Hrw.
Qed.

(** The chain that the call returns resolves exactly when every step
    after the preparation succeeds. *)
Lemma pipeline_decides this :
  decides
    (andThen (copyStep this (Path.dirname (servicePath this)) (bindPathOf this))
       (afterCopy this (tomlFilePathOf this) (bindPathOf this)
          (Path.basename (servicePath this)) (serverlessRequirementsZipPathOf this)))
    (λ σ0 σ', ∃ σ1 σ2 σ3 σ4 listing,
       commandSucceeds (copyCommandOf this) σ0 σ1 ∧
       locateSucceeds this listing σ1 σ2 ∧
       buildSucceeds this listing σ2 σ3 ∧
       commandSucceeds (collectCommandOf this) σ3 σ4 ∧
       cleaned (bindPathOf this) σ4 σ').
Proof.
  pose proof (andThen_decides _ _ _ _ (copyStep_decides this)
                (locateStep_decides this _ _
                   (λ listing, andThen_decides _ _ _ _ (buildStep_decides this listing)
                                 (andThen_decides _ _ _ _ (collectStep_decides this)
                                    (cleanupStep_decides (bindPathOf this)))))) as Hd.
  intros σ0. specialize (Hd σ0). unfold afterCopy.
  match type of Hd with match ?x with _ => _ end => destruct x as [[r|] σ'] end.
  - intros σ'' (σ1 & σ2 & σ3 & σ4 & listing & H1 & H2 & H3 & H4 & H5).
    apply (Hd σ''). exists σ1. split; [done|]. exists listing, σ2. split; [done|].
    exists σ3. split; [done|]. by exists σ4.
  - destruct Hd as [(σ1 & H1 & listing & σ2 & H2 & σ3 & H3 & σ4 & H4 & H5) Huniq]. split.
    + by exists σ1, σ2, σ3, σ4, listing.
    + intros σ'' (σ1' & σ2' & σ3' & σ4' & listing' & H1' & H2' & H3' & H4' & H5').
      apply Huniq. exists σ1'. split; [done|]. exists listing', σ2'. split; [done|].
      exists σ3'. split; [done|]. by exists σ4'.
Qed.

End StepFacts.

(** ** The staging directory at the end of the pipeline *)

(** C3 does not hold as the specification states it: when the copy fails
    the promise rejects, and the staging directory is still there. *)
Lemma staging_directory_survives_failed_copy :
  (buildDockerPoetryMonorepo (L:=MiniToml.lib) (host:=Fixtures.host (Some "rsync"))
     Fixtures.service Fixtures.deployed).1.1 = Ok (Some (RejectedBy (Reason None))) ∧
  bindPathOf (host:=Fixtures.host (Some "rsync")) Fixtures.service = Fixtures.stagingDirectory ∧
  bool_decide (Fixtures.stagingDirectory ∈
     dirs (buildDockerPoetryMonorepo (L:=MiniToml.lib) (host:=Fixtures.host (Some "rsync"))
             Fixtures.service Fixtures.deployed).1.2) = true.
Proof. repeat split; vm_compute; reflexivity. Qed.

(** C3, amended. For the enabled pipeline one of two things holds. Either
    every step succeeds: the preparation, the copy, the rewrite of the
    service's manifest, the search, the rewrite of every manifest found,
    the install, the collection, and the emptying and removal of the
    staging directory; then the call returns a promise that is fulfilled,
    emptying and removing the staging directory were the last acts, and
    the directory and what was below it are gone. Or one of these steps
    fails: then the pipeline has not removed the staging directory, and
    the call has returned a promise that is rejected, unless it was the
    preparation that failed, in which case the call itself has thrown,
    before any command. *)
Theorem staging_directory_removed_on_success_only (L : TOML) (host : Host)
  (this : plugin) (σ : fs) :
  dockerBuildPoetryMonorepo (this_options this) = true →
  (∃ σ' t0,
     everyStepSucceeds this σ σ' ∧
     buildDockerPoetryMonorepo this σ
     = (Ok (Some Fulfilled), σ', (t0 ++ cleanupEvents (bindPathOf this))%list) ∧
     removed (bindPathOf this) σ')
  ∨ ((∀ σ', ¬ everyStepSucceeds this σ σ') ∧
     ∃ o σ' t,
       buildDockerPoetryMonorepo this σ = (o, σ', t) ∧
       (EvRmdir (bindPathOf this) ∉ t) ∧
       ((∃ r σ0, o = Ok (Some (RejectedBy r)) ∧ prepared this σ σ0)
        ∨ (∃ e, o = Throw e ∧ commands t = [] ∧ ∀ σ0, ¬ prepared this σ σ0))).
Proof.
  intros Hon. unfold buildDockerPoetryMonorepo. rewrite Hon.
  cbv beta iota zeta delta [negb].
  pose proof (prepare_quiet (bindPathOf this) this (Path.dirname (servicePath this))
                (bindPathOf this) (serverlessRequirementsZipPathOf this) σ) as Hq.
  pose proof (prepare_silent this (Path.dirname (servicePath this)) (bindPathOf this)
                (serverlessRequirementsZipPathOf this) σ) as Hs.
  destruct (prepare _ _ _ _ σ) as [[[[]|e] σ0] t0] eqn:Eprep; simpl in Hq, Hs.
  - assert (Hprep : ∀ σ0', prepared this σ σ0' → σ0' = σ0).
    { intros σ0' [t0' E']. rewrite Eprep in E'. by injection E' as <- _. }
    pose proof (pipeline_decides this σ0) as Hd.
    pose proof (andThen_cleansUp (bindPathOf this) _ _
                  (copyStep_quiet host (bindPathOf this) this
                     (Path.dirname (servicePath this)) (bindPathOf this))
                  (afterCopy_cleansUp L host this (tomlFilePathOf this) (bindPathOf this)
                     (Path.basename (servicePath this))
                     (serverlessRequirementsZipPathOf this)) σ0) as Hc.
    unfold afterCopy, tomlFilePathOf in Hd, Hc. unfold settle.
    match type of Hc with context [?c σ0] => destruct (c σ0) as [[[r|] σ'] t] end;
      cbn [fst snd] in Hd, Hc.
    + right. split.
      * intros σ'' (σ0' & σ1 & σ2 & σ3 & σ4 & listing & Hp & H1 & H2 & H3 & H4 & H5).
        apply Hprep in Hp as ->. apply (Hd σ''). by exists σ1, σ2, σ3, σ4, listing.
      * eexists _, _, _. split; [done|]. split; [by apply quiet_app|].
        left. exists r, σ0. split; [done|]. by exists t0.
    + left. destruct Hd as [(σ1 & σ2 & σ3 & σ4 & listing & H1 & H2 & H3 & H4 & H5) _].
      destruct Hc as [[tc ->] Hrem]. exists σ', (t0 ++ tc)%list. split.
      * exists σ0, σ1, σ2, σ3, σ4, listing. split; [by exists t0|done].
      * split; [by rewrite app_assoc|done].
  - assert (Hprep : ∀ σ0', ¬ prepared this σ σ0').
    { intros σ0' [t0' E']. by rewrite Eprep in E'. }
    right. split.
    + intros σ'' (σ0' & σ1 & σ2 & σ3 & σ4 & listing & Hp & _). by apply (Hprep σ0').
    + eexists _, _, _. split; [done|]. split; [done|].
      right. exists e. split; [done|]. split; [by apply commands_silent|done].
Qed.

Lemma staging_directory_removed_on_success_only_witness :
  (∃ σ' t0,
     everyStepSucceeds (L:=MiniToml.lib) (host:=Fixtures.host None) Fixtures.service
       Fixtures.deployed σ' ∧
     buildDockerPoetryMonorepo (L:=MiniToml.lib) (host:=Fixtures.host None)
       Fixtures.service Fixtures.deployed
     = (Ok (Some Fulfilled), σ',
        (t0 ++ cleanupEvents (bindPathOf (host:=Fixtures.host None) Fixtures.service))%list) ∧
     removed (bindPathOf (host:=Fixtures.host None) Fixtures.service) σ') ∧
  (∀ σ', ¬ everyStepSucceeds (L:=MiniToml.lib) (host:=Fixtures.host (Some "docker"))
             Fixtures.service Fixtures.deployed σ') ∧
  (buildDockerPoetryMonorepo (L:=MiniToml.lib) (host:=Fixtures.host (Some "docker"))
     Fixtures.service Fixtures.deployed).1.1 = Ok (Some (RejectedBy (Reason None))).
Proof.
  assert (H1 : (buildDockerPoetryMonorepo (L:=MiniToml.lib) (host:=Fixtures.host None)
                  Fixtures.service Fixtures.deployed).1.1 = Ok (Some Fulfilled))
    by (vm_compute; reflexivity).
  assert (H2 : (buildDockerPoetryMonorepo (L:=MiniToml.lib)
                  (host:=Fixtures.host (Some "docker"))
                  Fixtures.service Fixtures.deployed).1.1
               = Ok (Some (RejectedBy (Reason None))))
    by (vm_compute; reflexivity).
  split; [|split; [|exact H2]].
  - destruct (staging_directory_removed_on_success_only MiniToml.lib (Fixtures.host None)
                Fixtures.service Fixtures.deployed eq_refl)
      as [H|[_ (o & σ' & t & E & _ & [(r & σ0 & -> & _)|(e & -> & _)])]];
      [exact H| |]; rewrite E in H1; discriminate H1.
  - destruct (staging_directory_removed_on_success_only MiniToml.lib
                (Fixtures.host (Some "docker")) Fixtures.service Fixtures.deployed eq_refl)
      as [(σ' & t0 & _ & E & _)|[Hno _]]; [|exact Hno].
    rewrite E in H2. discriminate H2.
Defined.

(** ** The manifests that the pipeline rewrites *)

Section ManifestPath.
Import JsString Path.

Lemma length_app (a b : string) :
  String.length (a +:+ b) = (String.length a + String.length b)%nat.
Proof. induction a as [|c a IH]; simpl; [done|]. by rewrite IH. Qed.






End ManifestPath.



Section LocatedFacts.
Context `{L : TOML} `{host : Host}.
Implicit Types (σ : fs).






End LocatedFacts.


